(** * ChannelManager: the cache-consistency core

    A shallow embedding of the Go sources of the property-search service:
    the Redis adapter ([package cache]), the search-key codec and the read
    handlers ([package handlers]), the event repository
    ([package database]) and the change-event relay
    ([handlers.EventListener]).

    Go [int], [uint] and [int64] values are [Z]; [string]s are byte strings
    ([String.string]); a [time.Duration] is a [Z] count of nanoseconds;
    a [float64]/[float32] is a [spec_float]. *)

From Stdlib Require Import ZArith NArith List Ascii String Strings.Byte Bool Lia.
From Stdlib Require Import DecimalString DecimalZ HexadecimalString.
From Stdlib Require Import Floats.SpecFloat Sorting.Sorted.
From stdpp Require Import gmap strings.

Local Open Scope string_scope.
Local Open Scope Z_scope.

(** ** Text: the part of [fmt], [strconv] and [encoding/hex] the program uses *)

Module Text.

(** [%d] of a Go integer. *)
Definition dec (z : Z) : string := DecimalString.NilZero.string_of_int (Z.to_int z).

(** Lower-case hexadecimal without leading zeros, as [%x] prints it. *)
Definition hex (n : N) : string :=
  HexadecimalString.NilZero.string_of_uint (N.to_hex_uint n).

Fixpoint zeros (n : nat) : string :=
  match n with O => "" | S n' => String "0" (zeros n') end.

(** Left-pad with ['0'] up to [width] bytes. *)
Definition pad0 (width : nat) (s : string) : string :=
  zeros (width - String.length s) +:+ s.

(** [time.appendInt]: sign first, then the magnitude zero-padded. *)
Definition appendInt (x : Z) (width : nat) : string :=
  if x <? 0 then "-" +:+ pad0 width (dec (- x)) else pad0 width (dec x).

Definition hexbyte (b : N) : string :=
  pad0 2 (hex (b mod 256)).

(** [hex.EncodeToString]. *)
Definition EncodeToString (bs : list N) : string :=
  fold_right (fun b acc => hexbyte b +:+ acc) "" bs.

Definition bytes_of (s : string) : list N :=
  map Byte.to_N (list_byte_of_string s).

(** [%v] of an integer slice: [[1 2 3]]. *)
Fixpoint spaced (l : list Z) : string :=
  match l with
  | [] => ""
  | [x] => dec x
  | x :: l' => dec x +:+ " " +:+ spaced l'
  end.

Definition fmt_slice (l : list Z) : string := "[" +:+ spaced l +:+ "]".

(** The bytes [dec] writes: the minus sign and the ten digits. *)
Definition numeric (c : ascii) : bool :=
  let n := N_of_ascii c in
  (n =? 45)%N || ((48 <=? n)%N && (n <=? 57)%N).

Fixpoint all_numeric (s : string) : bool :=
  match s with
  | "" => true
  | String c s' => numeric c && all_numeric s'
  end.

(** Strip trailing ['0'] bytes (the [.999999999] layout of [time.Format]). *)
Fixpoint trim0 (s : string) : string :=
  match s with
  | "" => ""
  | String c s' =>
      match trim0 s' with
      | "" => if Ascii.eqb c "0" then "" else String c ""
      | t => String c t
      end
  end.

(** [%f] (six decimals) of a float: [strconv] rounds the exact binary value
    to nearest, ties to even. *)
Definition fixed6 (neg : bool) (q : Z) : string :=
  (if neg then "-" else "") +:+ dec (q / 1000000) +:+ "." +:+ pad0 6 (dec (q mod 1000000)).

Definition round_half_even (num den : Z) : Z :=
  let q := num / den in
  let r := num mod den in
  if (den <? 2 * r) || ((den =? 2 * r) && Z.odd q) then q + 1 else q.

Definition fmt_f (x : spec_float) : string :=
  match x with
  | S754_nan => "NaN"
  | S754_infinity false => "+Inf"
  | S754_infinity true => "-Inf"
  | S754_zero s => fixed6 s 0
  | S754_finite s m e =>
      if 0 <=? e
      then fixed6 s (Z.pos m * 2 ^ e * 1000000)
      else fixed6 s (round_half_even (Z.pos m * 1000000) (2 ^ (- e)))
  end.

End Text.

(** ** [crypto/md5] (RFC 1321), on bytes and 32-bit words held in [N] *)

Module MD5.
Local Open Scope N_scope.

Definition w32 (x : N) : N := x mod 2 ^ 32.
Definition add32 (x y : N) : N := w32 (x + y).
Definition not32 (x : N) : N := N.lxor x 0xffffffff.
Definition rotl32 (x c : N) : N :=
  w32 (N.lor (N.shiftl x c) (N.shiftr x (32 - c))).

Definition K : list N :=
  [ 0xd76aa478; 0xe8c7b756; 0x242070db; 0xc1bdceee;
    0xf57c0faf; 0x4787c62a; 0xa8304613; 0xfd469501;
    0x698098d8; 0x8b44f7af; 0xffff5bb1; 0x895cd7be;
    0x6b901122; 0xfd987193; 0xa679438e; 0x49b40821;
    0xf61e2562; 0xc040b340; 0x265e5a51; 0xe9b6c7aa;
    0xd62f105d; 0x02441453; 0xd8a1e681; 0xe7d3fbc8;
    0x21e1cde6; 0xc33707d6; 0xf4d50d87; 0x455a14ed;
    0xa9e3e905; 0xfcefa3f8; 0x676f02d9; 0x8d2a4c8a;
    0xfffa3942; 0x8771f681; 0x6d9d6122; 0xfde5380c;
    0xa4beea44; 0x4bdecfa9; 0xf6bb4b60; 0xbebfbc70;
    0x289b7ec6; 0xeaa127fa; 0xd4ef3085; 0x04881d05;
    0xd9d4d039; 0xe6db99e5; 0x1fa27cf8; 0xc4ac5665;
    0xf4292244; 0x432aff97; 0xab9423a7; 0xfc93a039;
    0x655b59c3; 0x8f0ccc92; 0xffeff47d; 0x85845dd1;
    0x6fa87e4f; 0xfe2ce6e0; 0xa3014314; 0x4e0811a1;
    0xf7537e82; 0xbd3af235; 0x2ad7d2bb; 0xeb86d391 ].

Definition S : list N :=
  [ 7; 12; 17; 22; 7; 12; 17; 22; 7; 12; 17; 22; 7; 12; 17; 22;
    5; 9; 14; 20; 5; 9; 14; 20; 5; 9; 14; 20; 5; 9; 14; 20;
    4; 11; 16; 23; 4; 11; 16; 23; 4; 11; 16; 23; 4; 11; 16; 23;
    6; 10; 15; 21; 6; 10; 15; 21; 6; 10; 15; 21; 6; 10; 15; 21 ].

Definition state : Type := N * N * N * N.

Definition init : state := (0x67452301, 0xefcdab89, 0x98badcfe, 0x10325476).

Definition round (M : list N) (st : state) (i : nat) : state :=
  let '(a, b, c, d) := st in
  let j := N.of_nat i in
  let '(f, g) :=
    if j <? 16 then (N.lor (N.land b c) (N.land (not32 b) d), j)
    else if j <? 32 then (N.lor (N.land d b) (N.land (not32 d) c), (5 * j + 1) mod 16)
    else if j <? 48 then (N.lxor (N.lxor b c) d, (3 * j + 5) mod 16)
    else (N.lxor c (N.lor b (not32 d)), (7 * j) mod 16) in
  let f' := add32 (add32 (add32 f a) (nth i K 0)) (nth (N.to_nat g) M 0) in
  (d, add32 b (rotl32 f' (nth i S 0)), b, c).

Definition le32 (bs : list N) : N :=
  fold_right (fun b acc => b + 256 * acc) 0 bs.

Fixpoint groups {A} (size count : nat) (l : list A) : list (list A) :=
  match count with
  | O => []
  | Datatypes.S k => firstn size l :: groups size k (skipn size l)
  end.

Definition block (st : state) (bytes : list N) : state :=
  let M := map le32 (groups 4 16 bytes) in
  let '(a, b, c, d) := st in
  let '(a', b', c', d') := fold_left (round M) (seq 0 64) st in
  (add32 a a', add32 b b', add32 c c', add32 d d').

Definition bytes_le (width : nat) (x : N) : list N :=
  map (fun k => N.shiftr x (8 * N.of_nat k) mod 256) (seq 0 width).

Definition pad (msg : list N) : list N :=
  let len := length msg in
  let k := ((119 - len mod 64) mod 64)%nat in
  msg ++ [0x80] ++ repeat 0 k ++ bytes_le 8 (8 * N.of_nat len).

Definition Sum (msg : list N) : list N :=
  let p := pad msg in
  let '(a, b, c, d) := fold_left block (groups 64 (length p / 64) p) init in
  bytes_le 4 a ++ bytes_le 4 b ++ bytes_le 4 c ++ bytes_le 4 d.

End MD5.

Definition md5hex (s : string) : string :=
  Text.EncodeToString (MD5.Sum (Text.bytes_of s)).

(** ** [time.Time]

    An instant ([sec] seconds and [nsec] nanoseconds since
    0001-01-01 00:00:00 UTC, Go's own epoch) together with the zone in
    effect at that instant.  Monotonic clock readings are left out: the
    program prints only dates decoded from JSON, which carry none. *)

Module Time.

Record t : Type := mk {
  sec : Z;
  nsec : Z;
  zoneName : string;
  zoneOffset : Z       (* seconds east of UTC *)
}.

(** The zero [Time]: January 1, year 1, 00:00:00 UTC. *)
Definition zero : t := mk 0 0 "UTC" 0.

Definition IsZero (x : t) : bool := (sec x =? 0) && (nsec x =? 0).

Definition Before (x y : t) : bool :=
  (sec x <? sec y) || ((sec x =? sec y) && (nsec x <? nsec y)).

(** [t.Add(d)], [d] in nanoseconds. *)
Definition Add (x : t) (d : Z) : t :=
  let n := nsec x + d in
  mk (sec x + n / 1000000000) (n mod 1000000000) (zoneName x) (zoneOffset x).

(** [t.Sub(u)] in nanoseconds. *)
Definition Sub (x y : t) : Z :=
  (sec x - sec y) * 1000000000 + (nsec x - nsec y).

(** Civil date of a day count (day 0 is 0001-01-01, proleptic Gregorian). *)
Definition civil (days : Z) : Z * Z * Z :=
  let z := days + 306 in
  let era := z / 146097 in
  let doe := z mod 146097 in
  let yoe := (doe - doe / 1460 + doe / 36524 - doe / 146096) / 365 in
  let doy := doe - (365 * yoe + yoe / 4 - yoe / 100) in
  let mp := (5 * doy + 2) / 153 in
  let d := doy - (153 * mp + 2) / 5 + 1 in
  let m := if mp <? 10 then mp + 3 else mp - 9 in
  let y := yoe + era * 400 + (if m <=? 2 then 1 else 0) in
  (y, m, d).

(** The [-0700] layout element. *)
Definition numTZ (offset : Z) : string :=
  let zone := Z.quot offset 60 in
  (if zone <? 0 then "-" else "+") +:+
  Text.appendInt (Z.abs zone / 60) 2 +:+ Text.appendInt (Z.abs zone mod 60) 2.

(** The [.999999999] layout element. *)
Definition fracSecond9 (ns : Z) : string :=
  if ns =? 0 then "" else "." +:+ Text.trim0 (Text.appendInt ns 9).

(** [t.String()]: layout ["2006-01-02 15:04:05.999999999 -0700 MST"]. *)
Definition String (x : t) : string :=
  let abs := sec x + zoneOffset x in
  let '(y, m, d) := civil (abs / 86400) in
  let s := abs mod 86400 in
  Text.appendInt y 4 +:+ "-" +:+ Text.appendInt m 2 +:+ "-" +:+ Text.appendInt d 2 +:+ " " +:+
  Text.appendInt (s / 3600) 2 +:+ ":" +:+ Text.appendInt (s mod 3600 / 60) 2 +:+ ":" +:+
  Text.appendInt (s mod 60) 2 +:+ fracSecond9 (nsec x) +:+ " " +:+
  numTZ (zoneOffset x) +:+ " " +:+
  (if String.eqb (zoneName x) "" then numTZ (zoneOffset x) else zoneName x).

End Time.

(** ** [package models] *)

(** A Go pointer: [None] is [nil]; otherwise the address and the value it
    points to.  The address of a non-nil pointer is never 0. *)
Definition Ptr (A : Type) : Type := option (N * A).

Definition addressOf {A} (p : Ptr A) : N :=
  match p with None => 0%N | Some (a, _) => a end.

Definition deref {A} (p : Ptr A) : option A :=
  match p with None => None | Some (_, v) => Some v end.

(** [models.SearchFilter] *)
Record SearchFilter : Type := {
  Location : string;
  City : string;
  CheckinDate : Time.t;
  CheckoutDate : Time.t;
  NumberOfGuests : Z;
  PetFriendly : Ptr bool;
  SmokingFriendly : Ptr bool;
  AmenityIDs : list Z;
  ConditionIDs : list Z;
  MinRating : spec_float;
  MaxPrice : spec_float;
  MinPrice : spec_float;
  Latitude : Ptr spec_float;
  Longitude : Ptr spec_float;
  RadiusKm : spec_float;
  SortBy : string;
  Page : Z;
  Limit : Z
}.

(** What a filter says, addresses aside: the decoded JSON body. *)
Record FilterContent : Type := {
  cLocation : string;
  cCity : string;
  cCheckinDate : Time.t;
  cCheckoutDate : Time.t;
  cNumberOfGuests : Z;
  cPetFriendly : option bool;
  cSmokingFriendly : option bool;
  cAmenityIDs : list Z;
  cConditionIDs : list Z;
  cMinRating : spec_float;
  cMaxPrice : spec_float;
  cMinPrice : spec_float;
  cLatitude : option spec_float;
  cLongitude : option spec_float;
  cRadiusKm : spec_float;
  cSortBy : string;
  cPage : Z;
  cLimit : Z
}.

Definition content (f : SearchFilter) : FilterContent := {|
  cLocation := Location f;
  cCity := City f;
  cCheckinDate := CheckinDate f;
  cCheckoutDate := CheckoutDate f;
  cNumberOfGuests := NumberOfGuests f;
  cPetFriendly := deref (PetFriendly f);
  cSmokingFriendly := deref (SmokingFriendly f);
  cAmenityIDs := AmenityIDs f;
  cConditionIDs := ConditionIDs f;
  cMinRating := MinRating f;
  cMaxPrice := MaxPrice f;
  cMinPrice := MinPrice f;
  cLatitude := deref (Latitude f);
  cLongitude := deref (Longitude f);
  cRadiusKm := RadiusKm f;
  cSortBy := SortBy f;
  cPage := Page f;
  cLimit := Limit f
|}.

(** ** The key codec ([handlers.generateSearchCacheKey]) *)

(** [%t] applied to a [*bool].  [fmt] has no boolean to print: the operand
    is a pointer, for which [%t] is a bad verb, so it writes the bad-verb
    marker with the operand's type, then the [%v] form of the pointer
    ([<nil>], or the address in hexadecimal), then a closing parenthesis. *)
Definition fmt_t_ptr (p : Ptr bool) : string :=
  let u := addressOf p in
  "%!t(" +:+ "*bool=" +:+ (if (u =? 0)%N then "<nil>" else "0x" +:+ Text.hex u) +:+ ")".

(** The string that is digested:
    [fmt.Sprintf("%s:%s:%s:%s:%d:%t:%t:%v:%v:%f:%f:%f:%f:%s:%d:%d", ...)]. *)
Definition hashStr (filter : SearchFilter) : string :=
  Location filter +:+ ":" +:+
  City filter +:+ ":" +:+
  Time.String (CheckinDate filter) +:+ ":" +:+
  Time.String (CheckoutDate filter) +:+ ":" +:+
  Text.dec (NumberOfGuests filter) +:+ ":" +:+
  fmt_t_ptr (PetFriendly filter) +:+ ":" +:+
  fmt_t_ptr (SmokingFriendly filter) +:+ ":" +:+
  Text.fmt_slice (AmenityIDs filter) +:+ ":" +:+
  Text.fmt_slice (ConditionIDs filter) +:+ ":" +:+
  Text.fmt_f (MinRating filter) +:+ ":" +:+
  Text.fmt_f (MaxPrice filter) +:+ ":" +:+
  Text.fmt_f (MinPrice filter) +:+ ":" +:+
  Text.fmt_f (RadiusKm filter) +:+ ":" +:+
  SortBy filter +:+ ":" +:+
  Text.dec (Page filter) +:+ ":" +:+
  Text.dec (Limit filter).

Definition generateSearchCacheKey (filter : SearchFilter) : string :=
  "search:" +:+ md5hex (hashStr filter).

(** The pagination check at the head of [Handler.SearchProperties]. *)
Definition validatePagination (filter : SearchFilter) : SearchFilter :=
  let page := if Page filter <? 1 then 1 else Page filter in
  let limit :=
    if (Limit filter <? 1) || (100 <? Limit filter) then 20 else Limit filter in
  {| Location := Location filter;
     City := City filter;
     CheckinDate := CheckinDate filter;
     CheckoutDate := CheckoutDate filter;
     NumberOfGuests := NumberOfGuests filter;
     PetFriendly := PetFriendly filter;
     SmokingFriendly := SmokingFriendly filter;
     AmenityIDs := AmenityIDs filter;
     ConditionIDs := ConditionIDs filter;
     MinRating := MinRating filter;
     MaxPrice := MaxPrice filter;
     MinPrice := MinPrice filter;
     Latitude := Latitude filter;
     Longitude := Longitude filter;
     RadiusKm := RadiusKm filter;
     SortBy := SortBy filter;
     Page := page;
     Limit := limit |}.

(** ** Errors and [encoding/json] *)

(** A Go [error] value; [None : option error] is the [nil] error.  The two
    sentinels the program compares against are kept apart. *)
Inductive error : Type :=
  | RedisNil                    (* redis.Nil: the key does not exist *)
  | ErrRecordNotFound           (* gorm.ErrRecordNotFound *)
  | Error (msg : string).

Definition errorString (e : error) : string :=
  match e with
  | RedisNil => "redis: nil"
  | ErrRecordNotFound => "record not found"
  | Error msg => msg
  end.

Definition isRedisNil (e : error) : bool :=
  match e with RedisNil => true | _ => false end.

Definition isErrRecordNotFound (e : error) : bool :=
  match e with ErrRecordNotFound => true | _ => false end.

Inductive res (A : Type) : Type :=
  | Ok (a : A)
  | Err (e : error).
Arguments Ok {A} a.
Arguments Err {A} e.

(** [json.Marshal] / [json.Unmarshal] at one Go type.  The wire format is
    the library's business; the program only branches on success. *)
Class JSON (A : Type) : Type := {
  Marshal : A -> res string;
  Unmarshal : string -> res A
}.

(** ** [package models], continued *)

Record Amenity : Type := {
  amenity_ID : Z;
  amenity_Name : string;
  amenity_Category : string;
  amenity_Icon : string;
  amenity_CreatedAt : Time.t;
  amenity_UpdatedAt : Time.t;
  amenity_DeletedAt : option Time.t
}.

Record Condition : Type := {
  condition_ID : Z;
  condition_Name : string;
  condition_Type : string;
  condition_CreatedAt : Time.t;
  condition_UpdatedAt : Time.t;
  condition_DeletedAt : option Time.t
}.

(** The [Property *Property] back-reference of [Availability] and
    [Pricing] is never serialised ([json:"-"]) and is left out. *)
Record Availability : Type := {
  availability_ID : Z;
  availability_PropertyID : Z;
  availability_Date : Time.t;
  availability_Available : bool;
  availability_MinStay : Z;
  availability_MaxGuests : Z;
  availability_CreatedAt : Time.t;
  availability_UpdatedAt : Time.t;
  availability_DeletedAt : option Time.t
}.

Record Pricing : Type := {
  pricing_ID : Z;
  pricing_PropertyID : Z;
  pricing_Date : Time.t;
  pricing_BasePrice : spec_float;
  pricing_Taxes : spec_float;
  pricing_Fees : spec_float;
  pricing_Discount : spec_float;
  pricing_TotalPrice : spec_float;
  pricing_CreatedAt : Time.t;
  pricing_UpdatedAt : Time.t;
  pricing_DeletedAt : option Time.t
}.

Record Property : Type := {
  property_ID : Z;
  property_ChannelID : string;
  property_Name : string;
  property_Description : string;
  property_Location : string;
  property_City : string;
  property_State : string;
  property_Country : string;
  property_Latitude : spec_float;
  property_Longitude : spec_float;
  property_MaxGuests : Z;
  property_Bedrooms : Z;
  property_Bathrooms : Z;
  property_Rating : spec_float;
  property_ReviewCount : Z;
  property_CreatedAt : Time.t;
  property_UpdatedAt : Time.t;
  property_DeletedAt : option Time.t;
  property_Amenities : list Amenity;
  property_Conditions : list Condition;
  property_Availabilities : list Availability;
  property_Pricing : list Pricing
}.

Record SearchResult : Type := {
  result_ID : Z;
  result_Name : string;
  result_Description : string;
  result_Location : string;
  result_City : string;
  result_State : string;
  result_Country : string;
  result_Rating : spec_float;
  result_ReviewCount : Z;
  result_MaxGuests : Z;
  result_Bedrooms : Z;
  result_Bathrooms : Z;
  result_PricePerNight : spec_float;
  result_TotalPrice : spec_float;
  result_Amenities : list string;
  result_Conditions : list string;
  result_Distance : option spec_float;
  result_Available : bool
}.

(** [models.SearchResultsCache] *)
Record SearchResultsCache : Type := {
  Results : list SearchResult;
  Total : Z;
  cache_Page : Z;
  cache_Limit : Z;
  UpdatedAt : Time.t;
  ExpiresAt : Time.t
}.

(** [models.Event] *)
Record Event : Type := {
  ID : Z;
  EventType : string;
  TableName : string;
  RecordID : Z;
  Data : string;
  CreatedAt : Time.t;
  Processed : bool
}.

(** ** A small state monad for code that threads a store *)

Definition ST (S A : Type) : Type := S -> A * S.

Definition ret {S A} (a : A) : ST S A := fun s => (a, s).

Definition bind {S A B} (m : ST S A) (k : A -> ST S B) : ST S B :=
  fun s => let (a, s') := m s in k a s'.

Notation "'do' x <- m ; k" := (bind m (fun x => k))
  (at level 10, x name, m at level 100, k at level 200).
Notation "'do' ' p <- m ; k" := (bind m (fun x => match x with p => k end))
  (at level 10, p pattern, m at level 100, k at level 200).
Notation "m ;; k" := (bind m (fun _ => k))
  (at level 100, k at level 200, right associativity).

(** ** The Redis server, as [go-redis] shows it to the program

    [keys] holds every key with its value and, when it has one, the server
    time at which it expires; [clock] is the server's own clock
    (nanoseconds); [faults] scripts the outcome of the commands to come,
    one entry per command: [None] lets the command through, [Some e] makes
    it fail with [e] (connection refused, timeout, cancelled context)
    and leaves the data untouched.  An exhausted script means no more
    failures. *)

Module Redis.

Record entry : Type := { value : string; deadline : option Z }.

Record t : Type := mk {
  keys : gmap string entry;
  clock : Z;
  faults : list (option error)
}.

Definition expired (now : Z) (e : entry) : bool :=
  match deadline e with
  | Some d => d <=? now
  | None => false
  end.

(** What a client can still read under [k]. *)
Definition live (r : t) (k : string) : option entry :=
  match keys r !! k with
  | Some e => if expired (clock r) e then None else Some e
  | None => None
  end.

(** Consume the next entry of the fault script. *)
Definition attempt : ST t (option error) := fun r =>
  match faults r with
  | [] => (None, r)
  | f :: fs => (f, mk (keys r) (clock r) fs)
  end.

Definition healthy (r : t) : Prop := Forall (fun f => f = None) (faults r).

(** [KEYS]-style glob of [SCAN ... MATCH]: [*], [?] and backslash escapes.
    Bracket classes are not modelled (a bracket matches itself); no
    pattern built from the program's own constants and numbers has one.
    Every pattern of the program starts with a literal byte, so how the
    empty key fares against a pattern of stars only never comes up. *)
Fixpoint glob (p s : string) {struct p} : bool :=
  match p with
  | "" => match s with "" => true | _ => false end
  | String c p' =>
      if Ascii.eqb c "*" then
        (fix star (s : string) : bool :=
           glob p' s || match s with "" => false | String _ s' => star s' end) s
      else if Ascii.eqb c "?" then
        match s with "" => false | String _ s' => glob p' s' end
      else
        match s with
        | "" => false
        | String d s' =>
            match (if Ascii.eqb c "\" then true else false), p' with
            | true, String e p'' => Ascii.eqb e d && glob p'' s'
            | _, _ => Ascii.eqb c d && glob p' s'
            end
        end
  end.

Definition KeepTTL : Z := -1.

(** [SET key value [PX ms]]: [go-redis] sends an expiry only for a
    positive [expiration] (whole milliseconds, at least one), [KEEPTTL]
    for [KeepTTL], and a plain [SET] (no expiry) for everything else. *)
Definition newDeadline (r : t) (key : string) (expiration : Z) : option Z :=
  if 0 <? expiration then
    Some (clock r + Z.max 1 (expiration / 1000000) * 1000000)
  else if expiration =? KeepTTL then
    match live r key with Some e => deadline e | None => None end
  else None.

(** [client.Get(ctx, key).Result()] *)
Definition Get (key : string) : ST t (string * option error) :=
  do f <- attempt;
  match f with
  | Some e => ret ("", Some e)
  | None => fun r =>
      match live r key with
      | Some e => (value e, None, r)
      | None => ("", Some RedisNil, r)
      end
  end.

(** [client.Set(ctx, key, value, expiration).Err()] *)
Definition Set_ (key val : string) (expiration : Z) : ST t (option error) :=
  do f <- attempt;
  match f with
  | Some e => ret (Some e)
  | None => fun r =>
      (None,
       mk (<[key := {| value := val; deadline := newDeadline r key expiration |}]> (keys r))
          (clock r) (faults r))
  end.

Definition remove (ks : list string) (m : gmap string entry) : gmap string entry :=
  fold_right delete m ks.

(** [client.Del(ctx, keys...).Err()] *)
Definition Del (ks : list string) : ST t (option error) :=
  do f <- attempt;
  match f with
  | Some e => ret (Some e)
  | None => fun r => (None, mk (remove ks (keys r)) (clock r) (faults r))
  end.

(** [client.Scan(ctx, 0, pattern, 0).Iterator()] run to its end: the keys
    collected by the [for iter.Next(ctx)] loop and [iter.Err()]. *)
Definition Scan (pattern : string) : ST t (list string * option error) :=
  do f <- attempt;
  match f with
  | Some e => ret ([], Some e)
  | None => fun r =>
      (filter (fun k => bool_decide (is_Some (live r k)) && glob pattern k)
              (map fst (map_to_list (keys r))), None, r)
  end.

End Redis.

(** Run [f] over [l] in order, stopping at the first error
    ([for ... range ... { if err := f(x); err != nil { return err } }]). *)
Fixpoint forEachErr {S A} (f : A -> ST S (option error)) (l : list A) : ST S (option error) :=
  match l with
  | [] => ret None
  | x :: l' =>
      do err <- f x;
      match err with
      | Some e => ret (Some e)
      | None => forEachErr f l'
      end
  end.

(** [for ... range ... { f(x) }] *)
Fixpoint forEach {S A} (f : A -> ST S unit) (l : list A) : ST S unit :=
  match l with
  | [] => ret tt
  | x :: l' => f x ;; forEach f l'
  end.

(** ** [package cache]: the methods of [RedisClient]

    Each call of [time.Now()] is an argument of its own: the one reading
    of [GetSearchResultsCache], the two readings of
    [SetSearchResultsCache]. *)

Module cache.
Section Client.
Context {jsonProperty : JSON Property} {jsonResults : JSON SearchResultsCache}.

Definition availabilityPattern (propertyID : Z) : string :=
  "availability:" +:+ Text.dec propertyID +:+ ":*".

Definition propertyKey (propertyID : Z) : string :=
  "property:" +:+ Text.dec propertyID.

Definition deleteByPattern (pattern : string) : ST Redis.t (option error) :=
  do '(keys, err) <- Redis.Scan pattern;
  match err with
  | Some e => ret (Some e)
  | None =>
      if (0 <? length keys)%nat then Redis.Del keys else ret None
  end.

Definition InvalidateAvailabilityCache (propertyID : Z) : ST Redis.t (option error) :=
  deleteByPattern (availabilityPattern propertyID).

Definition GetSearchResultsCache (now : Time.t) (cacheKey : string)
  : ST Redis.t (option SearchResultsCache * option error) :=
  do '(val, err) <- Redis.Get cacheKey;
  match err with
  | Some e =>
      if isRedisNil e then ret (None, None)   (* cache miss *)
      else ret (None, Some e)
  | None =>
      match Unmarshal val with
      | Err e => ret (None, Some e)
      | Ok results =>
          if Time.Before (ExpiresAt results) now then
            (* cache expired, delete it; the reply of Del is dropped *)
            Redis.Del [cacheKey] ;; ret (None, None)
          else ret (Some results, None)
      end
  end.

(** [results.UpdatedAt = time.Now()] and then
    [results.ExpiresAt = time.Now().Add(ttl)]: [now] is the first reading
    of the clock and [now'] the second. *)
Definition stamp (now now' : Time.t) (ttl : Z) (results : SearchResultsCache)
  : SearchResultsCache :=
  {| Results := Results results;
     Total := Total results;
     cache_Page := cache_Page results;
     cache_Limit := cache_Limit results;
     UpdatedAt := now;
     ExpiresAt := Time.Add now' ttl |}.

Definition SetSearchResultsCache (now now' : Time.t) (cacheKey : string)
    (results : SearchResultsCache) (ttl : Z) : ST Redis.t (option error) :=
  match Marshal (stamp now now' ttl results) with
  | Err e => ret (Some e)
  | Ok data => Redis.Set_ cacheKey data ttl
  end.

Definition searchPatterns (location city : string) : list string :=
  [ "search:location:" +:+ location +:+ ":*";
    "search:city:" +:+ city +:+ ":*";
    "search:*" ].

Definition InvalidateSearchCache (location city : string) : ST Redis.t (option error) :=
  forEachErr deleteByPattern (searchPatterns location city).

Definition GetPropertyCache (propertyID : Z) : ST Redis.t (option Property * option error) :=
  let key := propertyKey propertyID in
  do '(val, err) <- Redis.Get key;
  match err with
  | Some e =>
      if isRedisNil e then ret (None, None)   (* cache miss *)
      else ret (None, Some e)
  | None =>
      match Unmarshal val with
      | Err e => ret (None, Some e)
      | Ok property => ret (Some property, None)
      end
  end.

Definition SetPropertyCache (propertyID : Z) (property : Property) (ttl : Z)
  : ST Redis.t (option error) :=
  let key := propertyKey propertyID in
  match Marshal property with
  | Err e => ret (Some e)
  | Ok data => Redis.Set_ key data ttl
  end.

Definition InvalidatePropertyCache (propertyID : Z) : ST Redis.t (option error) :=
  Redis.Del [propertyKey propertyID].

Definition InvalidateAmenitiesCache : ST Redis.t (option error) :=
  forEachErr deleteByPattern ["amenities:all"; "amenities:*"].

Definition InvalidateConditionsCache : ST Redis.t (option error) :=
  forEachErr deleteByPattern ["conditions:all"; "conditions:*"].

End Client.
End cache.

(** ** [package database]: the event repository

    The [events] table is the list of its rows in the order the store
    holds them; that is the order a [SELECT] without [ORDER BY] reads
    them in.  [dbfaults] scripts failing statements like [Redis.faults]. *)

Module database.

Record t : Type := mk {
  events : list Event;
  dbfaults : list (option error)
}.

Definition attempt : ST t (option error) := fun d =>
  match dbfaults d with
  | [] => (None, d)
  | f :: fs => (f, mk (events d) fs)
  end.

Definition healthy (d : t) : Prop := Forall (fun f => f = None) (dbfaults d).

(** [LIMIT n]; [gorm] writes no [LIMIT] clause for a negative [n]. *)
Definition Limit_ {A} (limit : Z) (rows : list A) : list A :=
  if limit <? 0 then rows else firstn (Z.to_nat limit) rows.

(** [db.Where("processed = ?", false).Limit(limit).Find(&events)] *)
Definition GetUnprocessedEvents (limit : Z) : ST t (list Event * option error) :=
  do f <- attempt;
  match f with
  | Some e => ret ([], Some e)
  | None => fun d =>
      (Limit_ limit (filter (fun ev => negb (Processed ev)) (events d)), None, d)
  end.

Definition setProcessed (ev : Event) : Event :=
  {| ID := ID ev; EventType := EventType ev; TableName := TableName ev;
     RecordID := RecordID ev; Data := Data ev; CreatedAt := CreatedAt ev;
     Processed := true |}.

(** [db.Model(&Event{}).Where("id = ?", eventID).Update("processed", true)] *)
Definition MarkEventAsProcessed (eventID : Z) : ST t (option error) :=
  do f <- attempt;
  match f with
  | Some e => ret (Some e)
  | None => fun d =>
      (None,
       mk (map (fun ev => if ID ev =? eventID then setProcessed ev else ev) (events d))
          (dbfaults d))
  end.

End database.

(** ** [package handlers] *)

(** What a handler can touch: the cache, the event table, the log. *)
Record World : Type := {
  redis : Redis.t;
  db : database.t;
  logs : list string
}.

Definition onRedis {A} (m : ST Redis.t A) : ST World A := fun w =>
  let (a, r) := m (redis w) in
  (a, {| redis := r; db := db w; logs := logs w |}).

Definition onDB {A} (m : ST database.t A) : ST World A := fun w =>
  let (a, d) := m (db w) in
  (a, {| redis := redis w; db := d; logs := logs w |}).

(** [log.Printf] / [log.Println]: one more line at the end of the log. *)
Definition logLine (line : string) : ST World unit := fun w =>
  (tt, {| redis := redis w; db := db w; logs := logs w ++ [line] |}).

(** [if err != nil { log.Printf(prefix + ": %v", err) }] *)
Definition logIfErr (prefix : string) (err : option error) : ST World unit :=
  match err with
  | Some e => logLine (prefix +:+ ": " +:+ errorString e)
  | None => ret tt
  end.

(** The JSON bodies that [c.JSON] writes. *)
Inductive Body : Type :=
  | ErrorBody (msg : string)
  | SearchBody (data : list SearchResult) (total page limit : Z)
               (cached : bool) (cache_age : option Z)   (* age in nanoseconds *)
  | PropertyBody (data : Property) (cached : bool).

Record Response : Type := { status : Z; body : Body }.

Definition StatusOK : Z := 200.
Definition StatusBadRequest : Z := 400.
Definition StatusNotFound : Z := 404.
Definition StatusInternalServerError : Z := 500.

Definition Minute : Z := 60 * 1000000000.
Definition Hour : Z := 60 * Minute.

Definition digitValue (c : ascii) : option Z :=
  let n := Z.of_N (N_of_ascii c) in
  if (48 <=? n) && (n <=? 57) then Some (n - 48) else None.

Fixpoint parseDigits (acc : Z) (s : string) : option Z :=
  match s with
  | "" => Some acc
  | String c s' =>
      match digitValue c with
      | Some d => parseDigits (10 * acc + d) s'
      | None => None
      end
  end.

(** [strconv.ParseUint(s, 10, 32)]: decimal digits only, not empty,
    below [2^32]. *)
Definition ParseUint32 (s : string) : res Z :=
  match s with
  | "" => Err (Error "invalid syntax")
  | _ =>
      match parseDigits 0 s with
      | None => Err (Error "invalid syntax")
      | Some n => if n <? 2 ^ 32 then Ok n else Err (Error "value out of range")
      end
  end.

(** The wall clock as one request reads it: a reading for each call of
    [time.Now()] on its path, in the order the calls are written. *)
Record Clock : Type := {
  atCheck : Time.t;     (* [results.ExpiresAt.Before(time.Now())] *)
  atReply : Time.t;     (* [time.Since(cachedResults.UpdatedAt)] *)
  atUpdated : Time.t;   (* [results.UpdatedAt = time.Now()] *)
  atExpires : Time.t    (* [results.ExpiresAt = time.Now().Add(ttl)] *)
}.

Module handlers.
Section Handler.

Context {jsonProperty : JSON Property} {jsonResults : JSON SearchResultsCache}
        {jsonAvailability : JSON Availability} {jsonPricing : JSON Pricing}.

(** The Data Store behind the repositories, read-only on this path:
    [propertyRepo.SearchProperties] and [propertyRepo.GetPropertyByID]
    answer with their rows or with an error. *)
Variable repoSearchProperties : SearchFilter -> res (list Property * Z).
Variable repoGetPropertyByID : Z -> res Property.

(** [convertPropertiesToSearchResults]: pricing look-ups and
    floating-point sums and distances, none of which a cache decision
    reads. *)
Variable convertPropertiesToSearchResults : list Property -> SearchFilter -> list SearchResult.

(** [Handler.SearchProperties]; [bound] is what [c.ShouldBindJSON(&filter)]
    leaves behind: the error, or the decoded filter, whose pointer fields
    point wherever the decoder allocated them for this request. *)
Definition SearchProperties (clock : Clock) (bound : res SearchFilter) : ST World Response :=
  match bound with
  | Err e => ret {| status := StatusBadRequest; body := ErrorBody (errorString e) |}
  | Ok filter0 =>
      (* Validate pagination *)
      let filter := validatePagination filter0 in
      (* Generate cache key *)
      let cacheKey := generateSearchCacheKey filter in
      logLine ("Cache key: " +:+ cacheKey) ;;
      (* Try to get from cache *)
      do '(cachedResults, err) <- onRedis (cache.GetSearchResultsCache (atCheck clock) cacheKey);
      logIfErr "Cache retrieval error" err ;;
      match cachedResults with
      | Some cachedResults =>
          logLine "Cache HIT for search results" ;;
          ret {| status := StatusOK;
                 body := SearchBody (Results cachedResults) (Total cachedResults)
                           (cache_Page cachedResults) (cache_Limit cachedResults)
                           true (Some (Time.Sub (atReply clock) (UpdatedAt cachedResults))) |}
      | None =>
          logLine "Cache MISS for search results, fetching from database" ;;
          (* Fetch from database *)
          match repoSearchProperties filter with
          | Err e =>
              logLine ("Database search error: " +:+ errorString e) ;;
              ret {| status := StatusInternalServerError;
                     body := ErrorBody "Failed to search properties" |}
          | Ok (properties, total) =>
              let results := convertPropertiesToSearchResults properties filter in
              (* Cache the results (5 minute TTL for search results) *)
              let cacheResults :=
                {| Results := results; Total := total;
                   cache_Page := Page filter; cache_Limit := Limit filter;
                   UpdatedAt := Time.zero; ExpiresAt := Time.zero |} in
              do err <- onRedis (cache.SetSearchResultsCache (atUpdated clock) (atExpires clock)
                                   cacheKey cacheResults (5 * Minute));
              logIfErr "Failed to cache search results" err ;;
              ret {| status := StatusOK;
                     body := SearchBody results total (Page filter) (Limit filter) false None |}
          end
      end
  end.

(** [Handler.GetProperty]; [idParam] is [c.Param("id")]. *)
Definition GetProperty (idParam : string) : ST World Response :=
  match ParseUint32 idParam with
  | Err _ => ret {| status := StatusBadRequest; body := ErrorBody "Invalid property ID" |}
  | Ok propertyID =>
      (* Try to get from cache *)
      do '(cachedProperty, err) <- onRedis (cache.GetPropertyCache propertyID);
      logIfErr "Cache retrieval error" err ;;
      match cachedProperty with
      | Some cachedProperty =>
          logLine "Cache HIT for property" ;;
          ret {| status := StatusOK; body := PropertyBody cachedProperty true |}
      | None =>
          logLine "Cache MISS for property, fetching from database" ;;
          (* Fetch from database *)
          match repoGetPropertyByID propertyID with
          | Err e =>
              if isErrRecordNotFound e then
                ret {| status := StatusNotFound; body := ErrorBody "Property not found" |}
              else
                ret {| status := StatusInternalServerError;
                       body := ErrorBody "Failed to retrieve property" |}
          | Ok property =>
              (* Cache the property (1 hour TTL) *)
              do err <- onRedis (cache.SetPropertyCache propertyID property (1 * Hour));
              logIfErr "Failed to cache property" err ;;
              ret {| status := StatusOK; body := PropertyBody property false |}
          end
      end
  end.

(** *** The change-event relay ([EventListener]) *)

Definition handlePropertyEvent (event : Event) : ST World unit :=
  let propertyID := RecordID event in
  (* Invalidate property cache *)
  do err <- onRedis (cache.InvalidatePropertyCache propertyID);
  logIfErr "Failed to invalidate property cache" err ;;
  (* Invalidate search cache (broad invalidation) *)
  do err <- onRedis (cache.InvalidateSearchCache "" "");
  logIfErr "Failed to invalidate search cache" err ;;
  (* Invalidate availability cache *)
  do err <- onRedis (cache.InvalidateAvailabilityCache propertyID);
  logIfErr "Failed to invalidate availability cache" err ;;
  logLine ("Invalidated caches for property " +:+ Text.dec propertyID).

Definition handleAvailabilityEvent (event : Event) : ST World unit :=
  match Unmarshal (Data event) with
  | Err e => logLine ("Failed to unmarshal availability data: " +:+ errorString e)
  | Ok availability =>
      let propertyID := availability_PropertyID availability in
      do err <- onRedis (cache.InvalidateAvailabilityCache propertyID);
      logIfErr "Failed to invalidate availability cache" err ;;
      do err <- onRedis (cache.InvalidateSearchCache "" "");
      logIfErr "Failed to invalidate search cache" err ;;
      logLine ("Invalidated availability cache for property " +:+ Text.dec propertyID)
  end.

Definition handlePricingEvent (event : Event) : ST World unit :=
  match Unmarshal (Data event) with
  | Err e => logLine ("Failed to unmarshal pricing data: " +:+ errorString e)
  | Ok pricing =>
      let propertyID := pricing_PropertyID pricing in
      do err <- onRedis (cache.InvalidateSearchCache "" "");
      logIfErr "Failed to invalidate search cache" err ;;
      do err <- onRedis (cache.InvalidatePropertyCache propertyID);
      logIfErr "Failed to invalidate property cache" err ;;
      logLine ("Invalidated pricing-related cache for property " +:+ Text.dec propertyID)
  end.

Definition handleAmenityEvent (event : Event) : ST World unit :=
  do err <- onRedis cache.InvalidateAmenitiesCache;
  logIfErr "Failed to invalidate amenities cache" err ;;
  do err <- onRedis (cache.InvalidateSearchCache "" "");
  logIfErr "Failed to invalidate search cache" err ;;
  logLine "Invalidated amenity-related cache".

Definition handleConditionEvent (event : Event) : ST World unit :=
  do err <- onRedis cache.InvalidateConditionsCache;
  logIfErr "Failed to invalidate conditions cache" err ;;
  do err <- onRedis (cache.InvalidateSearchCache "" "");
  logIfErr "Failed to invalidate search cache" err ;;
  logLine "Invalidated condition-related cache".

Definition handlePropertyRelationEvent (event : Event) : ST World unit :=
  do err <- onRedis (cache.InvalidateSearchCache "" "");
  logIfErr "Failed to invalidate search cache" err ;;
  do err <- onRedis (cache.InvalidatePropertyCache (RecordID event));
  logIfErr "Failed to invalidate property cache" err ;;
  logLine "Invalidated cache for property relationship change".

Definition handleEvent (event : Event) : ST World unit :=
  logLine ("Processing event: Type=" +:+ EventType event +:+ ", Table=" +:+ TableName event
           +:+ ", RecordID=" +:+ Text.dec (RecordID event)) ;;
  let table := TableName event in
  if String.eqb table "properties" then handlePropertyEvent event
  else if String.eqb table "availabilities" then handleAvailabilityEvent event
  else if String.eqb table "pricing" then handlePricingEvent event
  else if String.eqb table "amenities" then handleAmenityEvent event
  else if String.eqb table "conditions" then handleConditionEvent event
  else if String.eqb table "property_amenities" || String.eqb table "property_conditions"
  then handlePropertyRelationEvent event
  else logLine ("Unknown event table: " +:+ table).

(** The body of the [for _, event := range events] loop. *)
Definition processEvent (event : Event) : ST World unit :=
  handleEvent event ;;
  (* Mark event as processed *)
  do err <- onDB (database.MarkEventAsProcessed (ID event));
  logIfErr ("Failed to mark event " +:+ Text.dec (ID event) +:+ " as processed") err.

(** One tick of the relay. *)
Definition processUnprocessedEvents : ST World unit :=
  (* Get unprocessed events *)
  do '(events, err) <- onDB (database.GetUnprocessedEvents 100);
  match err with
  | Some e => logLine ("Failed to get unprocessed events: " +:+ errorString e)
  | None =>
      if (length events =? 0)%nat then ret tt
      else
        logLine ("Processing " +:+ Text.dec (Z.of_nat (length events)) +:+ " unprocessed events") ;;
        forEach processEvent events
  end.

End Handler.
End handlers.

(** ** Filters and worlds used in the statements below *)

(** [f] with its two id sets replaced. *)
Definition withIds (f : SearchFilter) (amenityIDs conditionIDs : list Z) : SearchFilter :=
  {| Location := Location f; City := City f;
     CheckinDate := CheckinDate f; CheckoutDate := CheckoutDate f;
     NumberOfGuests := NumberOfGuests f;
     PetFriendly := PetFriendly f; SmokingFriendly := SmokingFriendly f;
     AmenityIDs := amenityIDs; ConditionIDs := conditionIDs;
     MinRating := MinRating f; MaxPrice := MaxPrice f; MinPrice := MinPrice f;
     Latitude := Latitude f; Longitude := Longitude f; RadiusKm := RadiusKm f;
     SortBy := SortBy f; Page := Page f; Limit := Limit f |}.

(** [f] with its pagination replaced. *)
Definition withPagination (f : SearchFilter) (page limit : Z) : SearchFilter :=
  {| Location := Location f; City := City f;
     CheckinDate := CheckinDate f; CheckoutDate := CheckoutDate f;
     NumberOfGuests := NumberOfGuests f;
     PetFriendly := PetFriendly f; SmokingFriendly := SmokingFriendly f;
     AmenityIDs := AmenityIDs f; ConditionIDs := ConditionIDs f;
     MinRating := MinRating f; MaxPrice := MaxPrice f; MinPrice := MinPrice f;
     Latitude := Latitude f; Longitude := Longitude f; RadiusKm := RadiusKm f;
     SortBy := SortBy f; Page := page; Limit := limit |}.

(** [f] with [pet_friendly] pointing at [p]. *)
Definition withPetFriendly (f : SearchFilter) (p : Ptr bool) : SearchFilter :=
  {| Location := Location f; City := City f;
     CheckinDate := CheckinDate f; CheckoutDate := CheckoutDate f;
     NumberOfGuests := NumberOfGuests f;
     PetFriendly := p; SmokingFriendly := SmokingFriendly f;
     AmenityIDs := AmenityIDs f; ConditionIDs := ConditionIDs f;
     MinRating := MinRating f; MaxPrice := MaxPrice f; MinPrice := MinPrice f;
     Latitude := Latitude f; Longitude := Longitude f; RadiusKm := RadiusKm f;
     SortBy := SortBy f; Page := Page f; Limit := Limit f |}.

(** Events in ascending order of their ids, oldest first. *)
Definition ascendingByID (l : list Event) : Prop :=
  StronglySorted (fun a b => ID a < ID b) l.

(** The batch a relay tick works on. *)
Definition fetched (w : World) : list Event :=
  fst (fst (database.GetUnprocessedEvents 100 (db w))).

(** Whether the row with id [i] is flagged processed ([None]: no such row). *)
Definition processedFlag (d : database.t) (i : Z) : option bool :=
  option_map Processed (find (fun ev => ID ev =? i) (database.events d)).

(** A cache operation that brings no key back and keeps a healthy
    connection healthy. *)
Definition quiet {A} (m : ST Redis.t A) : Prop :=
  forall r,
    (forall k, Redis.live r k = None -> Redis.live (snd (m r)) k = None) /\
    (Redis.healthy r -> Redis.healthy (snd (m r))).

(** A byte with no special meaning in a pattern. *)
Definition literal (c : ascii) : bool :=
  negb (Ascii.eqb c "*") && negb (Ascii.eqb c "?") && negb (Ascii.eqb c "\").

Fixpoint literals (s : string) : bool :=
  match s with
  | "" => true
  | String c s' => literal c && literals s'
  end.

(** A handler every run of which relates the world before to the world
    after by [P]. *)
Definition preserves (P : World -> World -> Prop) {A} (m : ST World A) : Prop :=
  forall w, P w (snd (m w)).

(** The event table is left alone. *)
Definition sameDB (w w' : World) : Prop := db w' = db w.

(** No key is brought back and a healthy connection stays healthy. *)
Definition cacheShrinks (w w' : World) : Prop :=
  (forall k, Redis.live (redis w) k = None -> Redis.live (redis w') k = None) /\
  (Redis.healthy (redis w) -> Redis.healthy (redis w')).

(** Rows stay, and a raised flag stays raised. *)
Definition flagsRise (w w' : World) : Prop :=
  forall i b, processedFlag (db w) i = Some b ->
    exists b', processedFlag (db w') i = Some b' /\ (b = true -> b' = true).

Module Fixtures.

Definition f0 : spec_float := S754_zero false.

(** The filter an empty JSON object decodes to. *)
Definition emptyFilter : SearchFilter :=
  {| Location := ""; City := "";
     CheckinDate := Time.zero; CheckoutDate := Time.zero;
     NumberOfGuests := 0; PetFriendly := None; SmokingFriendly := None;
     AmenityIDs := []; ConditionIDs := [];
     MinRating := f0; MaxPrice := f0; MinPrice := f0;
     Latitude := None; Longitude := None; RadiusKm := f0;
     SortBy := ""; Page := 0; Limit := 0 |}.

(** A search in Goa for two guests. *)
Definition goa : SearchFilter :=
  {| Location := ""; City := "Goa";
     CheckinDate := Time.zero; CheckoutDate := Time.zero;
     NumberOfGuests := 2; PetFriendly := None; SmokingFriendly := None;
     AmenityIDs := []; ConditionIDs := [];
     MinRating := f0; MaxPrice := f0; MinPrice := f0;
     Latitude := None; Longitude := None; RadiusKm := f0;
     SortBy := ""; Page := 1; Limit := 20 |}.

Definition zeroProperty : Property :=
  {| property_ID := 0; property_ChannelID := ""; property_Name := "";
     property_Description := ""; property_Location := ""; property_City := "";
     property_State := ""; property_Country := "";
     property_Latitude := f0; property_Longitude := f0;
     property_MaxGuests := 0; property_Bedrooms := 0; property_Bathrooms := 0;
     property_Rating := f0; property_ReviewCount := 0;
     property_CreatedAt := Time.zero; property_UpdatedAt := Time.zero;
     property_DeletedAt := None;
     property_Amenities := []; property_Conditions := [];
     property_Availabilities := []; property_Pricing := [] |}.

Definition villa : Property :=
  {| property_ID := 42; property_ChannelID := "ch-1"; property_Name := "Sea View Villa";
     property_Description := ""; property_Location := "Candolim"; property_City := "Goa";
     property_State := "Goa"; property_Country := "India";
     property_Latitude := f0; property_Longitude := f0;
     property_MaxGuests := 4; property_Bedrooms := 2; property_Bathrooms := 2;
     property_Rating := S754_finite false 9 (-1); property_ReviewCount := 12;
     property_CreatedAt := Time.zero; property_UpdatedAt := Time.zero;
     property_DeletedAt := None;
     property_Amenities := []; property_Conditions := [];
     property_Availabilities := []; property_Pricing := [] |}.

(** What an empty JSON object decodes to as a [SearchResultsCache]: no
    results and the zero [expires_at]. *)
Definition zeroResults : SearchResultsCache :=
  {| Results := []; Total := 0; cache_Page := 0; cache_Limit := 0;
     UpdatedAt := Time.zero; ExpiresAt := Time.zero |}.

(** 2025-11-29 08:00:00 UTC. *)
Definition morning : Time.t := Time.mk 63900000000 0 "UTC" 0.

(** A stand-in for [encoding/json] at one type: it writes [name a] for [a],
    reads the documents listed in [docs], and rejects every other input
    the way [json.Unmarshal] rejects a truncated document.  The program
    never looks inside the bytes. *)
Definition stubJSON {A} (name : A -> string) (docs : list (string * A)) : JSON A :=
  {| Marshal := fun a => Ok (name a);
     Unmarshal := fun s =>
       match find (fun d => String.eqb (fst d) s) docs with
       | Some d => Ok (snd d)
       | None => Err (Error "unexpected end of JSON input")
       end |}.

Definition jsonProperty : JSON Property :=
  stubJSON (fun p => "property-" +:+ Text.dec (property_ID p) +:+ ".json")
           [("{}", zeroProperty); ("property-42.json", villa)].

(** A clock that stands still at that instant. *)
Definition atMorning : Clock :=
  {| atCheck := morning; atReply := morning; atUpdated := morning; atExpires := morning |}.

(** The first page of an empty result list, as [SearchProperties] caches
    it on the morning of 2025-11-29. *)
Definition firstPage : SearchResultsCache :=
  cache.stamp morning morning (5 * Minute)
    {| Results := []; Total := 0; cache_Page := 1; cache_Limit := 20;
       UpdatedAt := Time.zero; ExpiresAt := Time.zero |}.

Definition jsonResults : JSON SearchResultsCache :=
  stubJSON (fun r => "results-" +:+ Text.dec (Total r) +:+ "-page-"
                     +:+ Text.dec (cache_Page r) +:+ ".json")
           [("{}", zeroResults); ("results-0-page-1.json", firstPage)].

Definition jsonAvailability : JSON Availability := stubJSON (fun _ => "availability.json") [].
Definition jsonPricing : JSON Pricing := stubJSON (fun _ => "pricing.json") [].

Definition refused : error := Error "dial tcp 127.0.0.1:6379: connect: connection refused".

Definition plain (v : string) : Redis.entry := {| Redis.value := v; Redis.deadline := None |}.

(** A cache holding a snapshot of property 42, one availability day of
    it and one search result. *)
Definition warmKeys : gmap string Redis.entry :=
  <["property:42" := plain "property-42.json"]>
  (<["availability:42:2025-12-01" := plain "{}"]>
  (<["search:8bb3ea1e419e0c812d47c8353aac00be" := plain "{}"]> ∅)).

Definition warm : Redis.t := Redis.mk warmKeys 0 [].

(** The same cache behind a connection that refuses the next ten commands. *)
Definition warmDown : Redis.t := Redis.mk warmKeys 0 (repeat (Some refused) 10).

(** A cache whose entry for property 7 is a truncated document. *)
Definition corrupt : Redis.t := Redis.mk (<["property:7" := plain "{"]> ∅) 0 [].

Definition event (id : Z) (table : string) (record : Z) : Event :=
  {| ID := id; EventType := "UPDATE"; TableName := table; RecordID := record;
     Data := "{}"; CreatedAt := Time.zero; Processed := false |}.

(** One pending change: property 42 was updated. *)
Definition pending : database.t := database.mk [event 1 "properties" 42] [].

(** Two pending changes held by the store in the order 2, 1. *)
Definition shuffled : database.t :=
  database.mk [event 2 "properties" 42; event 1 "properties" 7] [].

Definition world (r : Redis.t) (d : database.t) : World :=
  {| redis := r; db := d; logs := [] |}.

Definition noSearch (f : SearchFilter) : res (list Property * Z) := Ok ([], 0).
Definition noConvert (ps : list Property) (f : SearchFilter) : list SearchResult := [].
Definition findVilla (id : Z) : res Property :=
  if id =? 42 then Ok villa else Err ErrRecordNotFound.
Definition storeDown (id : Z) : res Property := Err (Error "connection reset by peer").

End Fixtures.


(** * The rest of the adapter, the handlers and the repositories *)

(** [models.PropertyAvailabilityCache] *)
Record PropertyAvailabilityCache : Type := {
  pac_PropertyID : Z;
  pac_Available : bool;
  pac_MinStay : Z;
  pac_MaxGuests : Z;
  pac_UpdatedAt : Time.t
}.

(** ** Redis: one more command, and the passing of time *)

Module RedisOps.

(** [client.Ping(ctx).Err()] *)
Definition Ping : ST Redis.t (option error) := Redis.attempt.

(** The server's clock moves on by [d] nanoseconds. *)
Definition advance (d : Z) (r : Redis.t) : Redis.t :=
  Redis.mk (Redis.keys r) (Redis.clock r + d) (Redis.faults r).

End RedisOps.

(** ** [package cache]: the remaining methods of [RedisClient] *)

Module cache_ext.
Section Client.
Context {jsonAvailabilityCache : JSON PropertyAvailabilityCache}
        {jsonAmenities : JSON (list Amenity)} {jsonConditions : JSON (list Condition)}.

Definition availabilityKey (propertyID : Z) (date : string) : string :=
  "availability:" +:+ Text.dec propertyID +:+ ":" +:+ date.

Definition GetAvailabilityCache (propertyID : Z) (date : string)
  : ST Redis.t (option PropertyAvailabilityCache * option error) :=
  let key := availabilityKey propertyID date in
  do '(val, err) <- Redis.Get key;
  match err with
  | Some e =>
      if isRedisNil e then ret (None, None)   (* cache miss *)
      else ret (None, Some e)
  | None =>
      match Unmarshal val with
      | Err e => ret (None, Some e)
      | Ok availability => ret (Some availability, None)
      end
  end.

Definition SetAvailabilityCache (propertyID : Z) (date : string)
    (availability : PropertyAvailabilityCache) (ttl : Z) : ST Redis.t (option error) :=
  let key := availabilityKey propertyID date in
  match Marshal availability with
  | Err e => ret (Some e)
  | Ok data => Redis.Set_ key data ttl
  end.

(** The two dates are parameters of the Go method and are not used in its
    body; [iter.Err()] is not looked at. *)
Definition InvalidateAvailabilityDateRange (propertyID : Z) (startDate endDate : string)
  : ST Redis.t (option error) :=
  let pattern := cache.availabilityPattern propertyID in
  do '(keys, _) <- Redis.Scan pattern;
  if (0 <? length keys)%nat then Redis.Del keys else ret None.

(** A Go slice result: the [nil] slice of a miss is the empty list. *)
Definition GetAmenitiesCache : ST Redis.t (list Amenity * option error) :=
  let key := "amenities:all" in
  do '(val, err) <- Redis.Get key;
  match err with
  | Some e =>
      if isRedisNil e then ret ([], None)   (* cache miss *)
      else ret ([], Some e)
  | None =>
      match Unmarshal val with
      | Err e => ret ([], Some e)
      | Ok amenities => ret (amenities, None)
      end
  end.

Definition SetAmenitiesCache (amenities : list Amenity) (ttl : Z) : ST Redis.t (option error) :=
  let key := "amenities:all" in
  match Marshal amenities with
  | Err e => ret (Some e)
  | Ok data => Redis.Set_ key data ttl
  end.

Definition GetConditionsCache : ST Redis.t (list Condition * option error) :=
  let key := "conditions:all" in
  do '(val, err) <- Redis.Get key;
  match err with
  | Some e =>
      if isRedisNil e then ret ([], None)   (* cache miss *)
      else ret ([], Some e)
  | None =>
      match Unmarshal val with
      | Err e => ret ([], Some e)
      | Ok conditions => ret (conditions, None)
      end
  end.

Definition SetConditionsCache (conditions : list Condition) (ttl : Z) : ST Redis.t (option error) :=
  let key := "conditions:all" in
  match Marshal conditions with
  | Err e => ret (Some e)
  | Ok data => Redis.Set_ key data ttl
  end.

Definition HealthCheck : ST Redis.t (option error) := RedisOps.Ping.

(** [SetWithExpiry]: [value interface{}] is a value of any type that
    [encoding/json] has a codec for. *)
Definition SetWithExpiry {A} {jsonA : JSON A} (key : string) (value : A) (ttl : Z)
  : ST Redis.t (option error) :=
  match Marshal value with
  | Err e => ret (Some e)
  | Ok data => Redis.Set_ key data ttl
  end.

(** [GetWithExpiry]: the decoded value is what the call writes through
    [result]; on a miss it returns [nil] and writes nothing.  What a
    failed [json.Unmarshal] leaves behind the pointer is not modelled. *)
Definition GetWithExpiry {A} {jsonA : JSON A} (key : string)
  : ST Redis.t (option A * option error) :=
  do '(val, err) <- Redis.Get key;
  match err with
  | Some e =>
      if isRedisNil e then ret (None, None)   (* cache miss *)
      else ret (None, Some e)
  | None =>
      match Unmarshal val with
      | Err e => ret (None, Some e)
      | Ok value => ret (Some value, None)
      end
  end.

End Client.
End cache_ext.

(** ** [package database]: the statement [PropertyRepository.SearchProperties] builds *)

Module query.

(** A bound argument of a condition. *)
Inductive Arg : Type :=
  | AString (s : string)
  | AInt (z : Z)
  | AFloat (x : spec_float)
  | ABool (b : bool)
  | ATime (t : Time.t)
  | AInts (l : list Z).

(** One call on the [gorm] chain. *)
Inductive Clause : Type :=
  | Where (sql : string) (args : list Arg)
  | Joins (sql : string)
  | Distinct.

Record Statement : Type := {
  clauses : list Clause;
  order : string;
  limit : Z;
  offset : Z
}.

(** [x > 0] on a float. *)
Definition positive (x : spec_float) : bool := SFltb (S754_zero false) x.

Definition when (b : bool) (cs : list Clause) : list Clause := if b then cs else [].

Definition isTrue (p : Ptr bool) : bool :=
  match deref p with Some true => true | _ => false end.

(** A 64-bit [int] result, wrapped around. *)
Definition wrap64 (z : Z) : Z := (z + 2 ^ 63) mod 2 ^ 64 - 2 ^ 63.

Definition conditions (filter : SearchFilter) : list Clause :=
  (* Location filter *)
  when (negb (String.eqb (Location filter) ""))
    [Where "location ILIKE ?" [AString ("%" +:+ Location filter +:+ "%")]] ++
  (* City filter *)
  when (negb (String.eqb (City filter) ""))
    [Where "city ILIKE ?" [AString ("%" +:+ City filter +:+ "%")]] ++
  (* Guest count filter *)
  when (0 <? NumberOfGuests filter)
    [Where "max_guests >= ?" [AInt (NumberOfGuests filter)]] ++
  (* Price range filter *)
  when (positive (MinPrice filter) || positive (MaxPrice filter))
    [Joins "LEFT JOIN pricing ON pricing.property_id = properties.id";
     Where "pricing.total_price BETWEEN ? AND ?"
           [AFloat (MinPrice filter); AFloat (MaxPrice filter)]] ++
  (* Rating filter *)
  when (positive (MinRating filter))
    [Where "rating >= ?" [AFloat (MinRating filter)]] ++
  (* Amenities filter *)
  when (0 <? length (AmenityIDs filter))%nat
    [Joins "LEFT JOIN property_amenities ON property_amenities.property_id = properties.id";
     Where "property_amenities.amenity_id IN ?" [AInts (AmenityIDs filter)];
     Distinct] ++
  (* Conditions filter *)
  when (0 <? length (ConditionIDs filter))%nat
    [Joins "LEFT JOIN property_conditions ON property_conditions.property_id = properties.id";
     Where "property_conditions.condition_id IN ?" [AInts (ConditionIDs filter)];
     Distinct] ++
  (* Specific condition filters *)
  when (isTrue (PetFriendly filter))
    [Joins "LEFT JOIN property_conditions pc ON pc.property_id = properties.id";
     Joins "LEFT JOIN conditions c ON c.id = pc.condition_id";
     Where "c.type = ? AND c.name ILIKE ?" [AString "pets"; AString "%friendly%"]] ++
  when (isTrue (SmokingFriendly filter))
    [Joins "LEFT JOIN property_conditions pc ON pc.property_id = properties.id";
     Joins "LEFT JOIN conditions c ON c.id = pc.condition_id";
     Where "c.type = ? AND c.name ILIKE ?" [AString "smoking"; AString "%friendly%"]] ++
  (* Availability filter for date range *)
  when (negb (Time.IsZero (CheckinDate filter)) && negb (Time.IsZero (CheckoutDate filter)))
    [Joins "LEFT JOIN availabilities ON availabilities.property_id = properties.id";
     Where "availabilities.date BETWEEN ? AND ? AND availabilities.available = ?"
           [ATime (CheckinDate filter); ATime (CheckoutDate filter); ABool true]] ++
  (* Distance filter (if coordinates provided) *)
  match deref (Latitude filter), deref (Longitude filter) with
  | Some lat, Some lon =>
      when (positive (RadiusKm filter))
        [Where "earth_distance(ll_to_earth(latitude, longitude), ll_to_earth(?, ?)) / 1000 <= ?"
               [AFloat lat; AFloat lon; AFloat (RadiusKm filter)]]
  | _, _ => []
  end.

(** The statement that fetches the page: conditions, sorting, pagination. *)
Definition SearchProperties (filter : SearchFilter) : Statement :=
  let sortBy := if String.eqb (SortBy filter) "" then "rating" else SortBy filter in
  let page := if Page filter <? 1 then 1 else Page filter in
  let limit := if Limit filter <? 1 then 20 else Limit filter in
  {| clauses := conditions filter;
     order := sortBy +:+ " DESC";
     limit := limit;
     offset := wrap64 ((page - 1) * limit) |}.

End query.

(** ** [package handlers]: the remaining handlers *)

(** What [c.JSON] writes for a list or a failure. *)
Inductive Reply (A : Type) : Type :=
  | Failure (code : Z) (msg : string)
  | Served (code : Z) (data : A) (cached : bool).
Arguments Failure {A} code msg.
Arguments Served {A} code data cached.

(** The body of the health endpoint. *)
Record Health : Type := {
  health_status : string;
  health_database : string;
  health_redis : string;
  health_timestamp : Time.t
}.

(** [t.Format("2006-01-02")] *)
Definition formatDate (x : Time.t) : string :=
  let '(y, m, d) := Time.civil ((Time.sec x + Time.zoneOffset x) / 86400) in
  Text.appendInt y 4 +:+ "-" +:+ Text.appendInt m 2 +:+ "-" +:+ Text.appendInt d 2.

Module handlers_ext.
Section Handler.

Context {jsonAmenities : JSON (list Amenity)} {jsonConditions : JSON (list Condition)}.

(** [amenityRepo.GetAllAmenities] and [conditionRepo.GetAllConditions]. *)
Variable repoGetAllAmenities : res (list Amenity).
Variable repoGetAllConditions : res (list Condition).

(** [Handler.GetAmenities] *)
Definition GetAmenities : ST World (Reply (list Amenity)) :=
  (* Try to get from cache *)
  do '(cachedAmenities, err) <- onRedis cache_ext.GetAmenitiesCache;
  logIfErr "Cache retrieval error" err ;;
  if (0 <? length cachedAmenities)%nat then
    logLine "Cache HIT for amenities" ;;
    ret (Served StatusOK cachedAmenities true)
  else
    logLine "Cache MISS for amenities, fetching from database" ;;
    (* Fetch from database *)
    match repoGetAllAmenities with
    | Err _ => ret (Failure StatusInternalServerError "Failed to retrieve amenities")
    | Ok amenities =>
        (* Cache amenities (24 hour TTL) *)
        do err <- onRedis (cache_ext.SetAmenitiesCache amenities (24 * Hour));
        logIfErr "Failed to cache amenities" err ;;
        ret (Served StatusOK amenities false)
    end.

(** [Handler.GetConditions] *)
Definition GetConditions : ST World (Reply (list Condition)) :=
  (* Try to get from cache *)
  do '(cachedConditions, err) <- onRedis cache_ext.GetConditionsCache;
  logIfErr "Cache retrieval error" err ;;
  if (0 <? length cachedConditions)%nat then
    logLine "Cache HIT for conditions" ;;
    ret (Served StatusOK cachedConditions true)
  else
    logLine "Cache MISS for conditions, fetching from database" ;;
    (* Fetch from database *)
    match repoGetAllConditions with
    | Err _ => ret (Failure StatusInternalServerError "Failed to retrieve conditions")
    | Ok conditions =>
        (* Cache conditions (24 hour TTL) *)
        do err <- onRedis (cache_ext.SetConditionsCache conditions (24 * Hour));
        logIfErr "Failed to cache conditions" err ;;
        ret (Served StatusOK conditions false)
    end.

(** [Handler.HealthCheck]: [SELECT 1] against the store, [PING] against
    Redis. *)
Definition HealthCheck (now : Time.t) : ST World (Z * Health) :=
  (* Check database *)
  do err <- onDB database.attempt;
  let dbHealth := match err with None => "up" | Some _ => "down" end in
  (* Check Redis *)
  do err <- onRedis cache_ext.HealthCheck;
  let redisHealth := match err with None => "up" | Some _ => "down" end in
  ret (StatusOK,
       {| health_status := "healthy"; health_database := dbHealth;
          health_redis := redisHealth; health_timestamp := now |}).

(** *** [convertPropertiesToSearchResults]

    The arithmetic is [float64] arithmetic and stays a parameter: the sum
    and the quotient of the prices, the conversion of a length, and
    [calculateDistance]. *)
Variable repoGetPricingForDateRange : Z -> string -> string -> res (list Pricing).
Variable fadd fdiv : spec_float -> spec_float -> spec_float.
Variable floatOfInt : Z -> spec_float.
Variable calculateDistance : spec_float -> spec_float -> spec_float -> spec_float -> spec_float.

Definition convertProperty (filter : SearchFilter) (prop : Property) (pricing : list Pricing)
  : SearchResult :=
  (* Calculate total price *)
  let totalPrice :=
    fold_left (fun acc p => fadd acc (pricing_TotalPrice p)) pricing (S754_zero false) in
  let avgPrice :=
    if (0 <? length pricing)%nat
    then fdiv totalPrice (floatOfInt (Z.of_nat (length pricing)))
    else S754_zero false in
  (* Calculate distance if coordinates provided *)
  let distance :=
    match deref (Latitude filter), deref (Longitude filter) with
    | Some lat, Some lon =>
        Some (calculateDistance lat lon (property_Latitude prop) (property_Longitude prop))
    | _, _ => None
    end in
  {| result_ID := property_ID prop;
     result_Name := property_Name prop;
     result_Description := property_Description prop;
     result_Location := property_Location prop;
     result_City := property_City prop;
     result_State := property_State prop;
     result_Country := property_Country prop;
     result_Rating := property_Rating prop;
     result_ReviewCount := property_ReviewCount prop;
     result_MaxGuests := property_MaxGuests prop;
     result_Bedrooms := property_Bedrooms prop;
     result_Bathrooms := property_Bathrooms prop;
     result_PricePerNight := avgPrice;
     result_TotalPrice := totalPrice;
     result_Amenities := map amenity_Name (property_Amenities prop);
     result_Conditions := map condition_Name (property_Conditions prop);
     result_Distance := distance;
     result_Available := true |}.

Fixpoint convertPropertiesToSearchResults (properties : list Property) (filter : SearchFilter)
  : ST World (list SearchResult) :=
  match properties with
  | [] => ret []
  | prop :: rest =>
      (* Get pricing information for the date range *)
      match repoGetPricingForDateRange (property_ID prop)
              (formatDate (CheckinDate filter)) (formatDate (CheckoutDate filter)) with
      | Err e =>
          logLine ("Failed to get pricing for property " +:+ Text.dec (property_ID prop)
                   +:+ ": " +:+ errorString e) ;;
          convertPropertiesToSearchResults rest filter   (* continue *)
      | Ok pricing =>
          do results <- convertPropertiesToSearchResults rest filter;
          ret (convertProperty filter prop pricing :: results)
      end
  end.

End Handler.
End handlers_ext.

(** ** More filters and worlds used in the statements below *)



(** The bytes of a lower-case hexadecimal numeral. *)
Definition hexdigit (c : ascii) : bool :=
  let n := N_of_ascii c in
  ((48 <=? n)%N && (n <=? 57)%N) || ((97 <=? n)%N && (n <=? 102)%N).

Fixpoint all_hexdigits (s : string) : bool :=
  match s with
  | "" => true
  | String c s' => hexdigit c && all_hexdigits s'
  end.

(** The tables [handleEvent] has a case for. *)
Definition knownTable (table : string) : bool :=
  existsb (String.eqb table)
    ["properties"; "availabilities"; "pricing"; "amenities"; "conditions";
     "property_amenities"; "property_conditions"].

(** The ids of the rows still flagged unprocessed, in table order. *)
Definition pendingIDs (d : database.t) : list Z :=
  map ID (filter (fun ev => negb (Processed ev)) (database.events d)).

(** The list a cached payload stands for; the empty list when there is
    none or it cannot be decoded. *)
Definition decoded {A} {J : JSON (list A)} (o : option Redis.entry) : list A :=
  match o with
  | Some e => match Unmarshal (Redis.value e) with Ok l => l | Err _ => [] end
  | None => []
  end.

(** The entry under [key] is there and does not decode as an [A]: the
    [GET] of [key] in [r] hands back a payload, leaving [r1], and
    [json.Unmarshal] rejects the payload with [e]. *)
Definition corruptAt (A : Type) {jsonA : JSON A} (key : string) (r r1 : Redis.t) (e : error)
  : Prop :=
  exists payload,
    Redis.Get key r = (payload, None, r1) /\ @Unmarshal A jsonA payload = Err e.

(** What a set operation that stores [data] under [key] leaves behind:
    no error, the payload under the key with the deadline [SET] gives it,
    and no deadline at all for a ttl of zero or less other than
    [KeepTTL]. *)
Definition storedBy (r : Redis.t) (ttl : Z)
    (call : option error * Redis.t * string * string) : Prop :=
  let '(out, key, data) := call in
  fst out = None /\
  Redis.keys (snd out) !! key
    = Some {| Redis.value := data;
              Redis.deadline := Redis.newDeadline (snd (Redis.attempt r)) key ttl |} /\
  (ttl <= 0 -> ttl <> Redis.KeepTTL ->
   Redis.live (snd out) key = Some {| Redis.value := data; Redis.deadline := None |}).

(** The world [d] nanoseconds later, as Redis sees it. *)
Definition later (d : Z) (w : World) : World :=
  {| redis := RedisOps.advance d (redis w); db := db w; logs := logs w |}.

(** The [cached] flag of a response; an error body has none. *)
Definition servedFromCache (r : Response) : bool :=
  match body r with
  | ErrorBody _ => false
  | SearchBody _ _ _ _ cached _ => cached
  | PropertyBody _ cached => cached
  end.

(** Whether the payload of an event can be read by the handler of its
    table; only the handlers of [availabilities] and [pricing] read it. *)
Definition decodable {jsonAvailability : JSON Availability} {jsonPricing : JSON Pricing}
    (ev : Event) : bool :=
  if String.eqb (TableName ev) "availabilities" then
    match @Unmarshal Availability _ (Data ev) with Ok _ => true | Err _ => false end
  else if String.eqb (TableName ev) "pricing" then
    match @Unmarshal Pricing _ (Data ev) with Ok _ => true | Err _ => false end
  else true.

(** Whether the pricing look-up for [p] succeeds, with or without rows. *)
Definition priced (repoGetPricingForDateRange : Z -> string -> string -> res (list Pricing))
    (filter : SearchFilter) (p : Property) : bool :=
  match repoGetPricingForDateRange (property_ID p)
          (formatDate (CheckinDate filter)) (formatDate (CheckoutDate filter)) with
  | Ok _ => true
  | Err _ => false
  end.

Module Samples.

Definition wifi : Amenity :=
  {| amenity_ID := 2; amenity_Name := "WiFi"; amenity_Category := "entertainment";
     amenity_Icon := "wifi"; amenity_CreatedAt := Time.zero;
     amenity_UpdatedAt := Time.zero; amenity_DeletedAt := None |}.

Definition jsonAmenities : JSON (list Amenity) :=
  Fixtures.stubJSON (fun l => "amenities-" +:+ Text.dec (Z.of_nat (length l)) +:+ ".json")
                    [("amenities-1.json", [wifi]); ("amenities-0.json", []); ("null", [])].

Definition pets : Condition :=
  {| condition_ID := 1; condition_Name := "Pet Friendly"; condition_Type := "pets";
     condition_CreatedAt := Time.zero; condition_UpdatedAt := Time.zero;
     condition_DeletedAt := None |}.

Definition jsonConditions : JSON (list Condition) :=
  Fixtures.stubJSON (fun l => "conditions-" +:+ Text.dec (Z.of_nat (length l)) +:+ ".json")
                    [("conditions-1.json", [pets]); ("conditions-0.json", []); ("null", [])].

Definition day : PropertyAvailabilityCache :=
  {| pac_PropertyID := 42; pac_Available := true; pac_MinStay := 2;
     pac_MaxGuests := 4; pac_UpdatedAt := Fixtures.morning |}.

Definition jsonAvailabilityCache : JSON PropertyAvailabilityCache :=
  Fixtures.stubJSON (fun a => "day-" +:+ Text.dec (pac_PropertyID a) +:+ ".json")
                    [("day-42.json", day)].

Definition empty : Redis.t := Redis.mk ∅ 0 [].

(** The first page of an empty result list, not yet stamped. *)
Definition page : SearchResultsCache :=
  {| Results := []; Total := 0; cache_Page := 1; cache_Limit := 20;
     UpdatedAt := Time.zero; ExpiresAt := Time.zero |}.



(** A pricing repository that knows property 42, without any row for the
    dates asked, and fails for every other property. *)
Definition pricingOf42 (id : Z) (checkin checkout : string) : res (list Pricing) :=
  if id =? 42 then Ok [] else Err (Error "connection reset by peer").

(** [float64] addition, division and conversion from an integer. *)
Definition fadd : spec_float -> spec_float -> spec_float := SFadd 53 1024.
Definition fdiv : spec_float -> spec_float -> spec_float := SFdiv 53 1024.
Definition floatOfInt (z : Z) : spec_float := binary_normalize 53 1024 z 0 false.
Definition noDistance (lat1 lon1 lat2 lon2 : spec_float) : spec_float := S754_zero false.

(** A cache holding the two lists. *)
Definition lists : Redis.t :=
  Redis.mk (<["amenities:all" := Fixtures.plain "amenities-1.json"]>
            (<["conditions:all" := Fixtures.plain "conditions-1.json"]> ∅)) 0 [].



(** The world after a first search for [f] on the morning of 2025-11-29,
    against an empty cache and a Data Store without a matching property. *)
Definition searched (f : SearchFilter) : World :=
  snd (@handlers.SearchProperties Fixtures.jsonResults Fixtures.noSearch Fixtures.noConvert
         Fixtures.atMorning (Ok f) (Fixtures.world empty Fixtures.pending)).

(** The world after a first request for property 42. *)
Definition visited : World :=
  snd (@handlers.GetProperty Fixtures.jsonProperty Fixtures.findVilla "42"
         (Fixtures.world empty Fixtures.pending)).

(** The cache after a first search for Goa and a first request for
    property 42. *)
Definition stocked : Redis.t :=
  redis (snd (@handlers.GetProperty Fixtures.jsonProperty Fixtures.findVilla "42"
                (searched Fixtures.goa))).

(** The same cache behind a connection that takes the next command and
    refuses the one after it. *)
Definition flaky : Redis.t :=
  Redis.mk (Redis.keys stocked) 0 [None; Some Fixtures.refused].

End Samples.
(** * Properties *)

(** ** The digest against the RFC 1321 test suite *)

Example md5_empty : md5hex "" = "d41d8cd98f00b204e9800998ecf8427e".
Proof. vm_compute. reflexivity. Qed.

Example md5_abc : md5hex "abc" = "900150983cd24fb0d6963f7d28e17f72".
Proof. vm_compute. reflexivity. Qed.

Example md5_two_blocks :
  md5hex "12345678901234567890123456789012345678901234567890123456789012345678901234567890"
  = "57edf4a22be3c955ac49da2e2107b67a".
Proof. vm_compute. reflexivity. Qed.

Example zero_time_String : Time.String Time.zero = "0001-01-01 00:00:00 +0000 UTC".
Proof. vm_compute. reflexivity. Qed.

Example goa_hashStr :
  hashStr Fixtures.goa =
  ":Goa:0001-01-01 00:00:00 +0000 UTC:0001-01-01 00:00:00 +0000 UTC:2:%!t(" +:+
  "*bool=<nil>):%!t(" +:+ "*bool=<nil>):[]:[]:0.000000:0.000000:0.000000:0.000000::1:20".
Proof. vm_compute. reflexivity. Qed.

(** ** Facts about the rendering of integers and slices *)

Module TextFacts.
Import Text.

Lemma append_assoc (a b c : string) : (a +:+ b) +:+ c = a +:+ (b +:+ c).
Proof.
  induction a as [|x a IH]; [reflexivity|].
  change (String x ((a +:+ b) +:+ c) = String x (a +:+ (b +:+ c))). now f_equal.
Qed.

Lemma uint_numeric (d : Decimal.uint) :
  all_numeric (DecimalString.NilEmpty.string_of_uint d) = true.
Proof. induction d; simpl; auto. Qed.

Lemma dec_numeric (z : Z) : all_numeric (dec z) = true.
Proof.
  unfold dec. destruct (Z.to_int z) as [d|d]; simpl.
  - destruct d; try apply (uint_numeric (_ _)); reflexivity.
  - destruct d; try apply (uint_numeric (_ _)); reflexivity.
Qed.

Lemma dec_inj (x y : Z) : dec x = dec y -> x = y.
Proof.
  unfold dec. intros H.
  apply DecimalZ.to_int_inj.
  assert (Hn : forall z, Z.to_int z <> Decimal.Pos Decimal.Nil /\
                         Z.to_int z <> Decimal.Neg Decimal.Nil).
  { intros [|p|p]; simpl; split; try discriminate;
      intros [= E]; now apply (DecimalPos.Unsigned.to_uint_nonnil p). }
  pose proof (DecimalString.NilZero.isi _ (proj1 (Hn x)) (proj2 (Hn x))) as Hx.
  pose proof (DecimalString.NilZero.isi _ (proj1 (Hn y)) (proj2 (Hn y))) as Hy.
  rewrite H in Hx. congruence.
Qed.

Lemma dec_nonempty (z : Z) : dec z <> "".
Proof.
  intros E. unfold dec in E.
  destruct (Z.to_int z) as [d|d]; simpl in E; [|discriminate].
  destruct d; simpl in E; discriminate.
Qed.

(** Two numerals, each followed by a byte that no numeral contains: the
    numerals coincide, and so does what follows them. *)
Lemma token_split (u u' : string) (c c' : ascii) (r r' : string) :
  all_numeric u = true -> all_numeric u' = true ->
  numeric c = false -> numeric c' = false ->
  u +:+ String c r = u' +:+ String c' r' ->
  u = u' /\ c = c' /\ r = r'.
Proof.
  revert u'. induction u as [|x u IH]; intros [|x' u'] Hu Hu' Hc Hc' E; simpl in *.
  - now injection E as -> ->.
  - injection E as -> _. apply andb_prop in Hu' as [Hx _]. congruence.
  - injection E as -> _. apply andb_prop in Hu as [Hx _]. congruence.
  - injection E as -> E. apply andb_prop in Hu as [_ Hu]. apply andb_prop in Hu' as [_ Hu'].
    destruct (IH u' Hu Hu' Hc Hc' E) as (-> & -> & ->). auto.
Qed.

Lemma spaced_cons (x : Z) (l : list Z) (r : string) :
  spaced (x :: l) +:+ String "]" r =
  dec x +:+ match l with
            | [] => String "]" r
            | _ => String " " (spaced l +:+ String "]" r)
            end.
Proof.
  destruct l as [|y l]; [reflexivity|].
  change (spaced (x :: y :: l)) with (dec x +:+ " " +:+ spaced (y :: l)).
  now rewrite !append_assoc.
Qed.

Lemma spaced_prefix_free (l l' : list Z) (r r' : string) :
  spaced l +:+ String "]" r = spaced l' +:+ String "]" r' -> l = l' /\ r = r'.
Proof.
  revert l'. induction l as [|x l IH]; intros [|x' l'] E.
  - simpl in E. now injection E.
  - rewrite spaced_cons in E. exfalso.
    destruct l'.
    + apply (token_split "" (dec x') "]" "]") in E as (E & _); auto using dec_numeric.
      now apply (dec_nonempty x').
    + apply (token_split "" (dec x') "]" " ") in E as (E & _); auto using dec_numeric.
      now apply (dec_nonempty x').
  - rewrite spaced_cons in E. exfalso.
    destruct l.
    + apply (token_split (dec x) "" "]" "]") in E as (E & _); auto using dec_numeric.
      now apply (dec_nonempty x).
    + apply (token_split (dec x) "" " " "]") in E as (E & _); auto using dec_numeric.
      now apply (dec_nonempty x).
  - rewrite !spaced_cons in E.
    destruct l as [|y l], l' as [|y' l'].
    + apply token_split in E as (E & _ & ->); auto using dec_numeric.
      apply dec_inj in E as ->. auto.
    + apply token_split in E as (_ & E & _); auto using dec_numeric. discriminate.
    + apply token_split in E as (_ & E & _); auto using dec_numeric. discriminate.
    + apply token_split in E as (E & _ & E'); auto using dec_numeric.
      apply dec_inj in E as ->. apply IH in E' as (-> & ->). auto.
Qed.

Lemma fmt_slice_app (l : list Z) (r : string) :
  fmt_slice l +:+ r = String "[" (spaced l +:+ String "]" r).
Proof. unfold fmt_slice. now rewrite !append_assoc. Qed.

Lemma fmt_slice_prefix_free (l l' : list Z) (r r' : string) :
  fmt_slice l +:+ r = fmt_slice l' +:+ r' -> l = l' /\ r = r'.
Proof.
  rewrite !fmt_slice_app. intros [= E]. now apply spaced_prefix_free in E.
Qed.

End TextFacts.

(** ** The log only grows, and the cache and the store never write to it *)


Lemma onRedis_db {A} (m : ST Redis.t A) (w : World) :
  db (snd (onRedis m w)) = db w.
Proof. unfold onRedis. now destruct (m (redis w)). Qed.

Lemma onDB_redis {A} (m : ST database.t A) (w : World) :
  redis (snd (onDB m w)) = redis w.
Proof. unfold onDB. now destruct (m (db w)). Qed.

(** ** The search key *)

(** The digest input of a filter whose id sets are [a] and [c]: a prefix
    and a suffix that do not depend on them, around the two slices. *)
Lemma hashStr_withIds (f : SearchFilter) (a c : list Z) :
  exists pre post,
    forall a c, hashStr (withIds f a c) =
      pre +:+ (Text.fmt_slice a +:+ ":" +:+ (Text.fmt_slice c +:+ post)).
Proof.
  eexists (Location f +:+ ":" +:+ City f +:+ ":" +:+ Time.String (CheckinDate f) +:+ ":" +:+
           Time.String (CheckoutDate f) +:+ ":" +:+ Text.dec (NumberOfGuests f) +:+ ":" +:+
           fmt_t_ptr (PetFriendly f) +:+ ":" +:+ fmt_t_ptr (SmokingFriendly f) +:+ ":"), _.
  intros a' c'. unfold hashStr. simpl.
  rewrite !TextFacts.append_assoc. reflexivity.
Qed.

(** C3 (defect).  The key is not a function of what the filter says.  Two
    requests that both ask for [pet_friendly = true], and nothing else,
    get different keys when the decoder has put the boolean at different
    addresses, because [%t] is handed the pointer and prints its address:
    the second request misses the entry the first one cached, while a
    repeat at the first address hits it.  The value pointed to never
    reaches the key. *)
Theorem C3_key_follows_pointer_address :
  let first := withPetFriendly Fixtures.emptyFilter (Some (0xc00001c0a8%N, true)) in
  let second := withPetFriendly Fixtures.emptyFilter (Some (0xc00001c0b0%N, true)) in
  let serve := @handlers.SearchProperties Fixtures.jsonResults Fixtures.noSearch
                 Fixtures.noConvert Fixtures.atMorning in
  let w1 := snd (serve (Ok first) (Fixtures.world (Redis.mk ∅ 0 []) Fixtures.pending)) in
  content first = content second /\
  generateSearchCacheKey first = "search:53e4e3ed467740b3a29e949ebac9f2c8" /\
  generateSearchCacheKey second = "search:475e49f4959149c9697c0d64c8249d92" /\
  generateSearchCacheKey first <> generateSearchCacheKey second /\
  body (fst (serve (Ok first) w1)) = SearchBody [] 0 1 20 true (Some 0) /\
  body (fst (serve (Ok second) w1)) = SearchBody [] 0 1 20 false None /\
  (forall f a v v',
      generateSearchCacheKey (withPetFriendly f (Some (a, v)))
      = generateSearchCacheKey (withPetFriendly f (Some (a, v')))).
Proof.
  cbv zeta. split; [reflexivity|].
  split; [vm_compute; reflexivity|]. split; [vm_compute; reflexivity|].
  split; [vm_compute; discriminate|].
  split; [vm_compute; reflexivity|]. split; [vm_compute; reflexivity|].
  reflexivity.
Qed.

(** C4, as stated, fails: amenity ids [1, 2] and [2, 1] with everything
    else equal give two different keys. *)
Lemma C4_counterexample_id_order_changes_key :
  let one_two := withIds Fixtures.emptyFilter [1; 2] [] in
  let two_one := withIds Fixtures.emptyFilter [2; 1] [] in
  Permutation (AmenityIDs one_two) (AmenityIDs two_one) /\
  withIds one_two [] [] = withIds two_one [] [] /\
  generateSearchCacheKey one_two = "search:0b9268765dd7635eac01b55a13873a60" /\
  generateSearchCacheKey two_one = "search:c5f0fbdbceab7f3468379d88c212d228" /\
  generateSearchCacheKey one_two <> generateSearchCacheKey two_one.
Proof.
  cbv zeta. split; [apply perm_swap|].
  vm_compute. repeat split; try reflexivity; discriminate.
Qed.

(** C4, amended.  The id sets are written into the digest input in the
    order the request gave them, unsorted: for filters that differ at most
    in their id sets, the digest inputs are equal exactly when both id
    sequences are equal element for element; the key is the digest of that
    input behind the [search:] prefix. *)
Theorem C4_digest_input_keeps_id_order (f : SearchFilter) (a c a' c' : list Z) :
  (hashStr (withIds f a c) = hashStr (withIds f a' c') <-> a = a' /\ c = c') /\
  generateSearchCacheKey (withIds f a c) = "search:" +:+ md5hex (hashStr (withIds f a c)).
Proof.
  split; [|reflexivity].
  split; [|now intros [-> ->]].
  destruct (hashStr_withIds f a c) as (pre & post & H). rewrite !H.
  intros E. apply String.app_inj in E.
  apply TextFacts.fmt_slice_prefix_free in E as (-> & E).
  apply (String.app_inj ":") in E.
  apply TextFacts.fmt_slice_prefix_free in E as (-> & _). auto.
Qed.



(** ** Facts about the Redis commands *)

Module RedisFacts.
Import Redis.

Lemma attempt_data (r : t) :
  keys (snd (attempt r)) = keys r /\ clock (snd (attempt r)) = clock r.
Proof. unfold attempt. now destruct (faults r). Qed.

Lemma attempt_healthy (r : t) :
  healthy r -> fst (attempt r) = None /\ healthy (snd (attempt r)).
Proof.
  unfold healthy, attempt. destruct (faults r) as [|f fs] eqn:E; simpl; intros H.
  - split; [reflexivity|]. rewrite E. constructor.
  - inversion H; subst. split; [reflexivity | assumption].
Qed.

Lemma live_ext (r r' : t) (k : string) :
  keys r' = keys r -> clock r' = clock r -> live r' k = live r k.
Proof. unfold live. now intros -> ->. Qed.

(** No command but [SET] adds a key, and [GET] and [SCAN] change none. *)
Lemma Get_keys (k : string) (r : t) :
  keys (snd (Get k r)) = keys r /\ clock (snd (Get k r)) = clock r.
Proof.
  unfold Get, bind. pose proof (attempt_data r) as H.
  destruct (attempt r) as [[e|] r']; simpl in *; [exact H|].
  now destruct (live r' k).
Qed.

Lemma Get_healthy (k : string) (r : t) : healthy r -> healthy (snd (Get k r)).
Proof.
  intros H. unfold Get, bind. destruct (attempt_healthy r H) as [E H'].
  destruct (attempt r) as [f r']; simpl in *; subst f. now destruct (live r' k).
Qed.

Lemma Scan_keys (p : string) (r : t) :
  keys (snd (Scan p r)) = keys r /\ clock (snd (Scan p r)) = clock r.
Proof.
  unfold Scan, bind. pose proof (attempt_data r) as H.
  now destruct (attempt r) as [[e|] r'].
Qed.

Lemma lookup_remove (ks : list string) (m : gmap string entry) (k : string) :
  remove ks m !! k = if bool_decide (k ∈ ks) then None else m !! k.
Proof.
  induction ks as [|x ks IH]; simpl.
  - reflexivity.
  - destruct (decide (x = k)) as [->|Hne].
    + rewrite lookup_delete_eq. rewrite bool_decide_eq_true_2; [reflexivity|]. left.
    + rewrite lookup_delete_ne by exact Hne. rewrite IH.
      destruct (bool_decide (k ∈ ks)) eqn:E.
      * apply bool_decide_eq_true_1 in E. rewrite bool_decide_eq_true_2; [reflexivity|]. now right.
      * apply bool_decide_eq_false_1 in E. rewrite bool_decide_eq_false_2; [reflexivity|].
        intros [?|?]%elem_of_cons; congruence.
Qed.

Lemma Del_clock (ks : list string) (r : t) : clock (snd (Del ks r)) = clock r.
Proof.
  unfold Del, bind. pose proof (attempt_data r) as [_ H].
  now destruct (attempt r) as [[e|] r'].
Qed.

(** [DEL] never brings a key back. *)
Lemma Del_shrinks (ks : list string) (r : t) (k : string) :
  live r k = None -> live (snd (Del ks r)) k = None.
Proof.
  unfold Del, bind, live. pose proof (attempt_data r) as [Hk Hc].
  destruct (attempt r) as [[e|] r']; simpl in *; rewrite ?Hk, ?Hc; [auto|].
  rewrite lookup_remove. now destruct (bool_decide _).
Qed.

Lemma Del_healthy (ks : list string) (r : t) :
  healthy r ->
  fst (Del ks r) = None /\ healthy (snd (Del ks r)) /\
  forall k, k ∈ ks -> keys (snd (Del ks r)) !! k = None.
Proof.
  intros H. unfold Del, bind. destruct (attempt_healthy r H) as [E H'].
  pose proof (attempt_data r) as [Hk _].
  destruct (attempt r) as [f r']; simpl in *; subst f. simpl.
  repeat split; [exact H'|].
  intros k Hin. rewrite lookup_remove. now rewrite bool_decide_eq_true_2.
Qed.

Lemma dead_not_live (r : t) (k : string) : keys r !! k = None -> live r k = None.
Proof. unfold live. now intros ->. Qed.

End RedisFacts.

(** C5.  When the backend still serves an entry whose stored [expires_at]
    lies before the wall clock, [GetSearchResultsCache] answers with a
    miss and sends [DEL] for the key; once that [DEL] goes through (the
    connection is healthy) the key is gone. *)
Theorem C5_expired_entry_is_a_miss_and_is_deleted
    {J : JSON SearchResultsCache} (r r1 : Redis.t) (now : Time.t)
    (cacheKey payload : string) (results : SearchResultsCache)
    (Hget : Redis.Get cacheKey r = (payload, None, r1))
    (Hdec : Unmarshal payload = Ok results)
    (Hexp : Time.Before (ExpiresAt results) now = true) :
  let out := cache.GetSearchResultsCache now cacheKey r in
  fst out = (None, None) /\
  snd out = snd (Redis.Del [cacheKey] r1) /\
  (Redis.healthy r ->
     Redis.keys (snd out) !! cacheKey = None /\ Redis.live (snd out) cacheKey = None).
Proof.
  cbv zeta. unfold cache.GetSearchResultsCache, bind. rewrite Hget, Hdec, Hexp.
  destruct (Redis.Del [cacheKey] r1) as [e r2] eqn:E. simpl.
  split; [reflexivity|]. split; [reflexivity|]. intros H.
  apply (RedisFacts.Get_healthy cacheKey) in H. rewrite Hget in H. simpl in H.
  destruct (RedisFacts.Del_healthy [cacheKey] r1 H) as (_ & _ & Hd).
  rewrite E in Hd. simpl in Hd.
  assert (Hk : Redis.keys r2 !! cacheKey = None) by (apply Hd; left).
  split; [exact Hk | now apply RedisFacts.dead_not_live].
Qed.

(** C6, as stated, fails: with a zero ttl [SetPropertyCache] returns no
    error and the snapshot is stored, never to expire; so does
    [SetSearchResultsCache] with a negative one. *)
Lemma C6_counterexample_nonpositive_ttl_is_stored :
  let empty := Redis.mk ∅ 0 [] in
  let set1 := @cache.SetPropertyCache Fixtures.jsonProperty 42 Fixtures.villa 0 empty in
  let set2 := @cache.SetSearchResultsCache Fixtures.jsonResults Fixtures.morning Fixtures.morning
                "search:0b9268765dd7635eac01b55a13873a60" Fixtures.zeroResults (- (5 * Minute)) empty in
  fst set1 = None /\
  Redis.live (snd set1) "property:42" = Some (Fixtures.plain "property-42.json") /\
  fst set2 = None /\
  Redis.live (snd set2) "search:0b9268765dd7635eac01b55a13873a60"
    = Some (Fixtures.plain "results-0-page-0.json").
Proof. vm_compute. repeat split; reflexivity. Qed.

(** A [SET] that Redis takes stores the payload, whatever the expiration. *)
Lemma Set_stores (key data : string) (ttl : Z) (r : Redis.t) :
  fst (Redis.attempt r) = None ->
  storedBy r ttl (Redis.Set_ key data ttl r, key, data).
Proof.
  intros Hup. unfold storedBy, Redis.Set_, bind.
  destruct (Redis.attempt r) as [f r']. simpl in Hup. subst f. simpl.
  rewrite lookup_insert_eq. split; [reflexivity|]. split; [reflexivity|].
  intros Hle Hne. unfold Redis.live. simpl. rewrite lookup_insert_eq.
  unfold Redis.newDeadline. destruct (0 <? ttl) eqn:E; [apply Z.ltb_lt in E; lia|].
  destruct (ttl =? Redis.KeepTTL) eqn:E'; [apply Z.eqb_eq in E'; congruence|]. reflexivity.
Qed.

(** C6, amended.  No set operation of the adapter looks at the ttl:
    [SetPropertyCache], [SetSearchResultsCache], [SetAvailabilityCache],
    [SetAmenitiesCache], [SetConditionsCache] and [SetWithExpiry].  For
    each of them, whenever the value marshals and Redis takes the command,
    the call returns no error and the key holds the payload, for every
    ttl; a ttl of zero or less (other than [KeepTTL]) stores it without
    expiry. *)
Theorem C6_set_stores_for_every_ttl
    {JP : JSON Property} {JR : JSON SearchResultsCache}
    {JD : JSON PropertyAvailabilityCache}
    {JA : JSON (list Amenity)} {JC : JSON (list Condition)}
    {V : Type} {JV : JSON V}
    (r : Redis.t) (ttl : Z)
    (propertyID : Z) (property : Property) (dataP : string)
    (now now' : Time.t) (cacheKey : string) (results : SearchResultsCache) (dataR : string)
    (date : string) (availability : PropertyAvailabilityCache) (dataD : string)
    (amenities : list Amenity) (dataA : string)
    (conditions : list Condition) (dataC : string)
    (key : string) (value : V) (dataV : string)
    (Hup : fst (Redis.attempt r) = None)
    (HmP : Marshal property = Ok dataP)
    (HmR : Marshal (cache.stamp now now' ttl results) = Ok dataR)
    (HmD : Marshal availability = Ok dataD)
    (HmA : Marshal amenities = Ok dataA)
    (HmC : Marshal conditions = Ok dataC)
    (HmV : Marshal value = Ok dataV) :
  Forall (storedBy r ttl)
    [ (cache.SetPropertyCache propertyID property ttl r,
       cache.propertyKey propertyID, dataP);
      (cache.SetSearchResultsCache now now' cacheKey results ttl r, cacheKey, dataR);
      (cache_ext.SetAvailabilityCache propertyID date availability ttl r,
       cache_ext.availabilityKey propertyID date, dataD);
      (cache_ext.SetAmenitiesCache amenities ttl r, "amenities:all", dataA);
      (cache_ext.SetConditionsCache conditions ttl r, "conditions:all", dataC);
      (cache_ext.SetWithExpiry key value ttl r, key, dataV) ].
Proof.
  unfold cache.SetPropertyCache, cache.SetSearchResultsCache,
    cache_ext.SetAvailabilityCache, cache_ext.SetAmenitiesCache,
    cache_ext.SetConditionsCache, cache_ext.SetWithExpiry.
  rewrite HmP, HmR, HmD, HmA, HmC, HmV.
  repeat (constructor; [now apply Set_stores|]). constructor.
Qed.

(** C7, as stated, fails: the entry for property 7 is a truncated
    document; the get reports the decoding error and the key is still
    there, also after a whole request whose store query fails. *)
Lemma C7_counterexample_corrupt_key_is_kept :
  let get := @cache.GetPropertyCache Fixtures.jsonProperty 7 Fixtures.corrupt in
  let request := @handlers.GetProperty Fixtures.jsonProperty Fixtures.storeDown "7"
                   (Fixtures.world Fixtures.corrupt Fixtures.pending) in
  fst get = (None, Some (Error "unexpected end of JSON input")) /\
  Redis.live (snd get) "property:7" = Some (Fixtures.plain "{") /\
  status (fst request) = StatusInternalServerError /\
  Redis.live (redis (snd request)) "property:7" = Some (Fixtures.plain "{").
Proof. vm_compute. repeat split; reflexivity. Qed.

(** What [SetPropertyCache] leaves under the key: the fresh payload when
    it returns no error, and what was there when it returns one. *)
Lemma SetPropertyCache_outcome {J : JSON Property}
    (propertyID : Z) (property : Property) (ttl : Z) (r : Redis.t) :
  let set := cache.SetPropertyCache propertyID property ttl r in
  match fst set with
  | Some _ => Redis.keys (snd set) = Redis.keys r
  | None => exists data, Marshal property = Ok data /\
              Redis.value <$> Redis.keys (snd set) !! cache.propertyKey propertyID = Some data
  end.
Proof.
  cbv zeta. unfold cache.SetPropertyCache.
  destruct (Marshal property) as [data|e]; [|reflexivity].
  unfold Redis.Set_, bind. pose proof (RedisFacts.attempt_data r) as [Hk _].
  destruct (Redis.attempt r) as [[f|] r']; simpl in *; [exact Hk|].
  exists data. split; [reflexivity|]. now rewrite lookup_insert_eq.
Qed.

(** C7, amended.  A get whose payload does not decode returns the
    decoder's error, not a miss, and sends nothing more to Redis, so the
    key stays: this holds of [GetPropertyCache], [GetSearchResultsCache],
    [GetAvailabilityCache], [GetAmenitiesCache], [GetConditionsCache] and
    [GetWithExpiry].  [GetProperty] logs the error and goes on to the Data
    Store.  If the store fails, the request fails and the keys are left as
    they were.  If the store answers, the request is served from it and
    the snapshot is set again: the key holds the fresh payload when that
    set returns no error, and the keys are as they were when it returns
    one. *)
Theorem C7_corrupt_payload_is_reported_and_kept
    {JP : JSON Property} {JR : JSON SearchResultsCache}
    {JD : JSON PropertyAvailabilityCache}
    {JA : JSON (list Amenity)} {JC : JSON (list Condition)}
    {V : Type} {JV : JSON V}
    (r r1 : Redis.t) (e : error) :
  (forall A (J : JSON A) key, @corruptAt A J key r r1 e ->
     Redis.keys r1 = Redis.keys r /\ Redis.clock r1 = Redis.clock r) /\
  (forall propertyID, corruptAt Property (cache.propertyKey propertyID) r r1 e ->
     cache.GetPropertyCache propertyID r = (None, Some e, r1)) /\
  (forall now cacheKey, corruptAt SearchResultsCache cacheKey r r1 e ->
     cache.GetSearchResultsCache now cacheKey r = (None, Some e, r1)) /\
  (forall propertyID date,
     corruptAt PropertyAvailabilityCache (cache_ext.availabilityKey propertyID date) r r1 e ->
     cache_ext.GetAvailabilityCache propertyID date r = (None, Some e, r1)) /\
  (corruptAt (list Amenity) "amenities:all" r r1 e ->
     cache_ext.GetAmenitiesCache r = ([], Some e, r1)) /\
  (corruptAt (list Condition) "conditions:all" r r1 e ->
     cache_ext.GetConditionsCache r = ([], Some e, r1)) /\
  (forall key, corruptAt V key r r1 e ->
     cache_ext.GetWithExpiry key r = (@None V, Some e, r1)) /\
  (forall propertyID (repo : Z -> res Property) (idParam : string) (w : World),
     corruptAt Property (cache.propertyKey propertyID) r r1 e ->
     ParseUint32 idParam = Ok propertyID -> redis w = r ->
     let out := handlers.GetProperty repo idParam w in
     In ("Cache retrieval error: " +:+ errorString e) (logs (snd out)) /\
     match repo propertyID with
     | Err _ => status (fst out) <> StatusOK /\ Redis.keys (redis (snd out)) = Redis.keys r
     | Ok property =>
         let set := cache.SetPropertyCache propertyID property (1 * Hour) r1 in
         fst out = {| status := StatusOK; body := PropertyBody property false |} /\
         redis (snd out) = snd set /\
         match fst set with
         | Some _ => Redis.keys (snd set) = Redis.keys r
         | None => exists data, Marshal property = Ok data /\
                     Redis.value <$> Redis.keys (snd set) !! cache.propertyKey propertyID
                     = Some data
         end
     end).
Proof.
  assert (Hkeep : forall A (J : JSON A) key, @corruptAt A J key r r1 e ->
            Redis.keys r1 = Redis.keys r /\ Redis.clock r1 = Redis.clock r).
  { intros A J key (payload & Hget & _).
    pose proof (RedisFacts.Get_keys key r) as H. now rewrite Hget in H. }
  assert (Hprop : forall propertyID,
            corruptAt Property (cache.propertyKey propertyID) r r1 e ->
            cache.GetPropertyCache propertyID r = (None, Some e, r1)).
  { intros i (payload & Hget & Hdec). unfold cache.GetPropertyCache, bind.
    now rewrite Hget, Hdec. }
  split; [exact Hkeep|]. split; [exact Hprop|].
  split; [intros now key (payload & Hget & Hdec);
          unfold cache.GetSearchResultsCache, bind; now rewrite Hget, Hdec|].
  split; [intros i date (payload & Hget & Hdec);
          unfold cache_ext.GetAvailabilityCache, bind; now rewrite Hget, Hdec|].
  split; [intros (payload & Hget & Hdec);
          unfold cache_ext.GetAmenitiesCache, bind; now rewrite Hget, Hdec|].
  split; [intros (payload & Hget & Hdec);
          unfold cache_ext.GetConditionsCache, bind; now rewrite Hget, Hdec|].
  split; [intros key (payload & Hget & Hdec);
          unfold cache_ext.GetWithExpiry, bind; now rewrite Hget, Hdec|].
  intros propertyID repo idParam w Hbad Hid Hw. cbv zeta.
  pose proof (Hprop _ Hbad) as Hc. destruct (Hkeep _ _ _ Hbad) as [Hk _].
  pose proof (SetPropertyCache_outcome propertyID) as Hset. cbv zeta in Hset.
  destruct (handlers.GetProperty repo idParam w) as [resp w'] eqn:Eout.
  unfold handlers.GetProperty in Eout. rewrite Hid in Eout.
  unfold bind, onRedis at 1 in Eout. rewrite Hw, Hc in Eout. simpl in Eout.
  destruct (repo propertyID) as [property|e']; simpl in *.
  - specialize (Hset property (1 * Hour) r1). rewrite Hk in Hset.
    unfold onRedis in Eout. simpl in Eout.
    destruct (cache.SetPropertyCache propertyID property (1 * Hour) r1) as [err r3].
    simpl in *.
    destruct err; simpl in Eout; injection Eout as <- <-; simpl;
      (split; [rewrite !in_app_iff; simpl; auto|]);
      (split; [reflexivity|]); (split; [reflexivity | exact Hset]).
  - destruct (isErrRecordNotFound e'); simpl in Eout; injection Eout as <- <-; simpl;
      (split; [rewrite !in_app_iff; simpl; auto | split; [discriminate | exact Hk]]).
Qed.

(** C8.  Whatever the cache does, a read is served when the Data Store
    answers: for every state of Redis and every script of failures, a
    search or a property request whose store query succeeds is answered
    [200 OK]; whenever the cache get hands back no value (a miss, an
    expired entry or an error; an error always comes without a value),
    the answer carries exactly the store's rows, marked as not cached,
    whether or not the set that follows succeeds. *)
Theorem C8_cache_faults_never_fail_a_read
    {JP : JSON Property} {JR : JSON SearchResultsCache}
    (repoSearch : SearchFilter -> res (list Property * Z))
    (convert : list Property -> SearchFilter -> list SearchResult)
    (repoGet : Z -> res Property)
    (clock : Clock) (w : World)
    (filter : SearchFilter) (properties : list Property) (total : Z)
    (idParam : string) (propertyID : Z) (property : Property)
    (Hsearch : repoSearch (validatePagination filter) = Ok (properties, total))
    (Hid : ParseUint32 idParam = Ok propertyID)
    (Hget : repoGet propertyID = Ok property) :
  let vf := validatePagination filter in
  let search := handlers.SearchProperties repoSearch convert clock (Ok filter) w in
  let cachedResults := fst (cache.GetSearchResultsCache (atCheck clock) (generateSearchCacheKey vf) (redis w)) in
  let get := handlers.GetProperty repoGet idParam w in
  let cachedProperty := fst (cache.GetPropertyCache propertyID (redis w)) in
  status (fst search) = StatusOK /\
  (snd cachedResults <> None -> fst cachedResults = None) /\
  (fst cachedResults = None ->
   fst search = {| status := StatusOK;
                   body := SearchBody (convert properties vf) total (Page vf) (Limit vf)
                             false None |}) /\
  status (fst get) = StatusOK /\
  (snd cachedProperty <> None -> fst cachedProperty = None) /\
  (fst cachedProperty = None ->
   fst get = {| status := StatusOK; body := PropertyBody property false |}).
Proof.
  cbv zeta. split; [|split; [|split; [|split; [|split]]]].
  - unfold handlers.SearchProperties, bind, logLine at 1, onRedis at 1. simpl.
    destruct (cache.GetSearchResultsCache _ _ _) as [[cached err] r1].
    destruct (logIfErr _ _ _) as [[] w2].
    destruct cached as [c|]; simpl; [reflexivity|].
    rewrite Hsearch. simpl.
    destruct (onRedis _ _) as [err3 w3]. now destruct err3.
  - unfold cache.GetSearchResultsCache, bind.
    destruct (Redis.Get _ _) as [[val [e|]] r1]; simpl.
    + now destruct (isRedisNil e).
    + destruct (Unmarshal val) as [res|e]; simpl; [|reflexivity].
      destruct (Time.Before _ _); simpl; [|congruence].
      now destruct (Redis.Del _ r1).
  - unfold handlers.SearchProperties, bind, logLine at 1, onRedis at 1. simpl.
    destruct (cache.GetSearchResultsCache _ _ _) as [[cached err] r1]. simpl.
    intros ->. destruct (logIfErr _ _ _) as [[] w2]. simpl. rewrite Hsearch. simpl.
    destruct (onRedis _ _) as [err3 w3]. now destruct err3.
  - unfold handlers.GetProperty. rewrite Hid. unfold bind, onRedis at 1.
    destruct (cache.GetPropertyCache _ _) as [[cached err] r1].
    destruct (logIfErr _ _ _) as [[] w2].
    destruct cached as [c|]; simpl; [reflexivity|].
    rewrite Hget.
    destruct (onRedis _ _) as [err3 w3]. now destruct err3.
  - unfold cache.GetPropertyCache, bind.
    destruct (Redis.Get _ _) as [[val [e|]] r1]; simpl.
    + now destruct (isRedisNil e).
    + destruct (Unmarshal val) as [res|e]; simpl; [congruence|reflexivity].
  - unfold handlers.GetProperty. rewrite Hid. unfold bind, onRedis at 1.
    destruct (cache.GetPropertyCache _ _) as [[cached err] r1]. simpl.
    intros ->. destruct (logIfErr _ _ _) as [[] w2]. simpl. rewrite Hget.
    destruct (onRedis _ _) as [err3 w3]. now destruct err3.
Qed.

(** ** Facts about the event repository *)

Module DatabaseFacts.
Import database.

Lemma attempt_events (d : t) : events (snd (attempt d)) = events d.
Proof. unfold attempt. now destruct (dbfaults d). Qed.

Lemma db_attempt_healthy (d : t) :
  healthy d -> fst (attempt d) = None /\ healthy (snd (attempt d)).
Proof.
  unfold healthy, attempt. destruct (dbfaults d) as [|f fs] eqn:E; simpl; intros H.
  - split; [reflexivity|]. rewrite E. constructor.
  - inversion H; subst. split; [reflexivity | assumption].
Qed.

Lemma Get_events (limit : Z) (d : t) :
  events (snd (GetUnprocessedEvents limit d)) = events d.
Proof.
  unfold GetUnprocessedEvents, bind. pose proof (attempt_events d) as H.
  now destruct (attempt d) as [[e|] d'].
Qed.

Lemma fetch_healthy (limit : Z) (d : t) :
  healthy d -> healthy (snd (GetUnprocessedEvents limit d)).
Proof.
  intros H. unfold GetUnprocessedEvents, bind. destruct (db_attempt_healthy d H) as [E H'].
  now destruct (attempt d) as [[e|] d'].
Qed.

(** What a fetch returns: nothing on error, else the first [limit]
    unprocessed rows in the order of the table. *)
Lemma Get_rows (limit : Z) (d : t) :
  (exists e, fst (GetUnprocessedEvents limit d) = ([], Some e)) \/
  fst (GetUnprocessedEvents limit d) =
    (Limit_ limit (filter (fun ev => negb (Processed ev)) (events d)), None).
Proof.
  unfold GetUnprocessedEvents, bind. pose proof (attempt_events d) as H.
  destruct (attempt d) as [[e|] d']; simpl in *; [left; eauto|]. right. now rewrite H.
Qed.

Lemma Limit_sublist {A} (limit : Z) (l : list A) : sublist (Limit_ limit l) l.
Proof. unfold Limit_. destruct (limit <? 0); [reflexivity | apply sublist_take]. Qed.

Lemma Limit_length {A} (limit : Z) (l : list A) :
  0 <= limit -> (length (Limit_ limit l) <= Z.to_nat limit)%nat.
Proof.
  intros H. unfold Limit_. apply Z.ltb_ge in H. rewrite H.
  rewrite length_take. lia.
Qed.

Lemma sorted_sublist {A} (R : A -> A -> Prop) (l k : list A) :
  sublist l k -> StronglySorted R k -> StronglySorted R l.
Proof.
  induction 1 as [|x l k Hs IH|x l k Hs IH]; intros Hk.
  - constructor.
  - apply StronglySorted_inv in Hk as [Hk Hx]. constructor; [auto|].
    rewrite Forall_forall in Hx |- *. intros y Hy. apply Hx.
    exact (elem_of_sublist _ _ _ Hy Hs).
  - apply StronglySorted_inv in Hk as [Hk _]. auto.
Qed.

(** The flag of row [i] after marking [j]: raised if [i = j], as before
    otherwise. *)
Lemma find_mark (j i : Z) (l : list Event) :
  option_map Processed
    (find (fun ev => ID ev =? i)
          (map (fun ev => if ID ev =? j then setProcessed ev else ev) l)) =
  option_map (fun b => b || (i =? j))
    (option_map Processed (find (fun ev => ID ev =? i) l)).
Proof.
  induction l as [|ev l IH]; simpl; [reflexivity|].
  destruct (ID ev =? j) eqn:Ej; simpl.
  - destruct (ID ev =? i) eqn:Ei; simpl; [|exact IH].
    apply Z.eqb_eq in Ej, Ei. subst. now rewrite Z.eqb_refl, orb_true_r.
  - destruct (ID ev =? i) eqn:Ei; simpl; [|exact IH].
    apply Z.eqb_eq in Ei. subst. rewrite Ej. now rewrite orb_false_r.
Qed.

Lemma Mark_flag (j i : Z) (d : t) :
  processedFlag (snd (MarkEventAsProcessed j d)) i =
  match fst (attempt d) with
  | Some _ => processedFlag d i
  | None => option_map (fun b => b || (i =? j)) (processedFlag d i)
  end.
Proof.
  unfold MarkEventAsProcessed, bind, processedFlag. pose proof (attempt_events d) as H.
  destruct (attempt d) as [[e|] d']; simpl in *; rewrite ?H; [reflexivity|].
  rewrite <- H. apply find_mark.
Qed.

Lemma Mark_healthy (j : Z) (d : t) :
  healthy d -> healthy (snd (MarkEventAsProcessed j d)).
Proof.
  intros H. unfold MarkEventAsProcessed, bind. destruct (db_attempt_healthy d H) as [E H'].
  now destruct (attempt d) as [[e|] d'].
Qed.

(** A row that is in the table has a flag. *)
Lemma flag_of_row (d : t) (ev : Event) :
  In ev (events d) -> exists b, processedFlag d (ID ev) = Some b.
Proof.
  unfold processedFlag. induction (events d) as [|x l IH]; simpl; [easy|].
  intros [->|H].
  - rewrite Z.eqb_refl. simpl. eauto.
  - destruct (ID x =? ID ev); simpl; eauto.
Qed.

End DatabaseFacts.

(** C2, as stated, fails on the order: the store holds the two pending
    events in the order 2, 1, and that is the order the fetch returns
    them in. *)
Lemma C2_counterexample_fetch_keeps_store_order :
  map ID (fetched (Fixtures.world Fixtures.warm Fixtures.shuffled)) = [2; 1] /\
  ~ ascendingByID (fetched (Fixtures.world Fixtures.warm Fixtures.shuffled)).
Proof.
  split; [reflexivity|].
  intros H. apply StronglySorted_inv in H as [_ H].
  apply Forall_inv in H. vm_compute in H. discriminate.
Qed.

(** C2, amended.  A relay tick fetches at most 100 events, all of them
    unprocessed, in the order in which the store holds its rows: the
    query asks for no ordering.  The batch is ascending by id when the
    table is. *)
Theorem C2_fetch_is_bounded_and_in_store_order (w : World) :
  (length (fetched w) <= 100)%nat /\
  (forall ev, In ev (fetched w) -> Processed ev = false) /\
  sublist (fetched w) (database.events (db w)) /\
  (ascendingByID (database.events (db w)) -> ascendingByID (fetched w)).
Proof.
  unfold fetched.
  destruct (DatabaseFacts.Get_rows 100 (db w)) as [[e E]|E]; rewrite E; simpl.
  - repeat split; simpl; [lia | easy | apply sublist_nil_l | constructor].
  - assert (Hs : sublist (database.Limit_ 100 (filter (fun ev => negb (Processed ev))
                                                 (database.events (db w))))
                         (database.events (db w))).
    { etransitivity; [apply DatabaseFacts.Limit_sublist | apply sublist_filter]. }
    split; [|split; [|split]].
    + apply (DatabaseFacts.Limit_length 100). lia.
    + intros ev Hin. apply list_elem_of_In in Hin.
      apply (fun H => elem_of_sublist _ _ _ H (DatabaseFacts.Limit_sublist 100 _)) in Hin.
      apply list_elem_of_filter in Hin as [Hp _].
      now destruct (Processed ev).
    + exact Hs.
    + now apply DatabaseFacts.sorted_sublist.
Qed.

(** ** The invalidation commands on a healthy connection *)

Module CacheFacts.
Import Redis.

Lemma quiet_ret {A} (a : A) : quiet (ret a).
Proof. intros r. split; auto. Qed.

Lemma quiet_bind {A B} (m : ST t A) (k : A -> ST t B) :
  quiet m -> (forall a, quiet (k a)) -> quiet (bind m k).
Proof.
  intros Hm Hk r. unfold bind. destruct (Hm r) as [H1 H2].
  destruct (m r) as [a r1]. simpl in *. destruct (Hk a r1) as [H3 H4]. split; auto.
Qed.

Lemma quiet_Scan (p : string) : quiet (Scan p).
Proof.
  intros r. pose proof (RedisFacts.Scan_keys p r) as [Hk Hc]. split.
  - intros k. now rewrite (RedisFacts.live_ext _ _ k Hk Hc).
  - intros H. unfold Scan, bind. destruct (RedisFacts.attempt_healthy r H) as [E H'].
    now destruct (attempt r) as [[e|] r'].
Qed.

Lemma quiet_Del (ks : list string) : quiet (Del ks).
Proof.
  intros r. split.
  - intros k. apply RedisFacts.Del_shrinks.
  - intros H. now apply RedisFacts.Del_healthy.
Qed.

Lemma quiet_deleteByPattern (p : string) : quiet (cache.deleteByPattern p).
Proof.
  unfold cache.deleteByPattern. apply quiet_bind; [apply quiet_Scan|].
  intros [ks [e|]]; [apply quiet_ret|].
  destruct (0 <? length ks)%nat; [apply quiet_Del | apply quiet_ret].
Qed.

Lemma quiet_forEachErr {A} (f : A -> ST t (option error)) (l : list A) :
  (forall x, quiet (f x)) -> quiet (forEachErr f l).
Proof.
  intros Hf. induction l as [|x l IH]; simpl; [apply quiet_ret|].
  apply quiet_bind; [apply Hf|]. intros [e|]; [apply quiet_ret | exact IH].
Qed.

(** On a healthy connection [deleteByPattern] succeeds and leaves no
    readable key that matches the pattern. *)
Lemma deleteByPattern_healthy (p : string) (r : t) :
  healthy r ->
  fst (cache.deleteByPattern p r) = None /\
  forall k, glob p k = true -> live (snd (cache.deleteByPattern p r)) k = None.
Proof.
  intros H. unfold cache.deleteByPattern, bind.
  destruct (RedisFacts.attempt_healthy r H) as [E H'].
  pose proof (RedisFacts.attempt_data r) as [Hk Hc].
  unfold Scan, bind. destruct (attempt r) as [f r1]. simpl in *. subst f.
  set (ks := filter _ _).
  assert (Hin : forall k, glob p k = true -> live r1 k <> None -> k ∈ ks).
  { intros k Hg Hl. unfold ks. apply list_elem_of_filter. split.
    - apply andb_prop_intro. split; [|now rewrite Hg].
      apply bool_decide_pack. destruct (live r1 k); [eauto | congruence].
    - unfold live in Hl. destruct (keys r1 !! k) as [e|] eqn:Ek; [|congruence].
      apply list_elem_of_In, in_map_iff. exists (k, e). split; [reflexivity|].
      now apply list_elem_of_In, elem_of_map_to_list. }
  destruct (0 <? length ks)%nat eqn:El.
  - destruct (RedisFacts.Del_healthy ks r1 H') as (Hf & _ & Hd). split; [exact Hf|].
    intros k Hg. destruct (live r1 k) eqn:Elive.
    + apply RedisFacts.dead_not_live, Hd, Hin; [exact Hg | congruence].
    + now apply RedisFacts.Del_shrinks.
  - simpl. split; [reflexivity|]. intros k Hg.
    destruct (live r1 k) eqn:Elive; [|reflexivity]. exfalso.
    assert (Hk' : k ∈ ks) by (apply Hin; [exact Hg | congruence]).
    apply Nat.ltb_ge in El. destruct ks; [inversion Hk' | simpl in El; lia].
Qed.

Lemma forEachErr_healthy (ps : list string) (r : t) :
  healthy r ->
  fst (forEachErr cache.deleteByPattern ps r) = None /\
  forall p k, In p ps -> glob p k = true ->
    live (snd (forEachErr cache.deleteByPattern ps r)) k = None.
Proof.
  revert r. induction ps as [|p ps IH]; intros r H; simpl; [split; [reflexivity | easy]|].
  unfold bind. destruct (deleteByPattern_healthy p r H) as [Hf Hd].
  destruct (quiet_deleteByPattern p r) as [_ Hh]. specialize (Hh H).
  destruct (cache.deleteByPattern p r) as [e r1]. simpl in *. subst e.
  destruct (IH r1 Hh) as [Hf' Hd']. split; [exact Hf'|].
  intros q k [<-|Hq] Hg.
  - now apply (quiet_forEachErr cache.deleteByPattern ps quiet_deleteByPattern r1), Hd.
  - now apply (Hd' q).
Qed.

(** The star at the end of a pattern takes any rest. *)
Lemma glob_star (s : string) : glob "*" s = true.
Proof. induction s as [|c s IH]; [reflexivity|]. simpl in *. exact IH. Qed.

Lemma glob_prefix (lit p s : string) :
  literals lit = true -> glob p s = true -> glob (lit +:+ p) (lit +:+ s) = true.
Proof.
  intros Hl Hp. induction lit as [|c lit IH]; [exact Hp|].
  simpl in Hl. apply andb_prop in Hl as [Hc Hl]. specialize (IH Hl).
  unfold literal in Hc. apply andb_prop in Hc as [Hc H3]. apply andb_prop in Hc as [H1 H2].
  apply negb_true_iff in H1, H2, H3.
  change (glob (String c (lit +:+ p)) (String c (lit +:+ s)) = true).
  simpl. rewrite H1, H2, H3, Ascii.eqb_refl. exact IH.
Qed.

Lemma numeric_literals (s : string) : Text.all_numeric s = true -> literals s = true.
Proof.
  induction s as [|c s IH]; simpl; [reflexivity|].
  intros [Hc Hs]%andb_prop. rewrite (IH Hs), andb_true_r.
  destruct c as [[|] [|] [|] [|] [|] [|] [|] [|]]; try reflexivity; discriminate.
Qed.

(** Every search key, and every availability key of property [i], falls
    under the patterns the relay deletes by. *)
Lemma search_key_matches (s : string) : glob "search:*" ("search:" +:+ s) = true.
Proof. apply (glob_prefix "search:" "*" s); [reflexivity | apply glob_star]. Qed.

Lemma availability_key_matches (i : Z) (date : string) :
  glob (cache.availabilityPattern i)
       ("availability:" +:+ Text.dec i +:+ ":" +:+ date) = true.
Proof.
  unfold cache.availabilityPattern.
  apply (glob_prefix "availability:" _ _); [reflexivity|].
  apply glob_prefix; [apply numeric_literals, TextFacts.dec_numeric|].
  apply (glob_prefix ":" "*" date); [reflexivity | apply glob_star].
Qed.

End CacheFacts.

(** ** What every handler of the relay preserves *)

Module RelayFacts.

Section Preserves.
Context {jsonAvailability : JSON Availability} {jsonPricing : JSON Pricing}.

Variable P : World -> World -> Prop.
Hypothesis P_refl : forall w, P w w.
Hypothesis P_trans : forall a b c, P a b -> P b c -> P a c.
Hypothesis P_log : forall line w, P w (snd (logLine line w)).
Hypothesis P_redis : forall (m : ST Redis.t (option error)) w,
  quiet m -> P w (snd (onRedis m w)).

Local Abbreviation preserves := (preserves P).

Lemma preserves_ret {A} (a : A) : preserves (ret a).
Proof. intros w. apply P_refl. Qed.

Lemma preserves_bind {A B} (m : ST World A) (k : A -> ST World B) :
  preserves m -> (forall a, preserves (k a)) -> preserves (bind m k).
Proof.
  intros Hm Hk w. unfold bind. specialize (Hm w). destruct (m w) as [a w1].
  eapply P_trans; [exact Hm | apply Hk].
Qed.

Lemma preserves_forEach {A} (f : A -> ST World unit) (l : list A) :
  (forall x, preserves (f x)) -> preserves (forEach f l).
Proof.
  intros Hf. induction l as [|x l IH]; simpl; [apply preserves_ret|].
  apply preserves_bind; auto.
Qed.

Lemma preserves_logIfErr (prefix : string) (err : option error) :
  preserves (logIfErr prefix err).
Proof. destruct err; simpl; [intros w; apply P_log | apply preserves_ret]. Qed.

(** One invalidation call followed by its [if err != nil { log }]. *)
Lemma preserves_step (m : ST Redis.t (option error)) (prefix : string) (k : ST World unit) :
  quiet m -> preserves k ->
  preserves (do err <- onRedis m; logIfErr prefix err ;; k).
Proof.
  intros Hm Hk. apply preserves_bind; [intros w; now apply P_redis|].
  intros err. apply preserves_bind; [apply preserves_logIfErr | auto].
Qed.

Lemma quiet_property (i : Z) : quiet (cache.InvalidatePropertyCache i).
Proof. apply CacheFacts.quiet_Del. Qed.

Lemma quiet_patterns (ps : list string) :
  quiet (forEachErr cache.deleteByPattern ps).
Proof. apply CacheFacts.quiet_forEachErr, CacheFacts.quiet_deleteByPattern. Qed.

(** A handler body: invalidation calls, each followed by its log line on
    error, then one closing log line. *)
Ltac invalidations :=
  repeat (apply preserves_step;
          [first [apply quiet_property | apply quiet_patterns
                 | apply CacheFacts.quiet_deleteByPattern]|]);
  intros ?; apply P_log.

Lemma preserves_handleEvent (ev : Event) : preserves (handlers.handleEvent ev).
Proof.
  unfold handlers.handleEvent.
  apply preserves_bind; [intros w; apply P_log|]. intros _.
  repeat match goal with |- preserves (if ?b then _ else _) => destruct b end.
  - unfold handlers.handlePropertyEvent. invalidations.
  - unfold handlers.handleAvailabilityEvent.
    destruct (Unmarshal _); [invalidations | intros w; apply P_log].
  - unfold handlers.handlePricingEvent.
    destruct (Unmarshal _); [invalidations | intros w; apply P_log].
  - unfold handlers.handleAmenityEvent. invalidations.
  - unfold handlers.handleConditionEvent. invalidations.
  - unfold handlers.handlePropertyRelationEvent. invalidations.
  - intros w; apply P_log.
Qed.

Hypothesis P_mark : forall i w, P w (snd (onDB (database.MarkEventAsProcessed i) w)).

Lemma preserves_processEvent (ev : Event) : preserves (handlers.processEvent ev).
Proof.
  unfold handlers.processEvent.
  apply preserves_bind; [apply preserves_handleEvent|]. intros _.
  apply preserves_bind; [intros w; apply P_mark | apply preserves_logIfErr].
Qed.

End Preserves.

End RelayFacts.

Module RelayInstances.
Import RelayFacts.
Section Instances.
Context {jsonAvailability : JSON Availability} {jsonPricing : JSON Pricing}.

Lemma logIfErr_redis (prefix : string) (err : option error) (w : World) :
  redis (snd (logIfErr prefix err w)) = redis w /\ db (snd (logIfErr prefix err w)) = db w.
Proof. now destruct err. Qed.

(** *** The handlers never write to the event table *)

Lemma handleEvent_db (ev : Event) (w : World) :
  db (snd (handlers.handleEvent ev w)) = db w.
Proof.
  apply (preserves_handleEvent sameDB); unfold sameDB.
  - reflexivity.
  - intros a b c H1 H2. congruence.
  - reflexivity.
  - intros m w0 _. apply onRedis_db.
Qed.

(** *** The relay only ever deletes from the cache *)

Lemma cacheShrinks_redis (m : ST Redis.t (option error)) (w : World) :
  quiet m -> cacheShrinks w (snd (onRedis m w)).
Proof.
  intros Hm. unfold cacheShrinks, onRedis. destruct (Hm (redis w)) as [H1 H2].
  destruct (m (redis w)) as [a r]. simpl in *. auto.
Qed.

Lemma cacheShrinks_refl (w : World) : cacheShrinks w w.
Proof. split; auto. Qed.

Lemma cacheShrinks_trans (a b c : World) :
  cacheShrinks a b -> cacheShrinks b c -> cacheShrinks a c.
Proof. intros [H1 H2] [H3 H4]. split; auto. Qed.

Lemma cacheShrinks_log (line : string) (w : World) : cacheShrinks w (snd (logLine line w)).
Proof. split; auto. Qed.

Lemma cacheShrinks_mark (i : Z) (w : World) :
  cacheShrinks w (snd (onDB (database.MarkEventAsProcessed i) w)).
Proof. unfold cacheShrinks. rewrite onDB_redis. auto. Qed.

Lemma processEvent_cacheShrinks (ev : Event) (w : World) :
  cacheShrinks w (snd (handlers.processEvent ev w)).
Proof.
  apply (preserves_processEvent cacheShrinks);
    auto using cacheShrinks_refl, cacheShrinks_log, cacheShrinks_redis, cacheShrinks_mark.
  exact cacheShrinks_trans.
Qed.

Lemma loop_cacheShrinks (events : list Event) (w : World) :
  cacheShrinks w (snd (forEach handlers.processEvent events w)).
Proof.
  apply (preserves_forEach cacheShrinks cacheShrinks_refl cacheShrinks_trans).
  intros ev w0. apply processEvent_cacheShrinks.
Qed.

(** *** Flags only rise *)

Lemma flagsRise_refl (w : World) : flagsRise w w.
Proof. intros i b H. eauto. Qed.

Lemma flagsRise_trans (a b c : World) : flagsRise a b -> flagsRise b c -> flagsRise a c.
Proof.
  intros H1 H2 i x Hx. destruct (H1 i x Hx) as (y & Hy & Hxy).
  destruct (H2 i y Hy) as (z & Hz & Hyz). eauto.
Qed.

Lemma flagsRise_sameDB (w w' : World) : db w' = db w -> flagsRise w w'.
Proof. intros E i b H. rewrite E. eauto. Qed.

Lemma flagsRise_mark (j : Z) (w : World) :
  flagsRise w (snd (onDB (database.MarkEventAsProcessed j) w)).
Proof.
  intros i b H. unfold onDB.
  pose proof (DatabaseFacts.Mark_flag j i (db w)) as Hm.
  destruct (database.MarkEventAsProcessed j (db w)) as [e d']. simpl in *.
  rewrite Hm, H. destruct (fst (database.attempt (db w))); simpl; [eauto|].
  eexists. split; [reflexivity|]. now intros ->.
Qed.

Lemma processEvent_flagsRise (ev : Event) (w : World) :
  flagsRise w (snd (handlers.processEvent ev w)).
Proof.
  apply (preserves_processEvent flagsRise);
    auto using flagsRise_refl, flagsRise_mark.
  - exact flagsRise_trans.
  - intros line w0. now apply flagsRise_sameDB.
  - intros m w0 _. apply flagsRise_sameDB, onRedis_db.
Qed.

Lemma loop_flagsRise (events : list Event) (w : World) :
  flagsRise w (snd (forEach handlers.processEvent events w)).
Proof.
  apply (preserves_forEach flagsRise flagsRise_refl flagsRise_trans).
  intros ev w0. apply processEvent_flagsRise.
Qed.

(** What one turn of the loop does to the two stores: the cache is left
    as the handler left it, and the mark is applied to the table as it
    was before the handler ran. *)
Lemma processEvent_stores (ev : Event) (w : World) :
  redis (snd (handlers.processEvent ev w)) = redis (snd (handlers.handleEvent ev w)) /\
  db (snd (handlers.processEvent ev w)) = snd (database.MarkEventAsProcessed (ID ev) (db w)).
Proof.
  unfold handlers.processEvent, bind.
  pose proof (handleEvent_db ev w) as Hdb.
  destruct (handlers.handleEvent ev w) as [[] w1]. simpl in *.
  unfold onDB. rewrite Hdb.
  destruct (database.MarkEventAsProcessed (ID ev) (db w)) as [err d1].
  destruct err; simpl; auto.
Qed.

Lemma processEvent_db_healthy (ev : Event) (w : World) :
  database.healthy (db w) -> database.healthy (db (snd (handlers.processEvent ev w))).
Proof.
  intros H. destruct (processEvent_stores ev w) as [_ E]. rewrite E.
  now apply DatabaseFacts.Mark_healthy.
Qed.

(** On a healthy store, every event the loop goes over ends up flagged. *)
Lemma loop_marks (events : list Event) (w : World) (ev : Event) :
  database.healthy (db w) -> In ev events ->
  (exists b, processedFlag (db w) (ID ev) = Some b) ->
  processedFlag (db (snd (forEach handlers.processEvent events w))) (ID ev) = Some true.
Proof.
  revert w. induction events as [|e events IH]; intros w Hh Hin [b Hb]; [easy|].
  simpl. unfold bind.
  pose proof (processEvent_db_healthy e w Hh) as Hh1.
  pose proof (processEvent_flagsRise e w (ID ev) b Hb) as (b1 & Hb1 & _).
  pose proof (processEvent_stores e w) as [_ Hdb].
  destruct (handlers.processEvent e w) as [[] w1]. simpl in *.
  destruct Hin as [->|Hin]; [|now apply IH; eauto].
  assert (Ht : processedFlag (db w1) (ID ev) = Some true).
  { rewrite Hdb, DatabaseFacts.Mark_flag.
    destruct (DatabaseFacts.db_attempt_healthy (db w) Hh) as [E _]. rewrite E.
    rewrite Hb. simpl. now rewrite Z.eqb_refl, orb_true_r. }
  destruct (loop_flagsRise events w1 (ID ev) true Ht) as (b2 & Hb2 & Hr).
  now rewrite Hb2, Hr.
Qed.

End Instances.
End RelayInstances.

(** ** The rows of the events table after a tick *)

Module DrainFacts.

Lemma filter_cons_bool {A} (p : A -> bool) (x : A) (l : list A) :
  filter (fun y => Is_true (p y)) (x :: l)
  = if p x then x :: filter (fun y => Is_true (p y)) l else filter (fun y => Is_true (p y)) l.
Proof.
  rewrite filter_cons. destruct (p x) eqn:E; destruct (decide _) as [H|H]; try reflexivity.
  - destruct H. exact I.
  - destruct H.
Qed.

Lemma filter_all {A} (p : A -> bool) (l : list A) :
  (forall x, In x l -> p x = true) -> filter (fun y => Is_true (p y)) l = l.
Proof.
  induction l as [|x l IH]; intros H; [reflexivity|].
  rewrite filter_cons_bool, (H x) by now left. rewrite IH; [reflexivity|].
  intros y Hy. apply H. now right.
Qed.

Lemma filter_none {A} (p : A -> bool) (l : list A) :
  (forall x, In x l -> p x = false) -> filter (fun y => Is_true (p y)) l = [].
Proof.
  induction l as [|x l IH]; intros H; [reflexivity|].
  rewrite filter_cons_bool, (H x) by now left. apply IH.
  intros y Hy. apply H. now right.
Qed.

Lemma filter_app_bool {A} (p : A -> bool) (l k : list A) :
  filter (fun y => Is_true (p y)) (l ++ k)%list
  = (filter (fun y => Is_true (p y)) l ++ filter (fun y => Is_true (p y)) k)%list.
Proof.
  induction l as [|x l IH]; [reflexivity|].
  change ((x :: l) ++ k)%list with (x :: (l ++ k))%list.
  rewrite !filter_cons_bool, IH. now destruct (p x).
Qed.

(** Whether the id of [row] is the id of an event of [batch]. *)
Lemma inBatch_iff (batch : list Z) (i : Z) :
  existsb (Z.eqb i) batch = true <-> In i batch.
Proof.
  rewrite existsb_exists. split.
  - intros (j & Hj & E). apply Z.eqb_eq in E. now subst.
  - intros H. exists i. split; [exact H | apply Z.eqb_refl].
Qed.

(** What is left of a duplicate-free list once its first part is struck
    out by value. *)
Lemma strike_prefix (a b : list Z) :
  List.NoDup (a ++ b)%list ->
  filter (fun i => Is_true (negb (existsb (Z.eqb i) a))) (a ++ b)%list = b.
Proof.
  intros Hnd. rewrite filter_app_bool, filter_none, filter_all; [reflexivity| |].
  - intros x Hx. apply negb_true_iff. destruct (existsb _ _) eqn:E; [|reflexivity].
    apply inBatch_iff in E. exfalso. revert Hnd Hx E.
    induction a as [|y a IH]; intros Hnd Hx []; simpl in Hnd.
    + subst y. inversion Hnd as [|? ? Hnot _]. apply Hnot, in_or_app. now right.
    + inversion Hnd. now apply IH.
  - intros x Hx. apply negb_false_iff, inBatch_iff. exact Hx.
Qed.

Lemma strike_firstn (l : list Z) (n : nat) :
  List.NoDup l ->
  filter (fun i => Is_true (negb (existsb (Z.eqb i) (firstn n l)))) l = skipn n l.
Proof.
  intros Hnd. pose proof (strike_prefix (firstn n l) (skipn n l)) as H.
  rewrite firstn_skipn in H. now apply H.
Qed.

Section Facts.
Context {jsonAvailability : JSON Availability} {jsonPricing : JSON Pricing}.

(** The rows after a batch has been worked through on a healthy store:
    each row whose id is in the batch is flagged, no other row changes. *)
Lemma loop_rows (batch : list Event) (w : World) :
  database.healthy (db w) ->
  database.events (db (snd (forEach handlers.processEvent batch w)))
  = map (fun row => if existsb (Z.eqb (ID row)) (map ID batch)
                    then database.setProcessed row else row)
        (database.events (db w)).
Proof.
  revert w. induction batch as [|e batch IH]; intros w H.
  - simpl. now rewrite map_id.
  - simpl. unfold bind.
    pose proof (RelayInstances.processEvent_db_healthy e w H) as H1.
    destruct (RelayInstances.processEvent_stores e w) as [_ Ed].
    destruct (handlers.processEvent e w) as [[] w1]. simpl in *.
    rewrite (IH w1 H1), Ed.
    unfold database.MarkEventAsProcessed, bind.
    destruct (DatabaseFacts.db_attempt_healthy (db w) H) as [Ea _].
    pose proof (DatabaseFacts.attempt_events (db w)) as Ee.
    destruct (database.attempt (db w)) as [f d1]. simpl in *. subst f. simpl.
    rewrite Ee, map_map. apply map_ext. intros row.
    destruct (ID row =? ID e) eqn:E; simpl; [|reflexivity].
    now destruct (existsb _ _).
Qed.

Lemma fetch_healthy_rows (d : database.t) :
  database.healthy d ->
  fst (database.GetUnprocessedEvents 100 d)
  = (firstn 100 (filter (fun ev => Is_true (negb (Processed ev))) (database.events d)), None).
Proof.
  intros H. unfold database.GetUnprocessedEvents, bind.
  destruct (DatabaseFacts.db_attempt_healthy d H) as [Ea _].
  pose proof (DatabaseFacts.attempt_events d) as Ee.
  destruct (database.attempt d) as [f d1]. simpl in *. subst f. simpl. now rewrite Ee.
Qed.

Lemma tick_rows (w : World) :
  database.healthy (db w) ->
  database.events (db (snd (handlers.processUnprocessedEvents w)))
  = map (fun row => if existsb (Z.eqb (ID row)) (map ID (fetched w))
                    then database.setProcessed row else row)
        (database.events (db w)).
Proof.
  intros H. unfold handlers.processUnprocessedEvents, bind, onDB, fetched.
  pose proof (DatabaseFacts.Get_events 100 (db w)) as He.
  pose proof (DatabaseFacts.fetch_healthy 100 (db w) H) as H1.
  pose proof (fetch_healthy_rows (db w) H) as Hf.
  destruct (database.GetUnprocessedEvents 100 (db w)) as [[events err] d1]. simpl in *.
  injection Hf as _ ->.
  destruct (length events =? 0)%nat eqn:El.
  - apply Nat.eqb_eq in El. destruct events; [|discriminate]. simpl. now rewrite map_id.
  - simpl. rewrite <- He.
    exact (loop_rows events {| redis := redis w; db := d1; logs := _ |} H1).
Qed.

(** The pending ids after some rows have been flagged by id. *)
Lemma pending_after (batch : list Z) (rows : list Event) :
  map ID (filter (fun ev => Is_true (negb (Processed ev)))
            (map (fun row => if existsb (Z.eqb (ID row)) batch
                             then database.setProcessed row else row) rows))
  = filter (fun i => Is_true (negb (existsb (Z.eqb i) batch)))
      (map ID (filter (fun ev => Is_true (negb (Processed ev))) rows)).
Proof.
  induction rows as [|row rows IH]; [reflexivity|].
  cbn [map]. rewrite !filter_cons_bool.
  destruct (existsb (Z.eqb (ID row)) batch) eqn:Eb; simpl.
  - destruct (Processed row); simpl; [exact IH|].
    rewrite filter_cons_bool, Eb. exact IH.
  - destruct (Processed row); simpl; [exact IH|].
    rewrite filter_cons_bool, Eb. simpl. now rewrite IH.
Qed.

End Facts.
End DrainFacts.

(** C1, as stated, fails: Redis refuses every command of the tick, so
    nothing is invalidated (the stale snapshot of property 42 can still be
    read), yet the event is flagged processed and the next tick has
    nothing left to retry. *)
Lemma C1_counterexample_marked_though_invalidation_failed :
  let w := Fixtures.world Fixtures.warmDown Fixtures.pending in
  let tick := @handlers.processUnprocessedEvents Fixtures.jsonAvailability Fixtures.jsonPricing in
  let w' := snd (tick w) in
  map ID (fetched w) = [1] /\
  In "Failed to invalidate property cache: dial tcp 127.0.0.1:6379: connect: connection refused"
     (logs w') /\
  Redis.live (redis w') "property:42" = Some (Fixtures.plain "property-42.json") /\
  processedFlag (db w') 1 = Some true /\
  fetched w' = [].
Proof. vm_compute. repeat split; try reflexivity. right. right. left. reflexivity. Qed.

(** C1, amended.  The relay tries to flag each fetched event after its
    invalidation has been attempted, whatever the attempt's outcome:
    invalidation errors are logged and never hold back the mark.  One
    turn of the loop leaves the cache as the handler left it and applies
    the mark regardless; so, when the store refuses no statement, every
    fetched event is flagged at the end of the tick, for every state of
    Redis, and no event with its id is fetched by the next tick.
    When the statement that marks an event fails, the table is left as it
    was, so the event stays open.  A raised flag is never lowered. *)
Theorem C1_flagged_after_the_attempt_whatever_its_outcome
    {jsonAvailability : JSON Availability} {jsonPricing : JSON Pricing} (w : World) :
  let w' := snd (handlers.processUnprocessedEvents w) in
  (forall ev w0,
      redis (snd (handlers.processEvent ev w0)) = redis (snd (handlers.handleEvent ev w0)) /\
      db (snd (handlers.processEvent ev w0))
        = snd (database.MarkEventAsProcessed (ID ev) (db w0))) /\
  (database.healthy (db w) ->
   forall ev, In ev (fetched w) ->
     processedFlag (db w') (ID ev) = Some true /\
     forall ev', In ev' (fetched w') -> ID ev' <> ID ev) /\
  (forall ev w0 e rest,
      database.dbfaults (db w0) = Some e :: rest ->
      database.events (db (snd (handlers.processEvent ev w0))) = database.events (db w0)) /\
  (forall i, processedFlag (db w) i = Some true -> processedFlag (db w') i = Some true).
Proof.
  cbv zeta. split; [intros ev w0; apply RelayInstances.processEvent_stores|].
  assert (Hnext : database.healthy (db w) ->
            forall ev ev', In ev (fetched w) ->
              In ev' (fetched (snd (handlers.processUnprocessedEvents w))) ->
              ID ev' <> ID ev).
  { intros Hh ev ev' Hin Hin' E.
    assert (Hbatch : existsb (Z.eqb (ID ev')) (map ID (fetched w)) = true).
    { apply DrainFacts.inBatch_iff. rewrite E. now apply in_map. }
    unfold fetched in Hin'.
    destruct (DatabaseFacts.Get_rows 100 (db (snd (handlers.processUnprocessedEvents w))))
      as [[e Hr]|Hr]; rewrite Hr in Hin'; [easy|]. simpl in Hin'.
    apply list_elem_of_In in Hin'.
    apply (fun H => elem_of_sublist _ _ _ H (DatabaseFacts.Limit_sublist 100 _)) in Hin'.
    apply list_elem_of_filter in Hin' as [Hopen Hrow].
    rewrite (DrainFacts.tick_rows w Hh) in Hrow.
    apply list_elem_of_In, in_map_iff in Hrow as (row & Hrow & _).
    destruct (existsb (Z.eqb (ID row)) (map ID (fetched w))) eqn:Eb.
    - subst ev'. simpl in Hopen. exact Hopen.
    - subst ev'. congruence. }
  unfold handlers.processUnprocessedEvents, bind, fetched, onDB in *.
  pose proof (DatabaseFacts.Get_events 100 (db w)) as Hev.
  pose proof (DatabaseFacts.fetch_healthy 100 (db w)) as Hhe.
  pose proof (DatabaseFacts.Get_rows 100 (db w)) as Hrows.
  destruct (database.GetUnprocessedEvents 100 (db w)) as [[events err] d1]. simpl in *.
  assert (Hflag : forall i, processedFlag d1 i = processedFlag (db w) i).
  { intros i. unfold processedFlag. now rewrite Hev. }
  split; [|split].
  - intros Hh ev Hin. split; [|intros ev' Hin'; now apply (Hnext Hh ev ev')].
    assert (Hrow : exists b, processedFlag d1 (ID ev) = Some b).
    { rewrite Hflag. apply DatabaseFacts.flag_of_row.
      destruct Hrows as [[e [= -> _]]|[= -> _]]; [easy|].
      apply list_elem_of_In in Hin. apply list_elem_of_In.
      apply (fun H => elem_of_sublist _ _ _ H (DatabaseFacts.Limit_sublist 100 _)) in Hin.
      now apply list_elem_of_filter in Hin as [_ Hin]. }
    destruct Hrows as [[e [= -> _]]|[= _ ->]]; [easy|].
    destruct (length events =? 0)%nat eqn:El.
    + apply Nat.eqb_eq in El. destruct events; [easy | discriminate].
    + simpl. apply RelayInstances.loop_marks; auto.
  - intros ev w0 e rest Hfault.
    destruct (RelayInstances.processEvent_stores ev w0) as [_ ->].
    unfold database.MarkEventAsProcessed, bind, database.attempt. now rewrite Hfault.
  - intros i Hi. rewrite <- Hflag in Hi.
    destruct err as [e|]; [simpl; exact Hi|].
    destruct (length events =? 0)%nat; [simpl; exact Hi|].
    simpl.
    destruct (RelayInstances.loop_flagsRise events
                {| redis := redis w; db := d1;
                   logs := logs w ++ ["Processing " +:+ Text.dec (Z.of_nat (length events))
                                        +:+ " unprocessed events"] |} i true Hi)
      as (b & Hb & Hr).
    now rewrite Hb, Hr.
Qed.

(** ** A property event on a healthy connection *)

Module PropertyEventFacts.
Section Facts.
Context {jsonAvailability : JSON Availability} {jsonPricing : JSON Pricing}.

(** The cache after [handlePropertyEvent]: the three invalidations run
    one after the other, whatever they return. *)
Lemma handlePropertyEvent_redis (ev : Event) (w : World) :
  redis (snd (handlers.handlePropertyEvent ev w)) =
  snd (cache.InvalidateAvailabilityCache (RecordID ev)
        (snd (cache.InvalidateSearchCache "" ""
               (snd (cache.InvalidatePropertyCache (RecordID ev) (redis w)))))).
Proof.
  unfold handlers.handlePropertyEvent, bind, onRedis. simpl.
  destruct (cache.InvalidatePropertyCache _ _) as [e1 r1].
  destruct e1; simpl;
    (destruct (cache.InvalidateSearchCache _ _ _) as [e2 r2];
     destruct e2; simpl;
       (destruct (cache.InvalidateAvailabilityCache _ _) as [e3 r3];
        now destruct e3)).
Qed.

Lemma handlePropertyEvent_clears (ev : Event) (w : World) (k : string) :
  Redis.healthy (redis w) ->
  k = cache.propertyKey (RecordID ev) \/
  Redis.glob (cache.availabilityPattern (RecordID ev)) k = true \/
  Redis.glob "search:*" k = true ->
  Redis.live (redis (snd (handlers.handlePropertyEvent ev w))) k = None.
Proof.
  intros H Hk. rewrite handlePropertyEvent_redis.
  set (i := RecordID ev) in *.
  (* DEL property:i *)
  destruct (RedisFacts.Del_healthy [cache.propertyKey i] (redis w) H) as (_ & H1 & D1).
  fold (cache.InvalidatePropertyCache i) in H1, D1.
  set (r1 := snd (cache.InvalidatePropertyCache i (redis w))) in *.
  (* the three search patterns *)
  destruct (CacheFacts.forEachErr_healthy (cache.searchPatterns "" "") r1 H1) as [_ D2].
  pose proof (RelayFacts.quiet_patterns (cache.searchPatterns "" "") r1) as [S2 H2].
  fold (cache.InvalidateSearchCache "" "") in D2, S2, H2.
  set (r2 := snd (cache.InvalidateSearchCache "" "" r1)) in *.
  specialize (H2 H1).
  (* availability:i:* *)
  destruct (CacheFacts.deleteByPattern_healthy (cache.availabilityPattern i) r2 H2) as [_ D3].
  pose proof (CacheFacts.quiet_deleteByPattern (cache.availabilityPattern i) r2) as [S3 _].
  fold (cache.InvalidateAvailabilityCache i) in D3, S3.
  destruct Hk as [->|[Hk|Hk]].
  - apply S3, S2, RedisFacts.dead_not_live, D1. left.
  - now apply D3.
  - apply S3, (D2 "search:*"); [|exact Hk]. right. right. now left.
Qed.

Lemma handleEvent_properties (ev : Event) (w : World) :
  TableName ev = "properties" ->
  redis (snd (handlers.handleEvent ev w)) =
  redis (snd (handlers.handlePropertyEvent ev
           (snd (logLine ("Processing event: Type=" +:+ EventType ev +:+ ", Table="
                          +:+ TableName ev +:+ ", RecordID=" +:+ Text.dec (RecordID ev)) w)))).
Proof. intros E. unfold handlers.handleEvent, bind. simpl. now rewrite E. Qed.

Lemma processEvent_clears (ev : Event) (w : World) (k : string) :
  Redis.healthy (redis w) -> TableName ev = "properties" ->
  k = cache.propertyKey (RecordID ev) \/
  Redis.glob (cache.availabilityPattern (RecordID ev)) k = true \/
  Redis.glob "search:*" k = true ->
  Redis.live (redis (snd (handlers.processEvent ev w))) k = None.
Proof.
  intros H E Hk.
  destruct (RelayInstances.processEvent_stores ev w) as [Hr _]. rewrite Hr.
  rewrite (handleEvent_properties ev w E). now apply handlePropertyEvent_clears.
Qed.

Lemma loop_clears (events : list Event) (w : World) (ev : Event) (k : string) :
  Redis.healthy (redis w) -> In ev events -> TableName ev = "properties" ->
  k = cache.propertyKey (RecordID ev) \/
  Redis.glob (cache.availabilityPattern (RecordID ev)) k = true \/
  Redis.glob "search:*" k = true ->
  Redis.live (redis (snd (forEach handlers.processEvent events w))) k = None.
Proof.
  revert w. induction events as [|e events IH]; intros w H Hin E Hk; [easy|].
  simpl. unfold bind.
  pose proof (RelayInstances.processEvent_cacheShrinks e w) as [_ H1]. specialize (H1 H).
  pose proof (processEvent_clears e w k H) as Hc.
  destruct (handlers.processEvent e w) as [[] w1]. simpl in *.
  destruct Hin as [->|Hin]; [|now apply IH].
  now apply (RelayInstances.loop_cacheShrinks events w1), Hc.
Qed.

Lemma tick_cacheShrinks (w : World) :
  cacheShrinks w (snd (handlers.processUnprocessedEvents w)).
Proof.
  unfold handlers.processUnprocessedEvents, bind.
  pose proof (onDB_redis (database.GetUnprocessedEvents 100) w) as Hr.
  destruct (onDB _ w) as [[events err] w1]. simpl in Hr.
  assert (H1 : cacheShrinks w w1).
  { unfold cacheShrinks. rewrite Hr. auto. }
  destruct err as [e|]; simpl.
  - eapply RelayInstances.cacheShrinks_trans; [exact H1 | apply RelayInstances.cacheShrinks_log].
  - destruct (length events =? 0)%nat; simpl; [exact H1|].
    eapply RelayInstances.cacheShrinks_trans; [exact H1|].
    eapply RelayInstances.cacheShrinks_trans; [|apply RelayInstances.loop_cacheShrinks].
    apply RelayInstances.cacheShrinks_log.
Qed.

End Facts.
End PropertyEventFacts.

(** C9, as stated, fails: Redis takes the [DEL] of [property:42] and
    refuses the scan that follows it.  The snapshot is gone, but
    [InvalidateSearchCache] has returned at its first pattern, so the
    search result cached before the event is still there and the same
    search is answered from it after the cycle; the event is flagged and
    the next cycle has nothing to fetch. *)
Lemma C9_counterexample_refused_scan_keeps_search_results :
  let w := Fixtures.world Samples.flaky Fixtures.pending in
  let w' := snd (@handlers.processUnprocessedEvents
                   Fixtures.jsonAvailability Fixtures.jsonPricing w) in
  let search := @handlers.SearchProperties Fixtures.jsonResults Fixtures.noSearch
                  Fixtures.noConvert Fixtures.atMorning (Ok Fixtures.goa) in
  In (Fixtures.event 1 "properties" 42) (fetched w) /\
  Redis.live (redis w) "property:42" <> None /\
  Redis.live (redis w') "property:42" = None /\
  Redis.live (redis w') (generateSearchCacheKey (validatePagination Fixtures.goa)) <> None /\
  body (fst (search w')) = SearchBody [] 0 1 20 true (Some 0) /\
  processedFlag (db w') 1 = Some true /\
  fetched w' = [].
Proof.
  cbv zeta. split; [left; reflexivity|].
  vm_compute. repeat split; try reflexivity; discriminate.
Qed.

(** C9, amended.  On a connection that refuses no command, a relay tick
    whose batch contains an
    event on table [properties] with record id [i] leaves nothing to read
    under [property:i], under any key matching [availability:i:*] or under
    any key matching [search:*], which covers every availability day of
    [i] and every key [generateSearchCacheKey] can produce; a get of the
    snapshot of [i] or of any search result is a miss afterwards. *)
Theorem C9_property_event_clears_property_availability_and_search
    {jsonAvailability : JSON Availability} {jsonPricing : JSON Pricing}
    {jsonProperty : JSON Property} {jsonResults : JSON SearchResultsCache}
    (w : World) (event : Event)
    (Hup : Redis.healthy (redis w))
    (Hin : In event (fetched w))
    (Htable : TableName event = "properties") :
  let i := RecordID event in
  let w' := snd (handlers.processUnprocessedEvents w) in
  (forall k,
      k = "property:" +:+ Text.dec i \/
      Redis.glob ("availability:" +:+ Text.dec i +:+ ":*") k = true \/
      Redis.glob "search:*" k = true ->
      Redis.live (redis w') k = None) /\
  (forall date, Redis.live (redis w') ("availability:" +:+ Text.dec i +:+ ":" +:+ date) = None) /\
  (forall filter, Redis.live (redis w') (generateSearchCacheKey filter) = None) /\
  fst (cache.GetPropertyCache i (redis w')) = (None, None) /\
  (forall now filter,
      fst (cache.GetSearchResultsCache now (generateSearchCacheKey filter) (redis w'))
      = (None, None)).
Proof.
  cbv zeta.
  set (w' := snd (handlers.processUnprocessedEvents w)).
  assert (Hclear : forall k,
             k = cache.propertyKey (RecordID event) \/
             Redis.glob (cache.availabilityPattern (RecordID event)) k = true \/
             Redis.glob "search:*" k = true ->
             Redis.live (redis w') k = None).
  { intros k Hk. unfold w', handlers.processUnprocessedEvents, bind, onDB.
    unfold fetched in Hin.
    pose proof (DatabaseFacts.Get_rows 100 (db w)) as Hrows.
    destruct (database.GetUnprocessedEvents 100 (db w)) as [[events err] d1]. simpl in *.
    destruct Hrows as [[e [= -> _]]|[= _ ->]]; [easy|].
    destruct (length events =? 0)%nat eqn:El.
    + apply Nat.eqb_eq in El. destruct events; [easy | discriminate].
    + simpl. now apply (PropertyEventFacts.loop_clears events _ event). }
  assert (Hhealthy : Redis.healthy (redis w')).
  { now apply (PropertyEventFacts.tick_cacheShrinks w). }
  assert (Hmiss : forall k, Redis.live (redis w') k = None ->
                    Redis.Get k (redis w') = ("", Some RedisNil, snd (Redis.attempt (redis w')))).
  { intros k Hk. unfold Redis.Get, bind.
    destruct (RedisFacts.attempt_healthy _ Hhealthy) as [E _].
    pose proof (RedisFacts.attempt_data (redis w')) as [Hkeys Hclock].
    destruct (Redis.attempt (redis w')) as [f r1]. simpl in *. subst f.
    now rewrite (RedisFacts.live_ext _ _ k Hkeys Hclock), Hk. }
  assert (Hsearch : forall filter, Redis.live (redis w') (generateSearchCacheKey filter) = None).
  { intros filter. apply Hclear. right. right. apply CacheFacts.search_key_matches. }
  split; [exact Hclear|]. split; [|split; [exact Hsearch|split]].
  - intros date. apply Hclear. right. left. apply CacheFacts.availability_key_matches.
  - unfold cache.GetPropertyCache, bind. now rewrite Hmiss by (apply Hclear; now left).
  - intros now filter. unfold cache.GetSearchResultsCache, bind.
    now rewrite Hmiss by apply Hsearch.
Qed.

(** ** The statements above at concrete inputs *)

(** C1 at work: Redis refuses every command, the store is healthy, and
    event 1 is flagged at the end of the tick and not fetched again; in a
    second world the store refuses the update, and the row stays as it
    was. *)
Lemma C1_witness :
  let ev := Fixtures.event 1 "properties" 42 in
  let w := Fixtures.world Fixtures.warmDown Fixtures.pending in
  let w' := snd (@handlers.processUnprocessedEvents
                   Fixtures.jsonAvailability Fixtures.jsonPricing w) in
  let stuck := Fixtures.world Fixtures.warm (database.mk [ev] [Some Fixtures.refused]) in
  database.healthy (db w) /\
  In ev (fetched w) /\
  processedFlag (db w') 1 = Some true /\
  (forall ev', In ev' (fetched w') -> ID ev' <> 1) /\
  database.dbfaults (db stuck) = [Some Fixtures.refused] /\
  database.events (db (snd (@handlers.processEvent Fixtures.jsonAvailability
                              Fixtures.jsonPricing ev stuck))) = [ev].
Proof.
  cbv zeta.
  set (ev := Fixtures.event 1 "properties" 42).
  set (stuck := Fixtures.world Fixtures.warm (database.mk [ev] [Some Fixtures.refused])).
  assert (Hh : database.healthy (db (Fixtures.world Fixtures.warmDown Fixtures.pending)))
    by constructor.
  assert (Hin : In ev (fetched (Fixtures.world Fixtures.warmDown Fixtures.pending)))
    by (left; reflexivity).
  assert (Hf : database.dbfaults (db stuck) = [Some Fixtures.refused]) by reflexivity.
  destruct (@C1_flagged_after_the_attempt_whatever_its_outcome
              Fixtures.jsonAvailability Fixtures.jsonPricing
              (Fixtures.world Fixtures.warmDown Fixtures.pending)) as (_ & H2 & H3 & _).
  destruct (H2 Hh ev Hin) as [Hflag Hnext].
  split; [exact Hh|]. split; [exact Hin|]. split; [exact Hflag|]. split; [exact Hnext|].
  split; [exact Hf|]. exact (H3 ev stuck Fixtures.refused [] Hf).
Defined.

(** C2 at work: a table in ascending order gives an ascending batch. *)
Lemma C2_witness :
  let w := Fixtures.world Fixtures.warm Fixtures.pending in
  ascendingByID (database.events (db w)) /\ ascendingByID (fetched w).
Proof.
  cbv zeta.
  assert (Ha : ascendingByID
                 (database.events (db (Fixtures.world Fixtures.warm Fixtures.pending)))).
  { repeat constructor. }
  split; [exact Ha|].
  exact (proj2 (proj2 (proj2 (C2_fetch_is_bounded_and_in_store_order
                                (Fixtures.world Fixtures.warm Fixtures.pending)))) Ha).
Defined.

(** C5 at work: the stored search result carries the zero [expires_at];
    a get on the morning of 2025-11-29 misses and removes the key. *)
Lemma C5_witness :
  let key := "search:8bb3ea1e419e0c812d47c8353aac00be" in
  let out := @cache.GetSearchResultsCache Fixtures.jsonResults Fixtures.morning key
               Fixtures.warm in
  Redis.Get key Fixtures.warm = ("{}", None, Fixtures.warm) /\
  @Unmarshal _ Fixtures.jsonResults "{}" = Ok Fixtures.zeroResults /\
  Time.Before (ExpiresAt Fixtures.zeroResults) Fixtures.morning = true /\
  fst out = (None, None) /\
  Redis.live (snd out) key = None.
Proof.
  cbv zeta.
  assert (Hget : Redis.Get "search:8bb3ea1e419e0c812d47c8353aac00be" Fixtures.warm
                 = ("{}", None, Fixtures.warm)) by (vm_compute; reflexivity).
  assert (Hdec : @Unmarshal _ Fixtures.jsonResults "{}" = Ok Fixtures.zeroResults)
    by reflexivity.
  assert (Hexp : Time.Before (ExpiresAt Fixtures.zeroResults) Fixtures.morning = true)
    by reflexivity.
  split; [exact Hget|]. split; [exact Hdec|]. split; [exact Hexp|].
  destruct (@C5_expired_entry_is_a_miss_and_is_deleted Fixtures.jsonResults
              _ _ _ _ _ _ Hget Hdec Hexp) as (H1 & _ & H3).
  split; [exact H1|]. apply H3. constructor.
Defined.

(** C6 at work: a zero ttl on an empty, reachable cache, for each of the
    six set operations. *)
Lemma C6_witness :
  let empty := Redis.mk ∅ 0 [] in
  fst (Redis.attempt empty) = None /\
  @Marshal _ Fixtures.jsonProperty Fixtures.villa = Ok "property-42.json" /\
  @Marshal _ Fixtures.jsonResults
     (cache.stamp Fixtures.morning Fixtures.morning 0 Fixtures.zeroResults)
    = Ok "results-0-page-0.json" /\
  @Marshal _ Samples.jsonAvailabilityCache Samples.day = Ok "day-42.json" /\
  @Marshal _ Samples.jsonAmenities [Samples.wifi] = Ok "amenities-1.json" /\
  @Marshal _ Samples.jsonConditions [Samples.pets] = Ok "conditions-1.json" /\
  Forall (storedBy empty 0)
    [ (@cache.SetPropertyCache Fixtures.jsonProperty 42 Fixtures.villa 0 empty,
       "property:42", "property-42.json");
      (@cache.SetSearchResultsCache Fixtures.jsonResults Fixtures.morning Fixtures.morning
         "search:x" Fixtures.zeroResults 0 empty, "search:x", "results-0-page-0.json");
      (@cache_ext.SetAvailabilityCache Samples.jsonAvailabilityCache 42 "2025-12-01"
         Samples.day 0 empty, "availability:42:2025-12-01", "day-42.json");
      (@cache_ext.SetAmenitiesCache Samples.jsonAmenities [Samples.wifi] 0 empty,
       "amenities:all", "amenities-1.json");
      (@cache_ext.SetConditionsCache Samples.jsonConditions [Samples.pets] 0 empty,
       "conditions:all", "conditions-1.json");
      (@cache_ext.SetWithExpiry _ Fixtures.jsonProperty "draft:42" Fixtures.villa 0 empty,
       "draft:42", "property-42.json") ] /\
  Redis.live (snd (@cache.SetPropertyCache Fixtures.jsonProperty 42 Fixtures.villa 0 empty))
             "property:42"
    = Some {| Redis.value := "property-42.json"; Redis.deadline := None |}.
Proof.
  cbv zeta.
  assert (Hup : fst (Redis.attempt (Redis.mk ∅ 0 [])) = None) by reflexivity.
  assert (HmP : @Marshal _ Fixtures.jsonProperty Fixtures.villa = Ok "property-42.json")
    by reflexivity.
  assert (HmR : @Marshal _ Fixtures.jsonResults
                  (cache.stamp Fixtures.morning Fixtures.morning 0 Fixtures.zeroResults)
                = Ok "results-0-page-0.json") by reflexivity.
  assert (HmD : @Marshal _ Samples.jsonAvailabilityCache Samples.day = Ok "day-42.json")
    by reflexivity.
  assert (HmA : @Marshal _ Samples.jsonAmenities [Samples.wifi] = Ok "amenities-1.json")
    by reflexivity.
  assert (HmC : @Marshal _ Samples.jsonConditions [Samples.pets] = Ok "conditions-1.json")
    by reflexivity.
  pose proof (@C6_set_stores_for_every_ttl Fixtures.jsonProperty Fixtures.jsonResults
                Samples.jsonAvailabilityCache Samples.jsonAmenities Samples.jsonConditions
                Property Fixtures.jsonProperty
                (Redis.mk ∅ 0 []) 0 42 Fixtures.villa "property-42.json"
                Fixtures.morning Fixtures.morning "search:x" Fixtures.zeroResults
                "results-0-page-0.json"
                "2025-12-01" Samples.day "day-42.json"
                [Samples.wifi] "amenities-1.json" [Samples.pets] "conditions-1.json"
                "draft:42" Fixtures.villa "property-42.json"
                Hup HmP HmR HmD HmA HmC HmP) as Hall.
  split; [exact Hup|]. split; [exact HmP|]. split; [exact HmR|]. split; [exact HmD|].
  split; [exact HmA|]. split; [exact HmC|]. split; [exact Hall|].
  apply Forall_inv in Hall. destruct Hall as (_ & _ & H3).
  apply H3; [lia | discriminate].
Defined.

(** C7 at work: the truncated document under [property:7], read as a
    property and as a search result, and a request for property 7 with a
    store that answers and with a store that is down. *)
Lemma C7_witness :
  let e := Error "unexpected end of JSON input" in
  let w := Fixtures.world Fixtures.corrupt Fixtures.pending in
  let found := fun _ : Z => Ok Fixtures.villa in
  @corruptAt Property Fixtures.jsonProperty (cache.propertyKey 7)
     Fixtures.corrupt Fixtures.corrupt e /\
  @corruptAt SearchResultsCache Fixtures.jsonResults "property:7"
     Fixtures.corrupt Fixtures.corrupt e /\
  ParseUint32 "7" = Ok 7 /\
  @cache.GetPropertyCache Fixtures.jsonProperty 7 Fixtures.corrupt
    = (None, Some e, Fixtures.corrupt) /\
  @cache.GetSearchResultsCache Fixtures.jsonResults Fixtures.morning "property:7"
     Fixtures.corrupt = (None, Some e, Fixtures.corrupt) /\
  fst (@handlers.GetProperty Fixtures.jsonProperty found "7" w)
    = {| status := StatusOK; body := PropertyBody Fixtures.villa false |} /\
  Redis.keys (redis (snd (@handlers.GetProperty Fixtures.jsonProperty
                            Fixtures.storeDown "7" w)))
    = Redis.keys Fixtures.corrupt.
Proof.
  cbv zeta.
  assert (Hp : @corruptAt Property Fixtures.jsonProperty (cache.propertyKey 7)
                 Fixtures.corrupt Fixtures.corrupt (Error "unexpected end of JSON input")).
  { exists "{". split; [vm_compute; reflexivity | reflexivity]. }
  assert (Hs : @corruptAt SearchResultsCache Fixtures.jsonResults "property:7"
                 Fixtures.corrupt Fixtures.corrupt (Error "unexpected end of JSON input")).
  { exists "{". split; [vm_compute; reflexivity | reflexivity]. }
  assert (Hid : ParseUint32 "7" = Ok 7) by reflexivity.
  destruct (@C7_corrupt_payload_is_reported_and_kept Fixtures.jsonProperty
              Fixtures.jsonResults Samples.jsonAvailabilityCache Samples.jsonAmenities
              Samples.jsonConditions Property Fixtures.jsonProperty
              Fixtures.corrupt Fixtures.corrupt (Error "unexpected end of JSON input"))
    as (_ & H2 & H3 & _ & _ & _ & _ & H8).
  split; [exact Hp|]. split; [exact Hs|]. split; [exact Hid|].
  split; [exact (H2 7 Hp)|]. split; [exact (H3 Fixtures.morning "property:7" Hs)|].
  split.
  - destruct (H8 7 (fun _ : Z => Ok Fixtures.villa) "7"
                (Fixtures.world Fixtures.corrupt Fixtures.pending) Hp Hid eq_refl)
      as (_ & Hserved & _).
    exact Hserved.
  - destruct (H8 7 Fixtures.storeDown "7"
                (Fixtures.world Fixtures.corrupt Fixtures.pending) Hp Hid eq_refl)
      as (_ & _ & Hkept).
    exact Hkept.
Defined.

(** C8 at work: Redis refuses every command; both reads are served. *)
Lemma C8_witness :
  let w := Fixtures.world Fixtures.warmDown Fixtures.pending in
  Fixtures.noSearch (validatePagination Fixtures.goa) = Ok ([], 0) /\
  ParseUint32 "42" = Ok 42 /\
  Fixtures.findVilla 42 = Ok Fixtures.villa /\
  status (fst (@handlers.SearchProperties Fixtures.jsonResults Fixtures.noSearch
                 Fixtures.noConvert Fixtures.atMorning (Ok Fixtures.goa) w)) = StatusOK /\
  fst (@handlers.GetProperty Fixtures.jsonProperty Fixtures.findVilla "42" w)
    = {| status := StatusOK; body := PropertyBody Fixtures.villa false |}.
Proof.
  cbv zeta.
  assert (Hs : Fixtures.noSearch (validatePagination Fixtures.goa) = Ok ([], 0))
    by reflexivity.
  assert (Hid : ParseUint32 "42" = Ok 42) by reflexivity.
  assert (Hg : Fixtures.findVilla 42 = Ok Fixtures.villa) by reflexivity.
  split; [exact Hs|]. split; [exact Hid|]. split; [exact Hg|].
  destruct (@C8_cache_faults_never_fail_a_read Fixtures.jsonProperty Fixtures.jsonResults
              Fixtures.noSearch Fixtures.noConvert Fixtures.findVilla Fixtures.atMorning
              (Fixtures.world Fixtures.warmDown Fixtures.pending)
              Fixtures.goa [] 0 "42" 42 Fixtures.villa Hs Hid Hg) as (H1 & _ & _ & _ & _ & H6).
  split; [exact H1|]. apply H6. vm_compute. reflexivity.
Defined.

(** C9 at work: the warm cache, one pending update of property 42. *)
Lemma C9_witness :
  let w := Fixtures.world Fixtures.warm Fixtures.pending in
  let w' := snd (@handlers.processUnprocessedEvents
                   Fixtures.jsonAvailability Fixtures.jsonPricing w) in
  Redis.healthy (redis w) /\
  In (Fixtures.event 1 "properties" 42) (fetched w) /\
  Redis.live (redis w) "property:42" <> None /\
  Redis.live (redis w') "property:42" = None /\
  Redis.live (redis w') "availability:42:2025-12-01" = None /\
  Redis.live (redis w') "search:8bb3ea1e419e0c812d47c8353aac00be" = None.
Proof.
  cbv zeta.
  assert (Hup : Redis.healthy (redis (Fixtures.world Fixtures.warm Fixtures.pending)))
    by constructor.
  assert (Hin : In (Fixtures.event 1 "properties" 42)
                   (fetched (Fixtures.world Fixtures.warm Fixtures.pending)))
    by (left; reflexivity).
  split; [exact Hup|]. split; [exact Hin|]. split; [vm_compute; discriminate|].
  destruct (@C9_property_event_clears_property_availability_and_search
              Fixtures.jsonAvailability Fixtures.jsonPricing
              Fixtures.jsonProperty Fixtures.jsonResults
              _ _ Hup Hin eq_refl) as (H1 & _).
  split; [|split]; apply H1.
  - left. reflexivity.
  - right. left. reflexivity.
  - right. right. reflexivity.
Defined.


(** * Further properties: the adapter *)

Module AdapterFacts.
Import Redis.

Lemma Scan_healthy (p : string) (r : t) :
  healthy r ->
  exists r1, Scan p r =
    (filter (fun k => bool_decide (is_Some (live r1 k)) && glob p k)
            (map fst (map_to_list (keys r1))), None, r1) /\
    keys r1 = keys r /\ clock r1 = clock r /\ healthy r1.
Proof.
  intros H. unfold Scan, bind. destruct (RedisFacts.attempt_healthy r H) as [E H'].
  pose proof (RedisFacts.attempt_data r) as [Hk Hc].
  destruct (attempt r) as [f r1]. simpl in *. subst f. eauto.
Qed.

(** Which keys a scan collects. *)
Lemma scanned (p : string) (r : t) (k : string) :
  k ∈ filter (fun k => bool_decide (is_Some (live r k)) && glob p k)
             (map fst (map_to_list (keys r)))
  <-> live r k <> None /\ glob p k = true.
Proof.
  rewrite list_elem_of_filter. split.
  - intros [Hp _]. apply andb_prop_elim in Hp as [H1 H2].
    apply bool_decide_unpack in H1 as [e He]. split; [congruence|].
    now destruct (glob p k).
  - intros [Hl Hg]. split.
    + apply andb_prop_intro. split; [|now rewrite Hg].
      apply bool_decide_pack. destruct (live r k); [eauto | congruence].
    + unfold live in Hl. destruct (keys r !! k) as [e|] eqn:Ek; [|congruence].
      apply list_elem_of_In, in_map_iff. exists (k, e). split; [reflexivity|].
      now apply list_elem_of_In, elem_of_map_to_list.
Qed.

Lemma Del_exact (ks : list string) (r : t) (k : string) :
  healthy r ->
  live (snd (Del ks r)) k = if bool_decide (k ∈ ks) then None else live r k.
Proof.
  intros H. unfold Del, bind, live. destruct (RedisFacts.attempt_healthy r H) as [E _].
  pose proof (RedisFacts.attempt_data r) as [Hk Hc].
  destruct (attempt r) as [f r1]. simpl in *. subst f. simpl.
  rewrite RedisFacts.lookup_remove, Hk, Hc. now destruct (bool_decide _).
Qed.

Lemma deleteByPattern_exact (p : string) (r : t) (k : string) :
  healthy r ->
  live (snd (cache.deleteByPattern p r)) k = if glob p k then None else live r k.
Proof.
  intros H. unfold cache.deleteByPattern, bind.
  destruct (Scan_healthy p r H) as (r1 & E & Hk & Hc & H1). rewrite E.
  set (ks := filter _ _).
  pose proof (scanned p r1 k) as Hs. fold ks in Hs.
  rewrite <- (RedisFacts.live_ext r r1 k Hk Hc).
  destruct (0 <? length ks)%nat eqn:El.
  - rewrite (Del_exact ks r1 k H1).
    destruct (glob p k) eqn:Eg.
    + destruct (bool_decide (k ∈ ks)) eqn:Eb; [reflexivity|].
      apply bool_decide_eq_false_1 in Eb.
      destruct (live r1 k) eqn:El1; [|reflexivity].
      exfalso. apply Eb, Hs. split; [congruence | reflexivity].
    + rewrite bool_decide_eq_false_2; [reflexivity|].
      intros Hin. apply Hs in Hin as [_ Hin]. discriminate.
  - simpl. destruct (glob p k) eqn:Eg; [|reflexivity].
    destruct (live r1 k) eqn:El1; [|reflexivity].
    assert (Hin : k ∈ ks) by (apply Hs; split; [congruence | reflexivity]).
    apply Nat.ltb_ge in El. destruct ks; [inversion Hin | simpl in El; lia].
Qed.

(** A literal prefix of a pattern is a prefix of what it matches. *)
Lemma glob_prefix_inv (lit p s : string) :
  literals lit = true -> glob (lit +:+ p) s = true ->
  exists s', s = lit +:+ s' /\ glob p s' = true.
Proof.
  revert s. induction lit as [|c lit IH]; intros s Hl Hg; [exists s; auto|].
  simpl in Hl. apply andb_prop in Hl as [Hc Hl].
  unfold literal in Hc. apply andb_prop in Hc as [Hc H3]. apply andb_prop in Hc as [H1 H2].
  apply negb_true_iff in H1, H2, H3.
  change (glob (String c (lit +:+ p)) s = true) in Hg.
  simpl in Hg. rewrite H1, H2, H3 in Hg.
  destruct s as [|d s]; [discriminate|].
  apply andb_prop in Hg as [Hcd Hg]. apply Ascii.eqb_eq in Hcd. subst d.
  destruct (IH s Hl Hg) as (s' & -> & Hp). exists s'. auto.
Qed.

Lemma glob_prefix_iff (lit s : string) :
  literals lit = true ->
  glob (lit +:+ "*") s = true <-> exists s', s = lit +:+ s'.
Proof.
  intros Hl. split.
  - intros Hg. destruct (glob_prefix_inv lit "*" s Hl Hg) as (s' & -> & _). eauto.
  - intros [s' ->]. apply CacheFacts.glob_prefix; [exact Hl | apply CacheFacts.glob_star].
Qed.

Lemma advance_healthy (d : Z) (r : t) : healthy r -> healthy (RedisOps.advance d r).
Proof. auto. Qed.

End AdapterFacts.

(** X1.  On a healthy connection [deleteByPattern] returns no error and
    removes exactly the readable keys that match the pattern: every other
    key reads as before.  When nothing matches, the key space is left as
    it was, so a second run of the same deletion changes nothing. *)
Theorem X1_deleteByPattern_removes_exactly_the_matches
    (pattern : string) (r : Redis.t) (Hup : Redis.healthy r) :
  let r' := snd (cache.deleteByPattern pattern r) in
  fst (cache.deleteByPattern pattern r) = None /\
  (forall k, Redis.live r' k = if Redis.glob pattern k then None else Redis.live r k) /\
  ((forall k, Redis.glob pattern k = true -> Redis.live r k = None) ->
   Redis.keys r' = Redis.keys r) /\
  Redis.keys (snd (cache.deleteByPattern pattern r')) = Redis.keys r'.
Proof.
  cbv zeta.
  assert (Hnone : forall r0, Redis.healthy r0 ->
            (forall k, Redis.glob pattern k = true -> Redis.live r0 k = None) ->
            Redis.keys (snd (cache.deleteByPattern pattern r0)) = Redis.keys r0).
  { intros r0 H0 Hno. unfold cache.deleteByPattern, bind.
    destruct (AdapterFacts.Scan_healthy pattern r0 H0) as (r1 & E & Hk & Hc & H1). rewrite E.
    set (ks := filter _ _).
    assert (Hks : ks = []).
    { destruct ks as [|k ks'] eqn:Eks; [reflexivity|]. exfalso.
      assert (Hin : k ∈ ks) by (rewrite Eks; left).
      apply AdapterFacts.scanned in Hin as [Hl Hg].
      rewrite (RedisFacts.live_ext r0 r1 k Hk Hc) in Hl. now apply Hl, Hno. }
    rewrite Hks. simpl. exact Hk. }
  split; [apply (CacheFacts.deleteByPattern_healthy pattern r Hup)|].
  split; [intros k; now apply AdapterFacts.deleteByPattern_exact|].
  split; [now apply Hnone|].
  apply Hnone.
  - now apply (CacheFacts.quiet_deleteByPattern pattern r).
  - intros k Hg. rewrite AdapterFacts.deleteByPattern_exact by exact Hup. now rewrite Hg.
Qed.

(** X1 at work: the search entry of the warm cache goes, the snapshot of
    property 42 stays. *)
Lemma X1_witness :
  let r' := snd (cache.deleteByPattern "search:*" Fixtures.warm) in
  Redis.healthy Fixtures.warm /\
  Redis.live r' "search:8bb3ea1e419e0c812d47c8353aac00be" = None /\
  Redis.live r' "property:42" = Some (Fixtures.plain "property-42.json").
Proof.
  cbv zeta. assert (Hup : Redis.healthy Fixtures.warm) by constructor.
  split; [exact Hup|].
  destruct (X1_deleteByPattern_removes_exactly_the_matches "search:*" _ Hup) as (_ & H & _).
  split; rewrite H; reflexivity.
Defined.

(** X2.  When [deleteByPattern] returns an error, nothing was deleted:
    the scan failed and no [DEL] was sent, or the [DEL] itself failed. *)
Theorem X2_deleteByPattern_error_deletes_nothing
    (pattern : string) (r : Redis.t) (e : error)
    (Herr : fst (cache.deleteByPattern pattern r) = Some e) :
  Redis.keys (snd (cache.deleteByPattern pattern r)) = Redis.keys r.
Proof.
  revert Herr. unfold cache.deleteByPattern, bind.
  pose proof (RedisFacts.Scan_keys pattern r) as [Hk _].
  destruct (Redis.Scan pattern r) as [[ks [e1|]] r1]; simpl in *; [auto|].
  destruct (0 <? length ks)%nat; [|discriminate].
  unfold Redis.Del, bind. pose proof (RedisFacts.attempt_data r1) as [Hk1 _].
  destruct (Redis.attempt r1) as [[e2|] r2]; simpl in *; [congruence | discriminate].
Qed.

(** X2 at work: the connection refuses the scan. *)
Lemma X2_witness :
  fst (cache.deleteByPattern "search:*" Fixtures.warmDown) = Some Fixtures.refused /\
  Redis.keys (snd (cache.deleteByPattern "search:*" Fixtures.warmDown))
  = Redis.keys Fixtures.warmDown.
Proof.
  assert (H : fst (cache.deleteByPattern "search:*" Fixtures.warmDown) = Some Fixtures.refused)
    by reflexivity.
  split; [exact H|].
  exact (X2_deleteByPattern_error_deletes_nothing "search:*" Fixtures.warmDown _ H).
Defined.

(** X3.  [InvalidateSearchCache] gives up at the first pattern that
    fails: when Redis refuses the very next command, the call returns
    that error after the one attempt and every key, the search results
    included, is still there; the broad pattern is never tried. *)
Theorem X3_InvalidateSearchCache_stops_at_the_first_failure
    (location city : string) (r : Redis.t) (e : error) (rest : list (option error))
    (Hfail : Redis.faults r = Some e :: rest) :
  cache.InvalidateSearchCache location city r
  = (Some e, Redis.mk (Redis.keys r) (Redis.clock r) rest).
Proof.
  unfold cache.InvalidateSearchCache, cache.searchPatterns. simpl.
  unfold bind, cache.deleteByPattern, bind, Redis.Scan, bind, Redis.attempt.
  now rewrite Hfail.
Qed.

(** X3 at work: one refused command in front of the warm cache. *)
Lemma X3_witness :
  let r := Redis.mk Fixtures.warmKeys 0 [Some Fixtures.refused] in
  Redis.faults r = [Some Fixtures.refused] /\
  fst (cache.InvalidateSearchCache "" "" r) = Some Fixtures.refused /\
  Redis.live (snd (cache.InvalidateSearchCache "" "" r))
             "search:8bb3ea1e419e0c812d47c8353aac00be" = Some (Fixtures.plain "{}").
Proof.
  cbv zeta. split; [reflexivity|].
  rewrite (X3_InvalidateSearchCache_stops_at_the_first_failure "" ""
             (Redis.mk Fixtures.warmKeys 0 [Some Fixtures.refused])
             Fixtures.refused [] eq_refl).
  split; reflexivity.
Defined.

(** X4.  On a healthy connection [InvalidateSearchCache], whatever
    location and city it is given, returns no error and removes exactly
    the readable keys that begin with [search:]; the two narrower patterns
    add nothing to the third, and no key of another namespace is
    touched. *)
Theorem X4_InvalidateSearchCache_removes_exactly_the_search_namespace
    (location city : string) (r : Redis.t) (Hup : Redis.healthy r) :
  let r' := snd (cache.InvalidateSearchCache location city r) in
  fst (cache.InvalidateSearchCache location city r) = None /\
  (forall k, Redis.glob "search:*" k = true <-> exists rest, k = "search:" +:+ rest) /\
  (forall k, Redis.live r' k = if Redis.glob "search:*" k then None else Redis.live r k).
Proof.
  cbv zeta.
  split; [apply (CacheFacts.forEachErr_healthy _ r Hup)|].
  split; [intros k; now apply (AdapterFacts.glob_prefix_iff "search:" k)|].
  intros k. unfold cache.InvalidateSearchCache, cache.searchPatterns.
  cbn [forEachErr]. unfold bind.
  set (p1 := "search:location:" +:+ location +:+ ":*").
  set (p2 := "search:city:" +:+ city +:+ ":*").
  assert (Hsub : forall q, Redis.glob ("search:" +:+ q) k = true ->
                           Redis.glob "search:*" k = true).
  { intros q Hq. destruct (AdapterFacts.glob_prefix_inv "search:" q k eq_refl Hq)
      as (s' & -> & _). apply CacheFacts.search_key_matches. }
  pose proof (CacheFacts.deleteByPattern_healthy p1 r Hup) as [E1 _].
  pose proof (AdapterFacts.deleteByPattern_exact p1 r k Hup) as X1.
  pose proof (CacheFacts.quiet_deleteByPattern p1 r) as [_ H1]. specialize (H1 Hup).
  destruct (cache.deleteByPattern p1 r) as [e1 r1]. cbn [fst snd] in E1, X1, H1. subst e1.
  pose proof (CacheFacts.deleteByPattern_healthy p2 r1 H1) as [E2 _].
  pose proof (AdapterFacts.deleteByPattern_exact p2 r1 k H1) as X2.
  pose proof (CacheFacts.quiet_deleteByPattern p2 r1) as [_ H2]. specialize (H2 H1).
  destruct (cache.deleteByPattern p2 r1) as [e2 r2]. cbn [fst snd] in E2, X2, H2. subst e2.
  pose proof (CacheFacts.deleteByPattern_healthy "search:*" r2 H2) as [E3 _].
  pose proof (AdapterFacts.deleteByPattern_exact "search:*" r2 k H2) as X3.
  destruct (cache.deleteByPattern "search:*" r2) as [e3 r3]. cbn [fst snd] in E3, X3. subst e3.
  cbn [fst snd ret].
  destruct (Redis.glob "search:*" k) eqn:Eg; [exact X3|].
  rewrite X3, X2, X1.
  destruct (Redis.glob p2 k) eqn:E2'.
  { now apply (Hsub ("city:" +:+ city +:+ ":*")) in E2'. }
  destruct (Redis.glob p1 k) eqn:E1'.
  { now apply (Hsub ("location:" +:+ location +:+ ":*")) in E1'. }
  reflexivity.
Qed.

(** X4 at work on the warm cache. *)
Lemma X4_witness :
  let r' := snd (cache.InvalidateSearchCache "Candolim" "Goa" Fixtures.warm) in
  Redis.healthy Fixtures.warm /\
  Redis.live r' "search:8bb3ea1e419e0c812d47c8353aac00be" = None /\
  Redis.live r' "availability:42:2025-12-01" = Some (Fixtures.plain "{}").
Proof.
  cbv zeta. assert (Hup : Redis.healthy Fixtures.warm) by constructor.
  split; [exact Hup|].
  destruct (X4_InvalidateSearchCache_removes_exactly_the_search_namespace
              "Candolim" "Goa" _ Hup) as (_ & _ & H).
  split; rewrite H; reflexivity.
Defined.

(** The key of one availability day determines the property and the day. *)
Lemma availabilityKey_inj (i j : Z) (d d' : string) :
  cache_ext.availabilityKey i d = cache_ext.availabilityKey j d' -> i = j /\ d = d'.
Proof.
  unfold cache_ext.availabilityKey. intros E.
  apply (String.app_inj "availability:") in E.
  change (Text.dec i +:+ String ":" d = Text.dec j +:+ String ":" d') in E.
  apply TextFacts.token_split in E as (E & _ & ->);
    auto using TextFacts.dec_numeric.
  now apply TextFacts.dec_inj in E.
Qed.

Lemma availabilityPattern_matches (i : Z) (k : string) :
  Redis.glob (cache.availabilityPattern i) k = true
  <-> exists date, k = cache_ext.availabilityKey i date.
Proof.
  unfold cache.availabilityPattern, cache_ext.availabilityKey.
  assert (Hlit : literals ("availability:" +:+ Text.dec i +:+ ":") = true).
  { change (literals ("availability:" +:+ (Text.dec i +:+ ":")) = true).
    assert (H : forall a b, literals a = true -> literals b = true -> literals (a +:+ b) = true).
    { intros a b Ha Hb. induction a as [|c a IH]; [exact Hb|].
      simpl in Ha. apply andb_prop in Ha as [Hc Ha].
      change (literal c && literals (a +:+ b) = true). now rewrite Hc, IH. }
    apply H; [reflexivity|]. apply H; [|reflexivity].
    apply CacheFacts.numeric_literals, TextFacts.dec_numeric. }
  pose proof (AdapterFacts.glob_prefix_iff _ k Hlit) as Hiff.
  rewrite !TextFacts.append_assoc in Hiff.
  split.
  - intros Hg. apply Hiff in Hg as [date ->]. exists date.
    now rewrite !TextFacts.append_assoc.
  - intros [date ->]. apply Hiff. exists date. now rewrite !TextFacts.append_assoc.
Qed.

(** What [InvalidateAvailabilityCache] removes and what it leaves. *)
Lemma InvalidateAvailabilityCache_confined
    (i : Z) (r : Redis.t) (Hup : Redis.healthy r) :
  let r' := snd (cache.InvalidateAvailabilityCache i r) in
  fst (cache.InvalidateAvailabilityCache i r) = None /\
  (forall date, Redis.live r' (cache_ext.availabilityKey i date) = None) /\
  (forall j date, j <> i ->
     Redis.live r' (cache_ext.availabilityKey j date)
     = Redis.live r (cache_ext.availabilityKey j date)) /\
  (forall k, (forall date, k <> cache_ext.availabilityKey i date) ->
     Redis.live r' k = Redis.live r k).
Proof.
  cbv zeta. unfold cache.InvalidateAvailabilityCache.
  assert (Hother : forall k, (forall date, k <> cache_ext.availabilityKey i date) ->
             Redis.live (snd (cache.deleteByPattern (cache.availabilityPattern i) r)) k
             = Redis.live r k).
  { intros k Hk. rewrite AdapterFacts.deleteByPattern_exact by exact Hup.
    destruct (Redis.glob _ k) eqn:Eg; [|reflexivity].
    apply availabilityPattern_matches in Eg as [date ->]. now destruct (Hk date). }
  split; [apply (CacheFacts.deleteByPattern_healthy _ r Hup)|].
  split; [|split; [|exact Hother]].
  - intros date. rewrite AdapterFacts.deleteByPattern_exact by exact Hup.
    assert (E : Redis.glob (cache.availabilityPattern i) (cache_ext.availabilityKey i date) = true)
      by (apply availabilityPattern_matches; eauto).
    now rewrite E.
  - intros j date Hne. apply Hother. intros date' E.
    now apply availabilityKey_inj in E as [E _].
Qed.

(** X5.  [InvalidateAvailabilityCache] for property [i] on a healthy
    connection removes exactly the readable availability days of [i]:
    the pattern matches the keys [availability:i:<date>] and no others,
    so the days of every other property, whose id may begin with the same
    digits, and the keys of every other namespace read as before. *)
Theorem X5_InvalidateAvailabilityCache_is_confined_to_its_property
    (i : Z) (r : Redis.t) (Hup : Redis.healthy r) :
  let r' := snd (cache.InvalidateAvailabilityCache i r) in
  (forall k, Redis.glob (cache.availabilityPattern i) k = true
             <-> exists date, k = cache_ext.availabilityKey i date) /\
  fst (cache.InvalidateAvailabilityCache i r) = None /\
  (forall date, Redis.live r' (cache_ext.availabilityKey i date) = None) /\
  (forall j date, j <> i ->
     Redis.live r' (cache_ext.availabilityKey j date)
     = Redis.live r (cache_ext.availabilityKey j date)) /\
  (forall k, (forall date, k <> cache_ext.availabilityKey i date) ->
     Redis.live r' k = Redis.live r k).
Proof.
  cbv zeta. split; [intros k; apply availabilityPattern_matches|].
  destruct (InvalidateAvailabilityCache_confined i r Hup) as (Hnone & Hgone & Hother & Hrest).
  split; [exact Hnone|]. split; [exact Hgone|]. split; [exact Hother | exact Hrest].
Qed.

(** X5 at work: property 4 is invalidated, the day of property 42 stays. *)
Lemma X5_witness :
  Redis.healthy Fixtures.warm /\ 42 <> 4 /\
  Redis.live (snd (cache.InvalidateAvailabilityCache 4 Fixtures.warm))
             (cache_ext.availabilityKey 42 "2025-12-01")
  = Redis.live Fixtures.warm (cache_ext.availabilityKey 42 "2025-12-01").
Proof.
  assert (Hup : Redis.healthy Fixtures.warm) by constructor.
  assert (Hne : 42 <> 4) by discriminate.
  split; [exact Hup|]. split; [exact Hne|].
  destruct (X5_InvalidateAvailabilityCache_is_confined_to_its_property 4 _ Hup)
    as (_ & _ & _ & H & _).
  exact (H 42 "2025-12-01" Hne).
Defined.

(** X6.  [InvalidateAvailabilityDateRange] does not use its date range:
    on a healthy connection it removes every readable availability day of
    the property, inside the range or not, exactly as
    [InvalidateAvailabilityCache] does.  Unlike it, it reports success
    when the scan fails, having deleted nothing. *)
Theorem X6_InvalidateAvailabilityDateRange_ignores_the_range
    (i : Z) (startDate endDate : string) (r : Redis.t) :
  (Redis.healthy r ->
   cache_ext.InvalidateAvailabilityDateRange i startDate endDate r
   = cache.InvalidateAvailabilityCache i r /\
   forall date,
     Redis.live (snd (cache_ext.InvalidateAvailabilityDateRange i startDate endDate r))
                (cache_ext.availabilityKey i date) = None) /\
  (forall e rest, Redis.faults r = Some e :: rest ->
   cache_ext.InvalidateAvailabilityDateRange i startDate endDate r
   = (None, Redis.mk (Redis.keys r) (Redis.clock r) rest) /\
   fst (cache.InvalidateAvailabilityCache i r) = Some e).
Proof.
  split.
  - intros Hup.
    assert (E : cache_ext.InvalidateAvailabilityDateRange i startDate endDate r
                = cache.InvalidateAvailabilityCache i r).
    { unfold cache_ext.InvalidateAvailabilityDateRange, cache.InvalidateAvailabilityCache,
        cache.deleteByPattern, bind.
      destruct (AdapterFacts.Scan_healthy (cache.availabilityPattern i) r Hup)
        as (r1 & -> & _). reflexivity. }
    split; [exact E|]. intros date. rewrite E.
    now apply (InvalidateAvailabilityCache_confined i r Hup).
  - intros e rest Hf.
    unfold cache_ext.InvalidateAvailabilityDateRange, cache.InvalidateAvailabilityCache,
      cache.deleteByPattern, bind, Redis.Scan, bind, Redis.attempt.
    rewrite Hf. split; reflexivity.
Qed.

(** X6 at work: a range of one December day, asked of the warm cache and
    of a connection that refuses the scan. *)
Lemma X6_witness :
  let down := Redis.mk Fixtures.warmKeys 0 [Some Fixtures.refused] in
  Redis.healthy Fixtures.warm /\
  Redis.faults down = [Some Fixtures.refused] /\
  Redis.live (snd (cache_ext.InvalidateAvailabilityDateRange 42 "2025-12-24" "2025-12-24"
                     Fixtures.warm))
             (cache_ext.availabilityKey 42 "2025-12-01") = None /\
  fst (cache_ext.InvalidateAvailabilityDateRange 42 "2025-12-24" "2025-12-24" down) = None /\
  fst (cache.InvalidateAvailabilityCache 42 down) = Some Fixtures.refused.
Proof.
  cbv zeta. assert (Hup : Redis.healthy Fixtures.warm) by constructor.
  split; [exact Hup|]. split; [reflexivity|].
  split.
  - exact (proj2 (proj1 (X6_InvalidateAvailabilityDateRange_ignores_the_range
                           42 "2025-12-24" "2025-12-24" Fixtures.warm) Hup) "2025-12-01").
  - destruct (proj2 (X6_InvalidateAvailabilityDateRange_ignores_the_range
                       42 "2025-12-24" "2025-12-24"
                       (Redis.mk Fixtures.warmKeys 0 [Some Fixtures.refused]))
                    Fixtures.refused [] eq_refl) as [H1 H2].
    split; [now rewrite H1 | exact H2].
Defined.

(** * Further properties: set, get, expiry *)

Module RoundTripFacts.
Import Redis.

Lemma Set_healthy (key val : string) (ttl : Z) (r : t) :
  healthy r ->
  exists r1, keys r1 = keys r /\ clock r1 = clock r /\
    Set_ key val ttl r =
      (None, mk (<[key := {| value := val; deadline := newDeadline r1 key ttl |}]> (keys r1))
                (clock r1) (faults r1)) /\
    healthy (snd (Set_ key val ttl r)).
Proof.
  intros H. unfold Set_, bind. destruct (RedisFacts.attempt_healthy r H) as [E H'].
  pose proof (RedisFacts.attempt_data r) as [Hk Hc].
  destruct (attempt r) as [f r1]. simpl in *. subst f. exists r1. auto.
Qed.

Lemma Get_healthy_reply (k : string) (r : t) :
  healthy r ->
  fst (Get k r) = match live r k with
                  | Some e => (value e, None)
                  | None => ("", Some RedisNil)
                  end.
Proof.
  intros H. unfold Get, bind. destruct (RedisFacts.attempt_healthy r H) as [E _].
  pose proof (RedisFacts.attempt_data r) as [Hk Hc].
  destruct (attempt r) as [f r1]. simpl in *. subst f.
  rewrite (RedisFacts.live_ext r r1 k Hk Hc). now destruct (live r k).
Qed.

(** What can be read after a [SET] with a positive expiry, as the
    server's clock moves on. *)
Lemma live_after_Set (key val : string) (ttl d : Z) (r : t) (k : string) :
  healthy r -> 0 < ttl -> 0 <= d ->
  live (RedisOps.advance d (snd (Set_ key val ttl r))) k =
  if decide (k = key) then
    if d <? Z.max 1 (ttl / 1000000) * 1000000
    then Some {| value := val;
                 deadline := Some (clock r + Z.max 1 (ttl / 1000000) * 1000000) |}
    else None
  else live (RedisOps.advance d r) k.
Proof.
  intros H Httl Hd. destruct (Set_healthy key val ttl r H) as (r1 & Hk & Hc & E & _).
  rewrite E. unfold live, RedisOps.advance. simpl.
  destruct (decide (k = key)) as [->|Hne].
  - rewrite lookup_insert_eq. unfold newDeadline, expired. simpl.
    apply Z.ltb_lt in Httl. rewrite Httl, Hc. simpl.
    destruct (d <? _) eqn:Ed.
    + apply Z.ltb_lt in Ed. destruct (_ <=? _) eqn:El; [apply Z.leb_le in El; lia | reflexivity].
    + apply Z.ltb_ge in Ed. destruct (_ <=? _) eqn:El; [reflexivity | apply Z.leb_gt in El; lia].
  - rewrite lookup_insert_ne by congruence. now rewrite Hk, Hc.
Qed.

Lemma advance_zero (r : t) (k : string) : live (RedisOps.advance 0 r) k = live r k.
Proof. unfold live, RedisOps.advance. simpl. now rewrite Z.add_0_r. Qed.


End RoundTripFacts.

(** X7.  A property snapshot set with a positive ttl on a healthy
    connection is served back by [GetPropertyCache] for as long as the
    server's clock has moved on by less than the ttl (in whole
    milliseconds, at least one), is a miss from then on, and is a miss at
    once after [InvalidatePropertyCache]; the snapshot of no other
    property is affected by the set. *)
Theorem X7_property_snapshot_is_served_for_its_ttl
    {J : JSON Property} (r : Redis.t) (i : Z) (property : Property) (data : string) (ttl : Z)
    (Hup : Redis.healthy r)
    (Hm : Marshal property = Ok data)
    (Hu : Unmarshal data = Ok property)
    (Httl : 0 < ttl) :
  let r1 := snd (cache.SetPropertyCache i property ttl r) in
  let life := Z.max 1 (ttl / 1000000) * 1000000 in
  fst (cache.SetPropertyCache i property ttl r) = None /\
  (forall d, 0 <= d < life ->
     fst (cache.GetPropertyCache i (RedisOps.advance d r1)) = (Some property, None)) /\
  (forall d, life <= d ->
     fst (cache.GetPropertyCache i (RedisOps.advance d r1)) = (None, None)) /\
  fst (cache.GetPropertyCache i (snd (cache.InvalidatePropertyCache i r1))) = (None, None) /\
  (forall j, j <> i ->
     Redis.live r1 (cache.propertyKey j) = Redis.live r (cache.propertyKey j)).
Proof.
  cbv zeta. unfold cache.SetPropertyCache. rewrite Hm.
  set (key := cache.propertyKey i).
  destruct (RoundTripFacts.Set_healthy key data ttl r Hup) as (r0 & _ & _ & E & H1).
  assert (Hget : forall r', Redis.healthy r' ->
            fst (cache.GetPropertyCache i r') =
            match Redis.live r' key with
            | Some e => match Unmarshal (Redis.value e) with
                        | Ok p => (Some p, None) | Err e' => (None, Some e') end
            | None => (None, None)
            end).
  { intros r' H'. unfold cache.GetPropertyCache, bind. fold key.
    pose proof (RoundTripFacts.Get_healthy_reply key r' H') as G.
    destruct (Redis.Get key r') as [[val err] r2]. simpl in G.
    destruct (Redis.live r' key) as [e|]; injection G as -> ->; simpl; [|reflexivity].
    now destruct (Unmarshal (Redis.value e)). }
  split; [now rewrite E|]. split; [|split; [|split]].
  - intros d [Hd1 Hd2]. rewrite Hget by now apply AdapterFacts.advance_healthy.
    rewrite RoundTripFacts.live_after_Set by assumption.
    rewrite decide_True by reflexivity.
    apply Z.ltb_lt in Hd2. rewrite Hd2. simpl. now rewrite Hu.
  - intros d Hd. assert (0 <= d) by lia.
    rewrite Hget by now apply AdapterFacts.advance_healthy.
    rewrite RoundTripFacts.live_after_Set by assumption.
    rewrite decide_True by reflexivity.
    apply Z.ltb_ge in Hd. now rewrite Hd.
  - destruct (RedisFacts.Del_healthy [key] _ H1) as (_ & H2 & Hd).
    rewrite Hget by exact H2.
    unfold cache.InvalidatePropertyCache. fold key.
    rewrite (RedisFacts.dead_not_live _ key); [reflexivity|]. apply Hd. left.
  - intros j Hne. rewrite <- (RoundTripFacts.advance_zero (snd _)), <- (RoundTripFacts.advance_zero r).
    rewrite RoundTripFacts.live_after_Set by (assumption || lia).
    rewrite decide_False; [reflexivity|].
    unfold key, cache.propertyKey. intros Ek.
    apply (String.app_inj "property:"), TextFacts.dec_inj in Ek. congruence.
Qed.

(** X7 at work: the villa, for one hour. *)
Lemma X7_witness :
  let r1 := snd (@cache.SetPropertyCache Fixtures.jsonProperty 42 Fixtures.villa Hour
                   Samples.empty) in
  Redis.healthy Samples.empty /\
  @Marshal _ Fixtures.jsonProperty Fixtures.villa = Ok "property-42.json" /\
  @Unmarshal _ Fixtures.jsonProperty "property-42.json" = Ok Fixtures.villa /\
  0 < Hour /\
  fst (@cache.GetPropertyCache Fixtures.jsonProperty 42 (RedisOps.advance (59 * Minute) r1))
  = (Some Fixtures.villa, None) /\
  fst (@cache.GetPropertyCache Fixtures.jsonProperty 42 (RedisOps.advance Hour r1))
  = (None, None).
Proof.
  cbv zeta.
  assert (Hup : Redis.healthy Samples.empty) by constructor.
  assert (Hm : @Marshal _ Fixtures.jsonProperty Fixtures.villa = Ok "property-42.json")
    by reflexivity.
  assert (Hu : @Unmarshal _ Fixtures.jsonProperty "property-42.json" = Ok Fixtures.villa)
    by reflexivity.
  assert (Httl : 0 < Hour) by reflexivity.
  split; [exact Hup|]. split; [exact Hm|]. split; [exact Hu|]. split; [exact Httl|].
  destruct (@X7_property_snapshot_is_served_for_its_ttl Fixtures.jsonProperty
              Samples.empty 42 Fixtures.villa "property-42.json" Hour Hup Hm Hu Httl)
    as (_ & H2 & H3 & _).
  split; [apply H2; vm_compute; split; congruence | apply H3; vm_compute; congruence].
Defined.



(** X9.  An availability day set with a positive ttl on a healthy
    connection is read back by [GetAvailabilityCache] for the same
    property and date; no other day and no other property is affected by
    the set; and after [InvalidateAvailabilityCache] for the property the
    day is a miss. *)
Theorem X9_availability_day_round_trip
    {J : JSON PropertyAvailabilityCache} (r : Redis.t) (i : Z) (date : string)
    (availability : PropertyAvailabilityCache) (data : string) (ttl : Z)
    (Hup : Redis.healthy r)
    (Hm : Marshal availability = Ok data)
    (Hu : Unmarshal data = Ok availability)
    (Httl : 0 < ttl) :
  let r1 := snd (cache_ext.SetAvailabilityCache i date availability ttl r) in
  fst (cache_ext.SetAvailabilityCache i date availability ttl r) = None /\
  fst (cache_ext.GetAvailabilityCache i date r1) = (Some availability, None) /\
  (forall j date', (j, date') <> (i, date) ->
     Redis.live r1 (cache_ext.availabilityKey j date')
     = Redis.live r (cache_ext.availabilityKey j date')) /\
  fst (cache_ext.GetAvailabilityCache i date (snd (cache.InvalidateAvailabilityCache i r1)))
  = (None, None).
Proof.
  cbv zeta. unfold cache_ext.SetAvailabilityCache. rewrite Hm.
  set (key := cache_ext.availabilityKey i date).
  destruct (RoundTripFacts.Set_healthy key data ttl r Hup) as (r0 & _ & _ & E & H1).
  assert (Hlive : forall k, Redis.live (snd (Redis.Set_ key data ttl r)) k =
            if decide (k = key)
            then Some {| Redis.value := data;
                         Redis.deadline := Some (Redis.clock r + Z.max 1 (ttl / 1000000) * 1000000) |}
            else Redis.live r k).
  { intros k. rewrite <- (RoundTripFacts.advance_zero (snd _)), <- (RoundTripFacts.advance_zero r).
    rewrite RoundTripFacts.live_after_Set by (assumption || lia).
    destruct (decide (k = key)); [|reflexivity].
    assert (Hpos : (0 <? Z.max 1 (ttl / 1000000) * 1000000) = true) by (apply Z.ltb_lt; lia).
    now rewrite Hpos. }
  assert (Hget : forall r', Redis.healthy r' ->
            fst (cache_ext.GetAvailabilityCache i date r') =
            match Redis.live r' key with
            | Some e => match Unmarshal (Redis.value e) with
                        | Ok a => (Some a, None) | Err e' => (None, Some e') end
            | None => (None, None)
            end).
  { intros r' H'. unfold cache_ext.GetAvailabilityCache, bind. fold key.
    pose proof (RoundTripFacts.Get_healthy_reply key r' H') as G.
    destruct (Redis.Get key r') as [[val err] r2]. simpl in G.
    destruct (Redis.live r' key) as [e|]; injection G as -> ->; simpl; [|reflexivity].
    now destruct (Unmarshal (Redis.value e)). }
  split; [now rewrite E|]. split; [|split].
  - rewrite Hget by exact H1. rewrite Hlive, decide_True by reflexivity. simpl. now rewrite Hu.
  - intros j date' Hne. rewrite Hlive, decide_False; [reflexivity|].
    intros Ek. apply availabilityKey_inj in Ek as [-> ->]. now apply Hne.
  - set (r1 := snd (Redis.Set_ key data ttl r)) in *.
    destruct (CacheFacts.quiet_deleteByPattern (cache.availabilityPattern i) r1) as [_ H2].
    rewrite Hget by (apply H2, H1).
    destruct (InvalidateAvailabilityCache_confined i r1 H1) as (_ & Hgone & _).
    unfold key. now rewrite Hgone.
Qed.

(** X9 at work: one December day of property 42. *)
Lemma X9_witness :
  let r1 := snd (@cache_ext.SetAvailabilityCache Samples.jsonAvailabilityCache
                   42 "2025-12-01" Samples.day Hour Samples.empty) in
  Redis.healthy Samples.empty /\
  @Marshal _ Samples.jsonAvailabilityCache Samples.day = Ok "day-42.json" /\
  @Unmarshal _ Samples.jsonAvailabilityCache "day-42.json" = Ok Samples.day /\
  0 < Hour /\
  fst (@cache_ext.GetAvailabilityCache Samples.jsonAvailabilityCache 42 "2025-12-01" r1)
  = (Some Samples.day, None) /\
  fst (@cache_ext.GetAvailabilityCache Samples.jsonAvailabilityCache 42 "2025-12-01"
         (snd (cache.InvalidateAvailabilityCache 42 r1))) = (None, None).
Proof.
  cbv zeta.
  assert (Hup : Redis.healthy Samples.empty) by constructor.
  assert (Hm : @Marshal _ Samples.jsonAvailabilityCache Samples.day = Ok "day-42.json")
    by reflexivity.
  assert (Hu : @Unmarshal _ Samples.jsonAvailabilityCache "day-42.json" = Ok Samples.day)
    by reflexivity.
  assert (Httl : 0 < Hour) by reflexivity.
  split; [exact Hup|]. split; [exact Hm|]. split; [exact Hu|]. split; [exact Httl|].
  destruct (@X9_availability_day_round_trip Samples.jsonAvailabilityCache
              Samples.empty 42 "2025-12-01" Samples.day "day-42.json" Hour Hup Hm Hu Httl)
    as (_ & H2 & _ & H4).
  split; [exact H2 | exact H4].
Defined.

(** * Further properties: the lists of amenities and of conditions *)

Module ListCacheFacts.
Import Redis.

(** A [GET] on a healthy connection: what it replies and what it leaves. *)
Lemma Get_healthy_state (k : string) (r : t) :
  healthy r ->
  exists r1, keys r1 = keys r /\ clock r1 = clock r /\ healthy r1 /\
    Get k r = (match live r k with
               | Some e => (value e, None)
               | None => ("", Some RedisNil)
               end, r1).
Proof.
  intros H. unfold Get, bind. destruct (RedisFacts.attempt_healthy r H) as [E H'].
  pose proof (RedisFacts.attempt_data r) as [Hk Hc].
  destruct (attempt r) as [f r1]. simpl in *. subst f. exists r1.
  rewrite (RedisFacts.live_ext r r1 k Hk Hc) by reflexivity.
  repeat split; try assumption; try congruence.
  now destruct (live r k).
Qed.

Lemma GetAmenitiesCache_healthy {J : JSON (list Amenity)} (r : t) :
  healthy r ->
  exists r1 err, keys r1 = keys r /\ clock r1 = clock r /\ healthy r1 /\
    cache_ext.GetAmenitiesCache r = (decoded (live r "amenities:all"), err, r1).
Proof.
  intros H. unfold cache_ext.GetAmenitiesCache, bind.
  destruct (Get_healthy_state "amenities:all" r H) as (r1 & Hk & Hc & H1 & ->).
  unfold decoded. destruct (live r "amenities:all") as [e|]; simpl.
  - destruct (Unmarshal (value e)); simpl; eauto 10.
  - eauto 10.
Qed.

Lemma GetConditionsCache_healthy {J : JSON (list Condition)} (r : t) :
  healthy r ->
  exists r1 err, keys r1 = keys r /\ clock r1 = clock r /\ healthy r1 /\
    cache_ext.GetConditionsCache r = (decoded (live r "conditions:all"), err, r1).
Proof.
  intros H. unfold cache_ext.GetConditionsCache, bind.
  destruct (Get_healthy_state "conditions:all" r H) as (r1 & Hk & Hc & H1 & ->).
  unfold decoded. destruct (live r "conditions:all") as [e|]; simpl.
  - destruct (Unmarshal (value e)); simpl; eauto 10.
  - eauto 10.
Qed.

(** [logIfErr] and [logLine] leave Redis alone. *)
Lemma logIfErr_keeps_redis (prefix : string) (err : option error) (w : World) :
  redis (snd (logIfErr prefix err w)) = redis w.
Proof. now destruct err. Qed.

(** What [GetAmenities] answers on a healthy connection, and what it
    leaves in the cache. *)
Lemma GetAmenities_healthy {J : JSON (list Amenity)}
    (repo : res (list Amenity)) (w : World) (d : Z) :
  healthy (redis w) -> 0 <= d ->
  let cached := decoded (live (redis w) "amenities:all") in
  let out := handlers_ext.GetAmenities repo w in
  healthy (redis (snd out)) /\
  if (0 <? length cached)%nat then
    fst out = Served StatusOK cached true /\
    forall k, live (RedisOps.advance d (redis (snd out))) k = live (RedisOps.advance d (redis w)) k
  else
    match repo with
    | Err _ =>
        fst out = Failure StatusInternalServerError "Failed to retrieve amenities" /\
        forall k, live (RedisOps.advance d (redis (snd out))) k
                  = live (RedisOps.advance d (redis w)) k
    | Ok l =>
        fst out = Served StatusOK l false /\
        match Marshal l with
        | Ok data =>
            forall k, live (RedisOps.advance d (redis (snd out))) k =
              if decide (k = "amenities:all") then
                if d <? 24 * Hour
                then Some {| value := data; deadline := Some (clock (redis w) + 24 * Hour) |}
                else None
              else live (RedisOps.advance d (redis w)) k
        | Err _ =>
            forall k, live (RedisOps.advance d (redis (snd out))) k
                      = live (RedisOps.advance d (redis w)) k
        end
    end.
Proof.
  intros H Hd. cbv zeta. unfold handlers_ext.GetAmenities, bind, onRedis.
  destruct (GetAmenitiesCache_healthy (redis w) H) as (r1 & err & Hk & Hc & H1 & ->).
  set (cached := decoded _).
  assert (Hadv : forall k, live (RedisOps.advance d r1) k = live (RedisOps.advance d (redis w)) k).
  { intros k. apply RedisFacts.live_ext; simpl; congruence. }
  destruct (logIfErr _ err _) as [[] w2] eqn:E2.
  assert (R2 : redis w2 = r1).
  { change w2 with (snd (tt, w2)). rewrite <- E2. now rewrite logIfErr_keeps_redis. }
  destruct (0 <? length cached)%nat; simpl.
  - rewrite R2. auto.
  - destruct repo as [l|e]; simpl; [|rewrite R2; auto].
    unfold cache_ext.SetAmenitiesCache. simpl. rewrite R2.
    destruct (Marshal l) as [data|e]; simpl.
    + destruct (Set_ "amenities:all" data (24 * Hour) r1) as [err' r3] eqn:E3.
      assert (R3 : r3 = snd (Set_ "amenities:all" data (24 * Hour) r1)) by now rewrite E3.
      destruct (RoundTripFacts.Set_healthy "amenities:all" data (24 * Hour) r1 H1)
        as (_ & _ & _ & _ & H3).
      rewrite <- R3 in H3.
      destruct err'; simpl; (split; [exact H3|]; split; [reflexivity|]).

      all: intros k; rewrite R3, RoundTripFacts.live_after_Set by (assumption || reflexivity).
      all: rewrite Hadv, Hc; reflexivity.
    + auto.
Qed.

Lemma GetConditions_healthy {J : JSON (list Condition)}
    (repo : res (list Condition)) (w : World) (d : Z) :
  healthy (redis w) -> 0 <= d ->
  let cached := decoded (live (redis w) "conditions:all") in
  let out := handlers_ext.GetConditions repo w in
  healthy (redis (snd out)) /\
  if (0 <? length cached)%nat then
    fst out = Served StatusOK cached true /\
    forall k, live (RedisOps.advance d (redis (snd out))) k = live (RedisOps.advance d (redis w)) k
  else
    match repo with
    | Err _ =>
        fst out = Failure StatusInternalServerError "Failed to retrieve conditions" /\
        forall k, live (RedisOps.advance d (redis (snd out))) k
                  = live (RedisOps.advance d (redis w)) k
    | Ok l =>
        fst out = Served StatusOK l false /\
        match Marshal l with
        | Ok data =>
            forall k, live (RedisOps.advance d (redis (snd out))) k =
              if decide (k = "conditions:all") then
                if d <? 24 * Hour
                then Some {| value := data; deadline := Some (clock (redis w) + 24 * Hour) |}
                else None
              else live (RedisOps.advance d (redis w)) k
        | Err _ =>
            forall k, live (RedisOps.advance d (redis (snd out))) k
                      = live (RedisOps.advance d (redis w)) k
        end
    end.
Proof.
  intros H Hd. cbv zeta. unfold handlers_ext.GetConditions, bind, onRedis.
  destruct (GetConditionsCache_healthy (redis w) H) as (r1 & err & Hk & Hc & H1 & ->).
  set (cached := decoded _).
  assert (Hadv : forall k, live (RedisOps.advance d r1) k = live (RedisOps.advance d (redis w)) k).
  { intros k. apply RedisFacts.live_ext; simpl; congruence. }
  destruct (logIfErr _ err _) as [[] w2] eqn:E2.
  assert (R2 : redis w2 = r1).
  { change w2 with (snd (tt, w2)). rewrite <- E2. now rewrite logIfErr_keeps_redis. }
  destruct (0 <? length cached)%nat; simpl.
  - rewrite R2. auto.
  - destruct repo as [l|e]; simpl; [|rewrite R2; auto].
    unfold cache_ext.SetConditionsCache. simpl. rewrite R2.
    destruct (Marshal l) as [data|e]; simpl.
    + destruct (Set_ "conditions:all" data (24 * Hour) r1) as [err' r3] eqn:E3.
      assert (R3 : r3 = snd (Set_ "conditions:all" data (24 * Hour) r1)) by now rewrite E3.
      destruct (RoundTripFacts.Set_healthy "conditions:all" data (24 * Hour) r1 H1)
        as (_ & _ & _ & _ & H3).
      rewrite <- R3 in H3.
      destruct err'; simpl; (split; [exact H3|]; split; [reflexivity|]).

      all: intros k; rewrite R3, RoundTripFacts.live_after_Set by (assumption || reflexivity).
      all: rewrite Hadv, Hc; reflexivity.
    + auto.
Qed.

End ListCacheFacts.

(** X10.  [GetAmenities] reads through the cache.  On a healthy
    connection with nothing cached, a list that is not empty and that the
    codec round-trips is served from the Data Store and cached; for the
    next 24 hours every request is answered with that list from the cache,
    whatever the Data Store would say by then, even if it fails; from 24
    hours on the Data Store is asked again. *)
Theorem X10_amenities_are_read_through_the_cache_for_a_day
    {J : JSON (list Amenity)}
    (w : World) (l : list Amenity) (data : string) (repo' : res (list Amenity)) (d : Z)
    (Hup : Redis.healthy (redis w))
    (Hcold : Redis.live (redis w) "amenities:all" = None)
    (Hm : Marshal l = Ok data)
    (Hu : Unmarshal data = Ok l)
    (Hne : l <> [])
    (Hd : 0 <= d) :
  let first := handlers_ext.GetAmenities (Ok l) w in
  let second := handlers_ext.GetAmenities repo' (later d (snd first)) in
  fst first = Served StatusOK l false /\
  (d < 24 * Hour -> fst second = Served StatusOK l true) /\
  (24 * Hour <= d ->
   fst second = match repo' with
                | Ok l' => Served StatusOK l' false
                | Err _ => Failure StatusInternalServerError "Failed to retrieve amenities"
                end).
Proof.
  cbv zeta.
  pose proof (ListCacheFacts.GetAmenities_healthy (Ok l) w d Hup Hd) as H1.
  cbv zeta in H1. rewrite Hcold in H1. simpl in H1. rewrite Hm in H1.
  destruct H1 as (H1 & E1 & L1).
  set (w1 := snd (handlers_ext.GetAmenities (Ok l) w)) in *.
  split; [exact E1|].
  assert (Hup' : Redis.healthy (redis (later d w1))) by now apply AdapterFacts.advance_healthy.
  pose proof (ListCacheFacts.GetAmenities_healthy repo' (later d w1) 0 Hup' ltac:(lia)) as H2.
  cbv zeta in H2. change (redis (later d w1)) with (RedisOps.advance d (redis w1)) in H2.
  rewrite L1, decide_True in H2 by reflexivity.
  split; intros Hlt.
  - apply Z.ltb_lt in Hlt. rewrite Hlt in H2. simpl in H2. rewrite Hu in H2.
    destruct l; [congruence|]. simpl in H2. now destruct H2 as (_ & -> & _).
  - apply Z.ltb_ge in Hlt. rewrite Hlt in H2. simpl in H2.
    destruct repo'; now destruct H2 as (_ & -> & _).
Qed.

(** X10 at work: one amenity, asked for again after an hour and after a
    day, with the Data Store down by then. *)
Lemma X10_witness :
  let w := Fixtures.world Samples.empty Fixtures.pending in
  let first := @handlers_ext.GetAmenities Samples.jsonAmenities (Ok [Samples.wifi]) w in
  fst first = Served StatusOK [Samples.wifi] false /\
  fst (@handlers_ext.GetAmenities Samples.jsonAmenities (Err (Error "down"))
         (later Hour (snd first))) = Served StatusOK [Samples.wifi] true /\
  fst (@handlers_ext.GetAmenities Samples.jsonAmenities (Err (Error "down"))
         (later (24 * Hour) (snd first)))
  = Failure StatusInternalServerError "Failed to retrieve amenities".
Proof.
  cbv zeta.
  set (w := Fixtures.world Samples.empty Fixtures.pending).
  assert (Hup : Redis.healthy (redis w)) by constructor.
  assert (Hcold : Redis.live (redis w) "amenities:all" = None) by reflexivity.
  assert (Hm : @Marshal _ Samples.jsonAmenities [Samples.wifi] = Ok "amenities-1.json")
    by reflexivity.
  assert (Hu : @Unmarshal _ Samples.jsonAmenities "amenities-1.json" = Ok [Samples.wifi])
    by reflexivity.
  assert (Hne : [Samples.wifi] <> []) by discriminate.
  destruct (@X10_amenities_are_read_through_the_cache_for_a_day Samples.jsonAmenities
              w [Samples.wifi] "amenities-1.json" (Err (Error "down")) Hour
              Hup Hcold Hm Hu Hne ltac:(discriminate)) as (H1 & H2 & _).
  destruct (@X10_amenities_are_read_through_the_cache_for_a_day Samples.jsonAmenities
              w [Samples.wifi] "amenities-1.json" (Err (Error "down")) (24 * Hour)
              Hup Hcold Hm Hu Hne ltac:(discriminate)) as (_ & _ & H3).
  split; [exact H1|]. split; [apply H2; reflexivity | apply H3; discriminate].
Defined.

(** X11.  [GetConditions] reads through the cache in the same way, under
    the key [conditions:all]: a miss is served from the Data Store and
    cached, the next 24 hours are served from the cache whatever the Data
    Store would say, and from 24 hours on the Data Store is asked again. *)
Theorem X11_conditions_are_read_through_the_cache_for_a_day
    {J : JSON (list Condition)}
    (w : World) (l : list Condition) (data : string) (repo' : res (list Condition)) (d : Z)
    (Hup : Redis.healthy (redis w))
    (Hcold : Redis.live (redis w) "conditions:all" = None)
    (Hm : Marshal l = Ok data)
    (Hu : Unmarshal data = Ok l)
    (Hne : l <> [])
    (Hd : 0 <= d) :
  let first := handlers_ext.GetConditions (Ok l) w in
  let second := handlers_ext.GetConditions repo' (later d (snd first)) in
  fst first = Served StatusOK l false /\
  (d < 24 * Hour -> fst second = Served StatusOK l true) /\
  (24 * Hour <= d ->
   fst second = match repo' with
                | Ok l' => Served StatusOK l' false
                | Err _ => Failure StatusInternalServerError "Failed to retrieve conditions"
                end).
Proof.
  cbv zeta.
  pose proof (ListCacheFacts.GetConditions_healthy (Ok l) w d Hup Hd) as H1.
  cbv zeta in H1. rewrite Hcold in H1. simpl in H1. rewrite Hm in H1.
  destruct H1 as (H1 & E1 & L1).
  set (w1 := snd (handlers_ext.GetConditions (Ok l) w)) in *.
  split; [exact E1|].
  assert (Hup' : Redis.healthy (redis (later d w1))) by now apply AdapterFacts.advance_healthy.
  pose proof (ListCacheFacts.GetConditions_healthy repo' (later d w1) 0 Hup' ltac:(lia)) as H2.
  cbv zeta in H2. change (redis (later d w1)) with (RedisOps.advance d (redis w1)) in H2.
  rewrite L1, decide_True in H2 by reflexivity.
  split; intros Hlt.
  - apply Z.ltb_lt in Hlt. rewrite Hlt in H2. simpl in H2. rewrite Hu in H2.
    destruct l; [congruence|]. simpl in H2. now destruct H2 as (_ & -> & _).
  - apply Z.ltb_ge in Hlt. rewrite Hlt in H2. simpl in H2.
    destruct repo'; now destruct H2 as (_ & -> & _).
Qed.

(** X11 at work: one condition, asked for again a minute later with a
    Data Store that has a different answer by then, and a day later. *)
Lemma X11_witness :
  let w := Fixtures.world Samples.empty Fixtures.pending in
  let first := @handlers_ext.GetConditions Samples.jsonConditions (Ok [Samples.pets]) w in
  fst first = Served StatusOK [Samples.pets] false /\
  fst (@handlers_ext.GetConditions Samples.jsonConditions (Ok [])
         (later Minute (snd first))) = Served StatusOK [Samples.pets] true /\
  fst (@handlers_ext.GetConditions Samples.jsonConditions (Ok [])
         (later (24 * Hour) (snd first))) = Served StatusOK [] false.
Proof.
  cbv zeta.
  set (w := Fixtures.world Samples.empty Fixtures.pending).
  assert (Hup : Redis.healthy (redis w)) by constructor.
  assert (Hcold : Redis.live (redis w) "conditions:all" = None) by reflexivity.
  assert (Hm : @Marshal _ Samples.jsonConditions [Samples.pets] = Ok "conditions-1.json")
    by reflexivity.
  assert (Hu : @Unmarshal _ Samples.jsonConditions "conditions-1.json" = Ok [Samples.pets])
    by reflexivity.
  assert (Hne : [Samples.pets] <> []) by discriminate.
  destruct (@X11_conditions_are_read_through_the_cache_for_a_day Samples.jsonConditions
              w [Samples.pets] "conditions-1.json" (Ok []) Minute
              Hup Hcold Hm Hu Hne ltac:(discriminate)) as (H1 & H2 & _).
  destruct (@X11_conditions_are_read_through_the_cache_for_a_day Samples.jsonConditions
              w [Samples.pets] "conditions-1.json" (Ok []) (24 * Hour)
              Hup Hcold Hm Hu Hne ltac:(discriminate)) as (_ & _ & H3).
  split; [exact H1|]. split; [apply H2; reflexivity | apply H3; discriminate].
Defined.

(** X12.  An empty list is cached but never served from the cache.  When
    the Data Store has no amenities, [GetAmenities] writes the empty list
    under [amenities:all] like any other; the next request reads it back,
    finds no element, takes it for a miss and asks the Data Store again.
    [GetConditions] does the same under [conditions:all].  An answer
    marked as cached therefore never carries an empty list. *)
Theorem X12_an_empty_list_is_cached_but_never_served_from_the_cache
    {JA : JSON (list Amenity)} {JC : JSON (list Condition)}
    (w : World) (dataA dataC : string)
    (Hup : Redis.healthy (redis w))
    (HcoldA : Redis.live (redis w) "amenities:all" = None)
    (HcoldC : Redis.live (redis w) "conditions:all" = None)
    (HmA : Marshal (@nil Amenity) = Ok dataA) (HuA : Unmarshal dataA = Ok (@nil Amenity))
    (HmC : Marshal (@nil Condition) = Ok dataC) (HuC : Unmarshal dataC = Ok (@nil Condition)) :
  let wA := snd (handlers_ext.GetAmenities (Ok []) w) in
  let wC := snd (handlers_ext.GetConditions (Ok []) w) in
  ((exists e, Redis.live (redis wA) "amenities:all" = Some e /\ Redis.value e = dataA) /\
   forall repo,
     fst (handlers_ext.GetAmenities repo wA) =
     match repo with
     | Ok l => Served StatusOK l false
     | Err _ => Failure StatusInternalServerError "Failed to retrieve amenities"
     end) /\
  ((exists e, Redis.live (redis wC) "conditions:all" = Some e /\ Redis.value e = dataC) /\
   forall repo,
     fst (handlers_ext.GetConditions repo wC) =
     match repo with
     | Ok l => Served StatusOK l false
     | Err _ => Failure StatusInternalServerError "Failed to retrieve conditions"
     end) /\
  (forall repo w0 code l, fst (handlers_ext.GetAmenities repo w0) = Served code l true -> l <> []) /\
  (forall repo w0 code l, fst (handlers_ext.GetConditions repo w0) = Served code l true -> l <> []).
Proof.
  cbv zeta. split; [|split; [|split]].
  - pose proof (ListCacheFacts.GetAmenities_healthy (Ok []) w 0 Hup ltac:(lia)) as H1.
    cbv zeta in H1. rewrite HcoldA in H1. simpl in H1. rewrite HmA in H1.
    destruct H1 as (H1 & _ & L1).
    set (w1 := snd (handlers_ext.GetAmenities (Ok []) w)) in *.
    specialize (L1 "amenities:all"). rewrite RoundTripFacts.advance_zero in L1.
    rewrite decide_True in L1 by reflexivity. simpl in L1.
    split; [eexists; split; [exact L1 | reflexivity]|].
    intros repo.
    pose proof (ListCacheFacts.GetAmenities_healthy repo w1 0 H1 ltac:(lia)) as H2.
    cbv zeta in H2. rewrite L1 in H2. simpl in H2. rewrite HuA in H2. simpl in H2.
    destruct repo; now destruct H2 as (_ & -> & _).
  - pose proof (ListCacheFacts.GetConditions_healthy (Ok []) w 0 Hup ltac:(lia)) as H1.
    cbv zeta in H1. rewrite HcoldC in H1. simpl in H1. rewrite HmC in H1.
    destruct H1 as (H1 & _ & L1).
    set (w1 := snd (handlers_ext.GetConditions (Ok []) w)) in *.
    specialize (L1 "conditions:all"). rewrite RoundTripFacts.advance_zero in L1.
    rewrite decide_True in L1 by reflexivity. simpl in L1.
    split; [eexists; split; [exact L1 | reflexivity]|].
    intros repo.
    pose proof (ListCacheFacts.GetConditions_healthy repo w1 0 H1 ltac:(lia)) as H2.
    cbv zeta in H2. rewrite L1 in H2. simpl in H2. rewrite HuC in H2. simpl in H2.
    destruct repo; now destruct H2 as (_ & -> & _).
  - intros repo w0 code l. unfold handlers_ext.GetAmenities, bind.
    destruct (onRedis _ w0) as [[cached err] w2].
    destruct (logIfErr _ _ _) as [[] w3].
    destruct (0 <? length cached)%nat eqn:El; simpl.
    + intros [= _ <-]. intros ->. discriminate.
    + destruct repo as [l'|e']; simpl; [|discriminate].
      destruct (onRedis _ _) as [err2 w4]. destruct (logIfErr _ _ _) as [[] w5].
      simpl. discriminate.
  - intros repo w0 code l. unfold handlers_ext.GetConditions, bind.
    destruct (onRedis _ w0) as [[cached err] w2].
    destruct (logIfErr _ _ _) as [[] w3].
    destruct (0 <? length cached)%nat eqn:El; simpl.
    + intros [= _ <-]. intros ->. discriminate.
    + destruct repo as [l'|e']; simpl; [|discriminate].
      destruct (onRedis _ _) as [err2 w4]. destruct (logIfErr _ _ _) as [[] w5].
      simpl. discriminate.
Qed.

(** X12 at work: a Data Store without amenities and without conditions. *)
Lemma X12_witness :
  let w := Fixtures.world Samples.empty Fixtures.pending in
  let wA := snd (@handlers_ext.GetAmenities Samples.jsonAmenities (Ok []) w) in
  let wC := snd (@handlers_ext.GetConditions Samples.jsonConditions (Ok []) w) in
  (exists e, Redis.live (redis wA) "amenities:all" = Some e /\
             Redis.value e = "amenities-0.json") /\
  fst (@handlers_ext.GetAmenities Samples.jsonAmenities (Ok []) wA) = Served StatusOK [] false /\
  (exists e, Redis.live (redis wC) "conditions:all" = Some e /\
             Redis.value e = "conditions-0.json") /\
  fst (@handlers_ext.GetConditions Samples.jsonConditions (Ok []) wC) = Served StatusOK [] false.
Proof.
  cbv zeta.
  set (w := Fixtures.world Samples.empty Fixtures.pending).
  destruct (@X12_an_empty_list_is_cached_but_never_served_from_the_cache
              Samples.jsonAmenities Samples.jsonConditions w
              "amenities-0.json" "conditions-0.json"
              ltac:(constructor) eq_refl eq_refl eq_refl eq_refl eq_refl eq_refl)
    as ((A1 & A2) & (C1 & C2) & _).
  split; [exact A1|]. split; [exact (A2 (Ok []))|]. split; [exact C1 | exact (C2 (Ok []))].
Defined.

(** * Further properties: the search key *)

Module KeyFacts.

Lemma length_append (a b : string) :
  String.length (a +:+ b) = (String.length a + String.length b)%nat.
Proof.
  induction a as [|c a IH]; [reflexivity|].
  change (S (String.length (a +:+ b)) = S (String.length a + String.length b)).
  now rewrite IH.
Qed.

Lemma all_hexdigits_append (a b : string) :
  all_hexdigits (a +:+ b) = all_hexdigits a && all_hexdigits b.
Proof.
  induction a as [|c a IH]; [reflexivity|].
  change (hexdigit c && all_hexdigits (a +:+ b)
          = hexdigit c && all_hexdigits a && all_hexdigits b).
  now rewrite IH, andb_assoc.
Qed.

(** Every byte is written as two lower-case hexadecimal digits. *)
Lemma hexbyte_shape (b : N) :
  String.length (Text.hexbyte b) = 2%nat /\ all_hexdigits (Text.hexbyte b) = true.
Proof.
  unfold Text.hexbyte.
  assert (Hall : forallb (fun k => let s := Text.pad0 2 (Text.hex (N.of_nat k)) in
                            Nat.eqb (String.length s) 2 && all_hexdigits s)
                         (seq 0 256) = true) by (vm_compute; reflexivity).
  rewrite forallb_forall in Hall.
  assert (Hb : (b mod 256 < 256)%N) by (apply N.mod_upper_bound; discriminate).
  specialize (Hall (N.to_nat (b mod 256))). rewrite N2Nat.id in Hall. cbv zeta in Hall.
  apply andb_prop in Hall as [H1 H2].
  2:{ apply in_seq. split; [apply Nat.le_0_l|].
      change (0 + 256)%nat with (N.to_nat 256). apply Nat.compare_lt_iff. rewrite <- N2Nat.inj_compare. exact Hb. }
  apply Nat.eqb_eq in H1. auto.
Qed.

Lemma EncodeToString_shape (bs : list N) :
  String.length (Text.EncodeToString bs) = (2 * length bs)%nat /\
  all_hexdigits (Text.EncodeToString bs) = true.
Proof.
  induction bs as [|b bs [IH1 IH2]]; [auto|].
  destruct (hexbyte_shape b) as [H1 H2].
  change (Text.EncodeToString (b :: bs)) with (Text.hexbyte b +:+ Text.EncodeToString bs).
  rewrite length_append, all_hexdigits_append, H1, H2, IH1, IH2. simpl. split; [lia | reflexivity].
Qed.

Lemma bytes_le_length (width : nat) (x : N) : length (MD5.bytes_le width x) = width.
Proof. unfold MD5.bytes_le. now rewrite length_map, length_seq. Qed.

(** A digest has 16 bytes, whatever was digested. *)
Lemma Sum_length (msg : list N) : length (MD5.Sum msg) = 16%nat.
Proof.
  unfold MD5.Sum. destruct (fold_left _ _ _) as [[[a b] c] d].
  now rewrite !length_app, !bytes_le_length.
Qed.

Lemma md5hex_shape (s : string) :
  String.length (md5hex s) = 32%nat /\ all_hexdigits (md5hex s) = true.
Proof.
  unfold md5hex. destruct (EncodeToString_shape (MD5.Sum (Text.bytes_of s))) as [H1 H2].
  now rewrite H1, Sum_length.
Qed.

(** A key that begins with hexadecimal digits matches neither of the two
    narrow patterns of [InvalidateSearchCache]. *)
Lemma narrow_patterns_miss (h place : string) :
  all_hexdigits h = true ->
  Redis.glob ("search:location:" +:+ place +:+ ":*") ("search:" +:+ h) = false /\
  Redis.glob ("search:city:" +:+ place +:+ ":*") ("search:" +:+ h) = false.
Proof.
  intros Hh. split.
  - destruct (Redis.glob _ _) eqn:Eg; [|reflexivity].
    change ("search:location:" +:+ place +:+ ":*")
      with ("search:l" +:+ ("ocation:" +:+ place +:+ ":*")) in Eg.
    apply AdapterFacts.glob_prefix_inv in Eg as (s' & E & _); [|reflexivity].
    change ("search:l" +:+ s') with ("search:" +:+ String "l" s') in E.
    apply String.app_inj in E. subst h. discriminate.
  - destruct (Redis.glob _ _) eqn:Eg; [|reflexivity].
    change ("search:city:" +:+ place +:+ ":*")
      with ("search:ci" +:+ ("ty:" +:+ place +:+ ":*")) in Eg.
    apply AdapterFacts.glob_prefix_inv in Eg as (s' & E & _); [|reflexivity].
    change ("search:ci" +:+ s') with ("search:" +:+ String "c" (String "i" s')) in E.
    apply String.app_inj in E. subst h. discriminate.
Qed.

End KeyFacts.

(** X13.  Every key [generateSearchCacheKey] builds is [search:] followed
    by exactly 32 lower-case hexadecimal digits, whatever the filter
    holds: its length is fixed, and no byte of the request reaches it
    undigested. *)
Theorem X13_search_key_is_the_prefix_and_32_hex_digits (f : SearchFilter) :
  exists h, generateSearchCacheKey f = "search:" +:+ h /\
            String.length h = 32%nat /\ all_hexdigits h = true /\
            String.length (generateSearchCacheKey f) = 39%nat.
Proof.
  exists (md5hex (hashStr f)). destruct (KeyFacts.md5hex_shape (hashStr f)) as [H1 H2].
  unfold generateSearchCacheKey. rewrite KeyFacts.length_append, H1. auto.
Qed.

(** X14.  Of the three patterns [InvalidateSearchCache] scans for, the two
    narrow ones, [search:location:<location>:*] and [search:city:<city>:*],
    match no key that [generateSearchCacheKey] builds, for any location
    and city and any filter; only [search:*] matches, and it matches them
    all. *)
Theorem X14_only_the_broad_pattern_matches_a_search_key
    (location city : string) (f : SearchFilter) :
  map (fun p => Redis.glob p (generateSearchCacheKey f)) (cache.searchPatterns location city)
  = [false; false; true].
Proof.
  destruct (KeyFacts.md5hex_shape (hashStr f)) as [_ Hh].
  unfold cache.searchPatterns, generateSearchCacheKey. cbn [map].
  rewrite (proj1 (KeyFacts.narrow_patterns_miss _ location Hh)).
  rewrite (proj2 (KeyFacts.narrow_patterns_miss _ city Hh)).
  now rewrite CacheFacts.search_key_matches.
Qed.

(** * Further properties: what a hit depends on *)

Module HitFacts.

(** A search answered from the cache has read the key of its filter and
    nothing else of the request, and has asked the Data Store nothing. *)
Lemma hit_shared {JR : JSON SearchResultsCache}
    (repo repo' : SearchFilter -> res (list Property * Z))
    (conv conv' : list Property -> SearchFilter -> list SearchResult)
    (clock : Clock) (f g : SearchFilter) (w : World) :
  generateSearchCacheKey (validatePagination g) = generateSearchCacheKey (validatePagination f) ->
  servedFromCache (fst (handlers.SearchProperties repo conv clock (Ok f) w)) = true ->
  handlers.SearchProperties repo' conv' clock (Ok g) w
  = handlers.SearchProperties repo conv clock (Ok f) w.
Proof.
  intros Hkey. unfold handlers.SearchProperties, bind. rewrite Hkey.
  destruct (logLine _ w) as [[] w1].
  destruct (onRedis _ w1) as [[[cached|] err] w2];
    destruct (logIfErr _ err w2) as [[] w3]; [reflexivity|].
  destruct (logLine _ w3) as [[] w4].
  destruct (repo (validatePagination f)) as [[properties total]|e].
  - destruct (onRedis _ w4) as [err' w5]. destruct (logIfErr _ err' w5) as [[] w6].
    discriminate.
  - destruct (logLine _ w4) as [[] w5]. discriminate.
Qed.

Lemma property_hit_shared {JP : JSON Property}
    (repo repo' : Z -> res Property) (idParam : string) (w : World) :
  servedFromCache (fst (handlers.GetProperty repo idParam w)) = true ->
  handlers.GetProperty repo' idParam w = handlers.GetProperty repo idParam w.
Proof.
  unfold handlers.GetProperty, bind.
  destruct (ParseUint32 idParam) as [propertyID|e]; [|discriminate].
  destruct (onRedis _ w) as [[[cached|] err] w2];
    destruct (logIfErr _ err w2) as [[] w3]; [reflexivity|].
  destruct (logLine _ w3) as [[] w4].
  destruct (repo propertyID) as [property|e].
  - destruct (onRedis _ w4) as [err' w5]. destruct (logIfErr _ err' w5) as [[] w6].
    discriminate.
  - destruct (isErrRecordNotFound e); discriminate.
Qed.

End HitFacts.





(** X17.  A read answered from the cache does not depend on the Data
    Store: when [SearchProperties] or [GetProperty] marks its answer as
    cached, the answer and the world it leaves are the same for every
    behaviour of the repositories and of the conversion, failing ones
    included. *)
Theorem X17_a_hit_does_not_depend_on_the_data_store
    {JP : JSON Property} {JR : JSON SearchResultsCache}
    (clock : Clock) (f : SearchFilter) (idParam : string) (w : World) :
  (forall repo conv repo' conv',
      servedFromCache (fst (handlers.SearchProperties repo conv clock (Ok f) w)) = true ->
      handlers.SearchProperties repo' conv' clock (Ok f) w
      = handlers.SearchProperties repo conv clock (Ok f) w) /\
  (forall repo repo',
      servedFromCache (fst (handlers.GetProperty repo idParam w)) = true ->
      handlers.GetProperty repo' idParam w = handlers.GetProperty repo idParam w).
Proof.
  split.
  - intros repo conv repo' conv'. now apply HitFacts.hit_shared.
  - intros repo repo'. apply HitFacts.property_hit_shared.
Qed.

(** X17 at work: a cached search and a cached property, asked for again
    while the Data Store is down. *)
Lemma X17_witness :
  let down := fun _ : SearchFilter => @Err (list Property * Z) (Error "connection reset by peer") in
  servedFromCache (fst (@handlers.SearchProperties Fixtures.jsonResults Fixtures.noSearch
                          Fixtures.noConvert Fixtures.atMorning (Ok Fixtures.goa)
                          (Samples.searched Fixtures.goa))) = true /\
  @handlers.SearchProperties Fixtures.jsonResults down Fixtures.noConvert
    Fixtures.atMorning (Ok Fixtures.goa) (Samples.searched Fixtures.goa)
  = @handlers.SearchProperties Fixtures.jsonResults Fixtures.noSearch Fixtures.noConvert
      Fixtures.atMorning (Ok Fixtures.goa) (Samples.searched Fixtures.goa) /\
  servedFromCache (fst (@handlers.GetProperty Fixtures.jsonProperty Fixtures.findVilla "42"
                          Samples.visited)) = true /\
  @handlers.GetProperty Fixtures.jsonProperty Fixtures.storeDown "42" Samples.visited
  = @handlers.GetProperty Fixtures.jsonProperty Fixtures.findVilla "42" Samples.visited.
Proof.
  cbv zeta.
  assert (H1 : servedFromCache
                 (fst (@handlers.SearchProperties Fixtures.jsonResults Fixtures.noSearch
                         Fixtures.noConvert Fixtures.atMorning (Ok Fixtures.goa)
                         (Samples.searched Fixtures.goa))) = true)
    by (vm_compute; reflexivity).
  assert (H2 : servedFromCache
                 (fst (@handlers.GetProperty Fixtures.jsonProperty Fixtures.findVilla "42"
                         Samples.visited)) = true)
    by (vm_compute; reflexivity).
  destruct (@X17_a_hit_does_not_depend_on_the_data_store Fixtures.jsonProperty
              Fixtures.jsonResults Fixtures.atMorning Fixtures.goa "42"
              Samples.visited) as [_ G].
  destruct (@X17_a_hit_does_not_depend_on_the_data_store Fixtures.jsonProperty
              Fixtures.jsonResults Fixtures.atMorning Fixtures.goa "42"
              (Samples.searched Fixtures.goa)) as [S _].
  split; [exact H1|]. split; [apply (S _ _ _ _ H1)|]. split; [exact H2 | apply (G _ _ H2)].
Defined.

(** * Further properties: the relay, event by event *)

Module TickFacts.
Section Facts.
Context {jsonAvailability : JSON Availability} {jsonPricing : JSON Pricing}.

(** The line [handleEvent] opens with. *)
Lemma handleEvent_unknown (ev : Event) (w : World) :
  knownTable (TableName ev) = false ->
  exists line,
    handlers.handleEvent ev w =
    (tt, {| redis := redis w; db := db w;
            logs := (logs w ++ [line]) ++ ["Unknown event table: " +:+ TableName ev] |}).
Proof.
  intros H. unfold knownTable in H. cbn [existsb] in H.
  repeat (apply orb_false_elim in H as [? H]).
  unfold handlers.handleEvent, bind.
  repeat match goal with E : String.eqb _ _ = false |- _ => rewrite E; clear E end.
  eexists. reflexivity.
Qed.

Lemma handleEvent_undecodable (ev : Event) (w : World) (e : error) :
  (TableName ev = "availabilities" /\ @Unmarshal Availability _ (Data ev) = Err e) \/
  (TableName ev = "pricing" /\ @Unmarshal Pricing _ (Data ev) = Err e) ->
  exists line,
    handlers.handleEvent ev w =
    (tt, {| redis := redis w; db := db w;
            logs := (logs w ++ [line]) ++
                    ["Failed to unmarshal " +:+
                     (if String.eqb (TableName ev) "pricing" then "pricing" else "availability")
                     +:+ " data: " +:+ errorString e] |}).
Proof.
  intros [[Et Eu]|[Et Eu]]; unfold handlers.handleEvent, bind; rewrite Et; cbn [String.eqb].
  - simpl. unfold handlers.handleAvailabilityEvent. rewrite Eu. eexists. reflexivity.
  - simpl. unfold handlers.handlePricingEvent. rewrite Eu. eexists. reflexivity.
Qed.

(** [processEvent] adds to the log of [handleEvent] at most the line of a
    failed mark. *)
Lemma processEvent_logs (ev : Event) (w : World) :
  logs (snd (handlers.processEvent ev w)) =
  (logs (snd (handlers.handleEvent ev w)) ++
   match fst (database.MarkEventAsProcessed (ID ev) (db w)) with
   | Some e => ["Failed to mark event " +:+ Text.dec (ID ev) +:+ " as processed: "
                +:+ errorString e]
   | None => []
   end)%list.
Proof.
  unfold handlers.processEvent, bind.
  pose proof (RelayInstances.handleEvent_db ev w) as Hdb.
  destruct (handlers.handleEvent ev w) as [[] w1]. simpl in Hdb |- *.
  unfold onDB. rewrite Hdb.
  destruct (database.MarkEventAsProcessed (ID ev) (db w)) as [[e|] d]; simpl;
    [|now rewrite app_nil_r].
  now rewrite !TextFacts.append_assoc.
Qed.

Lemma marked (ev : Event) (w : World) :
  database.healthy (db w) -> In ev (database.events (db w)) ->
  processedFlag (db (snd (handlers.processEvent ev w))) (ID ev) = Some true.
Proof.
  intros H Hin. destruct (RelayInstances.processEvent_stores ev w) as [_ ->].
  rewrite DatabaseFacts.Mark_flag.
  destruct (DatabaseFacts.db_attempt_healthy (db w) H) as [-> _].
  destruct (DatabaseFacts.flag_of_row (db w) ev Hin) as [b ->]. simpl.
  now rewrite Z.eqb_refl, orb_true_r.
Qed.

End Facts.
End TickFacts.

(** X18.  An event of a table [handleEvent] has no case for costs no
    Redis command: the cache and the connection are as before, the table
    name is logged as unknown, and the event is marked processed like any
    other. *)
Theorem X18_an_event_of_an_unknown_table_is_marked_without_a_command
    {jsonAvailability : JSON Availability} {jsonPricing : JSON Pricing}
    (ev : Event) (w : World)
    (Hunknown : knownTable (TableName ev) = false) :
  let w' := snd (handlers.processEvent ev w) in
  redis w' = redis w /\
  In ("Unknown event table: " +:+ TableName ev) (logs w') /\
  (database.healthy (db w) -> In ev (database.events (db w)) ->
   processedFlag (db w') (ID ev) = Some true).
Proof.
  cbv zeta. destruct (TickFacts.handleEvent_unknown ev w Hunknown) as [line E].
  destruct (RelayInstances.processEvent_stores ev w) as [-> _].
  rewrite TickFacts.processEvent_logs, E. simpl.
  split; [reflexivity|]. split; [|apply TickFacts.marked].
  rewrite !in_app_iff. left. right. now left.
Qed.

(** X18 at work: a change of a table [bookings]. *)
Lemma X18_witness :
  let ev := Fixtures.event 1 "bookings" 42 in
  let w := Fixtures.world Fixtures.warm (database.mk [ev] []) in
  let w' := snd (@handlers.processEvent Fixtures.jsonAvailability Fixtures.jsonPricing ev w) in
  knownTable (TableName ev) = false /\
  redis w' = redis w /\
  In "Unknown event table: bookings" (logs w') /\
  processedFlag (db w') 1 = Some true.
Proof.
  cbv zeta.
  assert (Hu : knownTable (TableName (Fixtures.event 1 "bookings" 42)) = false) by reflexivity.
  destruct (@X18_an_event_of_an_unknown_table_is_marked_without_a_command
              Fixtures.jsonAvailability Fixtures.jsonPricing
              (Fixtures.event 1 "bookings" 42)
              (Fixtures.world Fixtures.warm (database.mk [Fixtures.event 1 "bookings" 42] []))
              Hu) as (H1 & H2 & H3).
  split; [exact Hu|]. split; [exact H1|]. split; [exact H2|].
  apply H3; [constructor | left; reflexivity].
Defined.

(** X19.  An availability or pricing event whose payload cannot be decoded
    invalidates nothing: no Redis command is issued, so whatever was
    cached for the property stays cached, the failure is logged, and the
    event is marked processed all the same. *)
Theorem X19_an_undecodable_payload_invalidates_nothing_and_is_marked
    {jsonAvailability : JSON Availability} {jsonPricing : JSON Pricing}
    (ev : Event) (w : World) (e : error)
    (Hbad : (TableName ev = "availabilities" /\ @Unmarshal Availability _ (Data ev) = Err e) \/
            (TableName ev = "pricing" /\ @Unmarshal Pricing _ (Data ev) = Err e)) :
  let w' := snd (handlers.processEvent ev w) in
  redis w' = redis w /\
  In ("Failed to unmarshal " +:+
      (if String.eqb (TableName ev) "pricing" then "pricing" else "availability")
      +:+ " data: " +:+ errorString e) (logs w') /\
  (database.healthy (db w) -> In ev (database.events (db w)) ->
   processedFlag (db w') (ID ev) = Some true).
Proof.
  cbv zeta. destruct (TickFacts.handleEvent_undecodable ev w e Hbad) as [line E].
  destruct (RelayInstances.processEvent_stores ev w) as [-> _].
  rewrite TickFacts.processEvent_logs, E. simpl.
  split; [reflexivity|]. split; [|apply TickFacts.marked].
  rewrite !in_app_iff. left. right. now left.
Qed.

(** X19 at work: an availability event with an empty object for payload,
    which the availability codec at hand rejects. *)
Lemma X19_witness :
  let ev := Fixtures.event 1 "availabilities" 42 in
  let w := Fixtures.world Fixtures.warm (database.mk [ev] []) in
  let w' := snd (@handlers.processEvent Fixtures.jsonAvailability Fixtures.jsonPricing ev w) in
  @Unmarshal Availability Fixtures.jsonAvailability (Data ev)
    = Err (Error "unexpected end of JSON input") /\
  Redis.live (redis w') "availability:42:2025-12-01" = Some (Fixtures.plain "{}") /\
  In "Failed to unmarshal availability data: unexpected end of JSON input" (logs w') /\
  processedFlag (db w') 1 = Some true.
Proof.
  cbv zeta.
  assert (Hu : @Unmarshal Availability Fixtures.jsonAvailability
                 (Data (Fixtures.event 1 "availabilities" 42))
               = Err (Error "unexpected end of JSON input")) by reflexivity.
  destruct (@X19_an_undecodable_payload_invalidates_nothing_and_is_marked
              Fixtures.jsonAvailability Fixtures.jsonPricing
              (Fixtures.event 1 "availabilities" 42)
              (Fixtures.world Fixtures.warm
                 (database.mk [Fixtures.event 1 "availabilities" 42] []))
              (Error "unexpected end of JSON input")
              (or_introl (conj eq_refl Hu))) as (H1 & H2 & H3).
  split; [exact Hu|]. split; [rewrite H1; reflexivity|]. split; [exact H2|].
  apply H3; [constructor | left; reflexivity].
Defined.

(** X20.  When the statement that marks an event fails, the row stays as
    it was, so a pending event stays pending and is due again at a later
    tick; the failure costs one log line, the last of the event, and the
    cache work of the event has been done all the same. *)
Theorem X20_a_failed_mark_leaves_the_event_pending
    {jsonAvailability : JSON Availability} {jsonPricing : JSON Pricing}
    (ev : Event) (w : World) (e : error) (fs : list (option error))
    (Hfault : database.dbfaults (db w) = Some e :: fs) :
  let w' := snd (handlers.processEvent ev w) in
  database.events (db w') = database.events (db w) /\
  database.dbfaults (db w') = fs /\
  redis w' = redis (snd (handlers.handleEvent ev w)) /\
  logs w' = (logs (snd (handlers.handleEvent ev w)) ++
             ["Failed to mark event " +:+ Text.dec (ID ev) +:+ " as processed: "
              +:+ errorString e])%list.
Proof.
  cbv zeta. destruct (RelayInstances.processEvent_stores ev w) as [-> ->].
  rewrite TickFacts.processEvent_logs.
  unfold database.MarkEventAsProcessed, bind, database.attempt. rewrite Hfault. simpl. auto.
Qed.

(** X20 at work: the store refuses the update of event 1. *)
Lemma X20_witness :
  let d := database.mk [Fixtures.event 1 "properties" 42] [Some Fixtures.refused] in
  let w := Fixtures.world Fixtures.warm d in
  let w' := snd (@handlers.processEvent Fixtures.jsonAvailability Fixtures.jsonPricing
                   (Fixtures.event 1 "properties" 42) w) in
  database.dbfaults (db w) = [Some Fixtures.refused] /\
  processedFlag (db w') 1 = Some false /\
  Redis.live (redis w') "property:42" = None /\
  map ID (fetched w') = [1].
Proof.
  cbv zeta.
  set (d := database.mk [Fixtures.event 1 "properties" 42] [Some Fixtures.refused]).
  assert (Hf : database.dbfaults (db (Fixtures.world Fixtures.warm d)) = [Some Fixtures.refused])
    by reflexivity.
  destruct (@X20_a_failed_mark_leaves_the_event_pending
              Fixtures.jsonAvailability Fixtures.jsonPricing
              (Fixtures.event 1 "properties" 42) (Fixtures.world Fixtures.warm d)
              Fixtures.refused [] Hf) as (H1 & H2 & H3 & _).
  split; [exact Hf|].
  unfold processedFlag, fetched, database.GetUnprocessedEvents, bind, database.attempt.
  rewrite H1, H2, H3. repeat split; vm_compute; reflexivity.
Defined.

(** X21.  A tick that gets no batch, because nothing is pending or because
    the fetch failed, issues no Redis command and changes no row; a failed
    fetch costs one log line, an empty batch none. *)
Theorem X21_a_tick_without_a_batch_touches_nothing
    {jsonAvailability : JSON Availability} {jsonPricing : JSON Pricing}
    (w : World)
    (Hnone : fetched w = []) :
  let w' := snd (handlers.processUnprocessedEvents w) in
  redis w' = redis w /\
  database.events (db w') = database.events (db w) /\
  logs w' = (logs w ++
             match snd (fst (database.GetUnprocessedEvents 100 (db w))) with
             | Some e => ["Failed to get unprocessed events: " +:+ errorString e]
             | None => []
             end)%list.
Proof.
  cbv zeta. unfold fetched in Hnone.
  pose proof (DatabaseFacts.Get_events 100 (db w)) as He.
  unfold handlers.processUnprocessedEvents, bind, onDB.
  destruct (database.GetUnprocessedEvents 100 (db w)) as [[events err] d]. simpl in *.
  subst events. destruct err as [e|]; simpl; [auto|].
  now rewrite app_nil_r.
Qed.

(** X21 at work: one event pending, and the store refuses the fetch. *)
Lemma X21_witness :
  let d := database.mk [Fixtures.event 1 "properties" 42] [Some Fixtures.refused] in
  let w := Fixtures.world Fixtures.warm d in
  let w' := snd (@handlers.processUnprocessedEvents
                   Fixtures.jsonAvailability Fixtures.jsonPricing w) in
  fetched w = [] /\
  redis w' = redis w /\
  database.events (db w') = database.events (db w) /\
  logs w' = ["Failed to get unprocessed events: dial tcp 127.0.0.1:6379: connect: connection refused"].
Proof.
  cbv zeta.
  set (d := database.mk [Fixtures.event 1 "properties" 42] [Some Fixtures.refused]).
  assert (Hn : fetched (Fixtures.world Fixtures.warm d) = []) by reflexivity.
  split; [exact Hn|].
  exact (@X21_a_tick_without_a_batch_touches_nothing
           Fixtures.jsonAvailability Fixtures.jsonPricing (Fixtures.world Fixtures.warm d) Hn).
Defined.

(** * Further properties: what a tick of the relay clears *)

Module ClearFacts.

Lemma shrinks_logLine (line : string) : preserves cacheShrinks (logLine line).
Proof. intros w. apply RelayInstances.cacheShrinks_log. Qed.

Lemma shrinks_step (m : ST Redis.t (option error)) (prefix : string) (rest : ST World unit) :
  quiet m -> preserves cacheShrinks rest ->
  preserves cacheShrinks (do err <- onRedis m; logIfErr prefix err ;; rest).
Proof.
  intros Hm Hrest.
  apply (RelayFacts.preserves_step cacheShrinks);
    auto using RelayInstances.cacheShrinks_refl, RelayInstances.cacheShrinks_log,
               RelayInstances.cacheShrinks_redis.
  exact RelayInstances.cacheShrinks_trans.
Qed.

(** The world after one invalidation and its log line. *)
Lemma after_step (m : ST Redis.t (option error)) (prefix : string) (rest : ST World unit)
    (w : World) :
  exists w1, redis w1 = snd (m (redis w)) /\
    snd ((do err <- onRedis m; logIfErr prefix err ;; rest) w) = snd (rest w1).
Proof.
  unfold bind, onRedis. destruct (m (redis w)) as [err r1]. simpl.
  destruct err as [e|]; simpl; eexists; split; try reflexivity; reflexivity.
Qed.

(** A step that clears [k] on a healthy connection, followed by steps
    that bring nothing back. *)
Lemma clear_now (k : string) (m : ST Redis.t (option error)) (prefix : string)
    (rest : ST World unit) (w : World) :
  Redis.healthy (redis w) ->
  (forall r, Redis.healthy r -> Redis.live (snd (m r)) k = None) ->
  preserves cacheShrinks rest ->
  Redis.live (redis (snd ((do err <- onRedis m; logIfErr prefix err ;; rest) w))) k = None.
Proof.
  intros H Hm Hrest. destruct (after_step m prefix rest w) as (w1 & E1 & ->).
  apply (Hrest w1). rewrite E1. now apply Hm.
Qed.

(** A quiet step before steps that clear [k]. *)
Lemma clear_later (k : string) (m : ST Redis.t (option error)) (prefix : string)
    (rest : ST World unit) (w : World) :
  quiet m -> Redis.healthy (redis w) ->
  (forall w0, Redis.healthy (redis w0) -> Redis.live (redis (snd (rest w0))) k = None) ->
  Redis.live (redis (snd ((do err <- onRedis m; logIfErr prefix err ;; rest) w))) k = None.
Proof.
  intros Hm H Hrest. destruct (after_step m prefix rest w) as (w1 & E1 & ->).
  apply Hrest. rewrite E1. now apply Hm.
Qed.

Lemma search_cleared (k : string) (r : Redis.t) :
  Redis.glob "search:*" k = true -> Redis.healthy r ->
  Redis.live (snd (cache.InvalidateSearchCache "" "" r)) k = None.
Proof.
  intros Hk H. destruct (CacheFacts.forEachErr_healthy (cache.searchPatterns "" "") r H) as [_ D].
  apply (D "search:*"); [|exact Hk]. right. right. now left.
Qed.

Ltac quiet_step :=
  first [apply RelayFacts.quiet_property | apply RelayFacts.quiet_patterns
        | apply CacheFacts.quiet_deleteByPattern].

Ltac shrinking :=
  repeat (apply shrinks_step; [quiet_step|]); apply shrinks_logLine.

Section Facts.
Context {jsonAvailability : JSON Availability} {jsonPricing : JSON Pricing}.

(** Every handler with a case in [handleEvent] clears the search
    namespace, the two that decode a payload provided it decodes. *)
Lemma handleEvent_clears_search (ev : Event) (w : World) (k : string) :
  Redis.healthy (redis w) ->
  knownTable (TableName ev) = true -> decodable ev = true ->
  Redis.glob "search:*" k = true ->
  Redis.live (redis (snd (handlers.handleEvent ev w))) k = None.
Proof.
  intros H Hknown Hdec Hk.
  unfold knownTable in Hknown. cbn [existsb] in Hknown. unfold decodable in Hdec.
  unfold handlers.handleEvent, bind.
  destruct (logLine _ w) as [[] w1] eqn:E1.
  assert (H1 : Redis.healthy (redis w1)).
  { change w1 with (snd (tt, w1)). rewrite <- E1. exact H. }
  clear E1.
  destruct (String.eqb (TableName ev) "properties") eqn:T1.
  { unfold handlers.handlePropertyEvent.
    apply clear_later; [quiet_step | exact H1 |]. intros w0 H0.
    apply clear_now; [exact H0 | intros r Hr; now apply search_cleared | shrinking]. }
  destruct (String.eqb (TableName ev) "availabilities") eqn:T2.
  { unfold handlers.handleAvailabilityEvent.
    destruct (Unmarshal (Data ev)) as [a|e]; [|discriminate].
    apply clear_later; [quiet_step | exact H1 |]. intros w0 H0.
    apply clear_now; [exact H0 | intros r Hr; now apply search_cleared | shrinking]. }
  destruct (String.eqb (TableName ev) "pricing") eqn:T3.
  { unfold handlers.handlePricingEvent.
    destruct (Unmarshal (Data ev)) as [a|e]; [|discriminate].
    apply clear_now; [exact H1 | intros r Hr; now apply search_cleared | shrinking]. }
  destruct (String.eqb (TableName ev) "amenities") eqn:T4.
  { unfold handlers.handleAmenityEvent.
    apply clear_later; [quiet_step | exact H1 |]. intros w0 H0.
    apply clear_now; [exact H0 | intros r Hr; now apply search_cleared | shrinking]. }
  destruct (String.eqb (TableName ev) "conditions") eqn:T5.
  { unfold handlers.handleConditionEvent.
    apply clear_later; [quiet_step | exact H1 |]. intros w0 H0.
    apply clear_now; [exact H0 | intros r Hr; now apply search_cleared | shrinking]. }
  destruct (String.eqb (TableName ev) "property_amenities" ||
            String.eqb (TableName ev) "property_conditions") eqn:T6.
  { unfold handlers.handlePropertyRelationEvent.
    apply clear_now; [exact H1 | intros r Hr; now apply search_cleared | shrinking]. }
  apply orb_false_elim in T6 as [T6 T7]. rewrite T6, T7 in Hknown. discriminate.
Qed.

(** What one event of a batch clears stays cleared to the end of the
    tick. *)
Lemma loop_key (events : list Event) (w : World) (ev : Event) (k : string) :
  Redis.healthy (redis w) -> In ev events ->
  (forall w0, Redis.healthy (redis w0) ->
     Redis.live (redis (snd (handlers.handleEvent ev w0))) k = None) ->
  Redis.live (redis (snd (forEach handlers.processEvent events w))) k = None.
Proof.
  revert w. induction events as [|e events IH]; intros w H Hin Hc; [easy|].
  simpl. unfold bind.
  pose proof (RelayInstances.processEvent_cacheShrinks e w) as [_ H1]. specialize (H1 H).
  destruct (RelayInstances.processEvent_stores e w) as [Er _].
  destruct (handlers.processEvent e w) as [[] w1]. simpl in *.
  destruct Hin as [->|Hin]; [|now apply IH].
  apply (RelayInstances.loop_cacheShrinks events w1). rewrite Er. now apply Hc.
Qed.

Lemma tick_key (w : World) (ev : Event) (k : string) :
  Redis.healthy (redis w) -> In ev (fetched w) ->
  (forall w0, Redis.healthy (redis w0) ->
     Redis.live (redis (snd (handlers.handleEvent ev w0))) k = None) ->
  Redis.live (redis (snd (handlers.processUnprocessedEvents w))) k = None.
Proof.
  intros H Hin Hc. unfold handlers.processUnprocessedEvents, bind, onDB.
  unfold fetched in Hin.
  pose proof (DatabaseFacts.Get_rows 100 (db w)) as Hrows.
  destruct (database.GetUnprocessedEvents 100 (db w)) as [[events err] d1]. simpl in *.
  destruct Hrows as [[e [= -> _]]|[= _ ->]]; [easy|].
  destruct (length events =? 0)%nat eqn:El.
  - apply Nat.eqb_eq in El. destruct events; [easy | discriminate].
  - simpl. now apply (loop_key events _ ev).
Qed.

(** A healthy [GET] of a key that is not there. *)
Lemma search_miss {JR : JSON SearchResultsCache} (now : Time.t) (k : string) (r : Redis.t) :
  Redis.healthy r -> Redis.live r k = None ->
  fst (cache.GetSearchResultsCache now k r) = (None, None).
Proof.
  intros H Hk. unfold cache.GetSearchResultsCache, bind.
  destruct (ListCacheFacts.Get_healthy_state k r H) as (r1 & _ & _ & _ & ->).
  now rewrite Hk.
Qed.

End Facts.
End ClearFacts.

(** X22.  Whatever the table, an event that [handleEvent] has a case for
    and whose payload its handler can read empties the search namespace
    on a healthy connection: after the tick that fetched it no key
    matching [search:*] is left, so every search, for any filter, is a
    miss. *)
Theorem X22_every_handled_event_clears_the_search_namespace
    {jsonAvailability : JSON Availability} {jsonPricing : JSON Pricing}
    {jsonResults : JSON SearchResultsCache}
    (w : World) (ev : Event)
    (Hup : Redis.healthy (redis w))
    (Hin : In ev (fetched w))
    (Hknown : knownTable (TableName ev) = true)
    (Hdec : decodable ev = true) :
  let w' := snd (handlers.processUnprocessedEvents w) in
  (forall k, Redis.glob "search:*" k = true -> Redis.live (redis w') k = None) /\
  (forall now filter,
      fst (cache.GetSearchResultsCache now (generateSearchCacheKey filter) (redis w'))
      = (None, None)).
Proof.
  cbv zeta.
  assert (Hclear : forall k, Redis.glob "search:*" k = true ->
            Redis.live (redis (snd (handlers.processUnprocessedEvents w))) k = None).
  { intros k Hk. apply (ClearFacts.tick_key w ev k Hup Hin).
    intros w0 H0. now apply ClearFacts.handleEvent_clears_search. }
  split; [exact Hclear|]. intros now filter.
  apply ClearFacts.search_miss.
  - now apply (PropertyEventFacts.tick_cacheShrinks w).
  - apply Hclear, CacheFacts.search_key_matches.
Qed.

(** X22 at work: a change of the amenities of a property. *)
Lemma X22_witness :
  let ev := Fixtures.event 1 "property_amenities" 42 in
  let w := Fixtures.world Fixtures.warm (database.mk [ev] []) in
  let w' := snd (@handlers.processUnprocessedEvents
                   Fixtures.jsonAvailability Fixtures.jsonPricing w) in
  Redis.healthy (redis w) /\ In ev (fetched w) /\
  knownTable (TableName ev) = true /\
  @decodable Fixtures.jsonAvailability Fixtures.jsonPricing ev = true /\
  Redis.live (redis w) "search:8bb3ea1e419e0c812d47c8353aac00be" <> None /\
  Redis.live (redis w') "search:8bb3ea1e419e0c812d47c8353aac00be" = None.
Proof.
  cbv zeta.
  set (ev := Fixtures.event 1 "property_amenities" 42).
  set (w := Fixtures.world Fixtures.warm (database.mk [ev] [])).
  assert (Hup : Redis.healthy (redis w)) by constructor.
  assert (Hin : In ev (fetched w)) by (left; reflexivity).
  assert (Hk : knownTable (TableName ev) = true) by reflexivity.
  assert (Hd : @decodable Fixtures.jsonAvailability Fixtures.jsonPricing ev = true)
    by reflexivity.
  destruct (@X22_every_handled_event_clears_the_search_namespace
              Fixtures.jsonAvailability Fixtures.jsonPricing Fixtures.jsonResults
              w ev Hup Hin Hk Hd) as [H1 _].
  split; [exact Hup|]. split; [exact Hin|]. split; [exact Hk|]. split; [exact Hd|].
  split; [vm_compute; discriminate|].
  apply H1. vm_compute. reflexivity.
Defined.

Module ListEventFacts.
Section Facts.
Context {jsonAvailability : JSON Availability} {jsonPricing : JSON Pricing}.

Lemma list_cleared (key star : string) (r : Redis.t) :
  literals key = true -> Redis.healthy r ->
  Redis.live (snd (forEachErr cache.deleteByPattern [key; star] r)) key = None.
Proof.
  intros Hl H. destruct (CacheFacts.forEachErr_healthy [key; star] r H) as [_ D].
  apply (D key); [now left|].
  assert (E : key +:+ "" = key).
  { clear. induction key as [|c s IH]; [reflexivity|].
    change (String c (s +:+ "") = String c s). now rewrite IH. }
  pose proof (CacheFacts.glob_prefix key "" "" Hl eq_refl) as G.
  now rewrite E in G.
Qed.

Lemma handleEvent_clears_list (ev : Event) (w : World) :
  Redis.healthy (redis w) ->
  (TableName ev = "amenities" ->
   Redis.live (redis (snd (handlers.handleEvent ev w))) "amenities:all" = None) /\
  (TableName ev = "conditions" ->
   Redis.live (redis (snd (handlers.handleEvent ev w))) "conditions:all" = None).
Proof.
  intros H. split; intros Et; unfold handlers.handleEvent, bind; rewrite Et; simpl.
  - unfold handlers.handleAmenityEvent.
    apply ClearFacts.clear_now; [exact H | | ClearFacts.shrinking].
    intros r Hr. now apply list_cleared.
  - unfold handlers.handleConditionEvent.
    apply ClearFacts.clear_now; [exact H | | ClearFacts.shrinking].
    intros r Hr. now apply list_cleared.
Qed.

End Facts.
End ListEventFacts.

(** X23.  After a tick on a healthy connection that fetched an event of
    the table [amenities], the cached list of amenities is gone:
    [GetAmenities] asks the Data Store and answers with what it says, not
    marked as cached.  An event of the table [conditions] does the same
    for [GetConditions]. *)
Theorem X23_a_list_event_sends_the_next_list_request_to_the_store
    {jsonAvailability : JSON Availability} {jsonPricing : JSON Pricing}
    {jsonAmenities : JSON (list Amenity)} {jsonConditions : JSON (list Condition)}
    (w : World) (ev : Event)
    (Hup : Redis.healthy (redis w))
    (Hin : In ev (fetched w)) :
  let w' := snd (handlers.processUnprocessedEvents w) in
  (TableName ev = "amenities" ->
   forall repo,
     fst (handlers_ext.GetAmenities repo w') =
     match repo with
     | Ok l => Served StatusOK l false
     | Err _ => Failure StatusInternalServerError "Failed to retrieve amenities"
     end) /\
  (TableName ev = "conditions" ->
   forall repo,
     fst (handlers_ext.GetConditions repo w') =
     match repo with
     | Ok l => Served StatusOK l false
     | Err _ => Failure StatusInternalServerError "Failed to retrieve conditions"
     end).
Proof.
  cbv zeta.
  assert (Hup' : Redis.healthy (redis (snd (handlers.processUnprocessedEvents w))))
    by now apply (PropertyEventFacts.tick_cacheShrinks w).
  split; intros Et repo.
  - assert (Hgone : Redis.live (redis (snd (handlers.processUnprocessedEvents w)))
                      "amenities:all" = None).
    { apply (ClearFacts.tick_key w ev _ Hup Hin). intros w0 H0.
      now apply (ListEventFacts.handleEvent_clears_list ev w0 H0). }
    pose proof (ListCacheFacts.GetAmenities_healthy repo _ 0 Hup' ltac:(lia)) as G.
    cbv zeta in G. rewrite Hgone in G. simpl in G.
    destruct repo; now destruct G as (_ & -> & _).
  - assert (Hgone : Redis.live (redis (snd (handlers.processUnprocessedEvents w)))
                      "conditions:all" = None).
    { apply (ClearFacts.tick_key w ev _ Hup Hin). intros w0 H0.
      now apply (ListEventFacts.handleEvent_clears_list ev w0 H0). }
    pose proof (ListCacheFacts.GetConditions_healthy repo _ 0 Hup' ltac:(lia)) as G.
    cbv zeta in G. rewrite Hgone in G. simpl in G.
    destruct repo; now destruct G as (_ & -> & _).
Qed.

(** X23 at work: both lists cached; an amenity is renamed in one world, a
    condition in another. *)
Lemma X23_witness :
  let a := Fixtures.event 1 "amenities" 2 in
  let c := Fixtures.event 1 "conditions" 1 in
  let tick := @handlers.processUnprocessedEvents Fixtures.jsonAvailability Fixtures.jsonPricing in
  let wa := Fixtures.world Samples.lists (database.mk [a] []) in
  let wc := Fixtures.world Samples.lists (database.mk [c] []) in
  fst (@handlers_ext.GetAmenities Samples.jsonAmenities (Ok []) wa)
  = Served StatusOK [Samples.wifi] true /\
  fst (@handlers_ext.GetAmenities Samples.jsonAmenities (Ok []) (snd (tick wa)))
  = Served StatusOK [] false /\
  fst (@handlers_ext.GetConditions Samples.jsonConditions (Ok []) wc)
  = Served StatusOK [Samples.pets] true /\
  fst (@handlers_ext.GetConditions Samples.jsonConditions (Ok []) (snd (tick wc)))
  = Served StatusOK [] false.
Proof.
  cbv zeta.
  set (a := Fixtures.event 1 "amenities" 2).
  set (c := Fixtures.event 1 "conditions" 1).
  set (wa := Fixtures.world Samples.lists (database.mk [a] [])).
  set (wc := Fixtures.world Samples.lists (database.mk [c] [])).
  destruct (@X23_a_list_event_sends_the_next_list_request_to_the_store
              Fixtures.jsonAvailability Fixtures.jsonPricing
              Samples.jsonAmenities Samples.jsonConditions wa a
              ltac:(constructor) ltac:(left; reflexivity)) as [HA _].
  destruct (@X23_a_list_event_sends_the_next_list_request_to_the_store
              Fixtures.jsonAvailability Fixtures.jsonPricing
              Samples.jsonAmenities Samples.jsonConditions wc c
              ltac:(constructor) ltac:(left; reflexivity)) as [_ HC].
  split; [vm_compute; reflexivity|]. split; [exact (HA eq_refl (Ok []))|].
  split; [vm_compute; reflexivity | exact (HC eq_refl (Ok []))].
Defined.

(** * Further properties: how a tick drains the table *)

(** X24.  On a healthy store a tick takes the first hundred pending rows,
    in table order, and flags every row that has the id of one of them;
    it adds, removes and reorders no row.  What is pending afterwards is
    what was pending minus the ids of the batch: with unique ids, the
    pending rows beyond the first hundred, and nothing at all when at
    most a hundred were pending. *)
Theorem X24_a_tick_drains_the_first_hundred_pending_rows
    {jsonAvailability : JSON Availability} {jsonPricing : JSON Pricing}
    (w : World)
    (Hdb : database.healthy (db w)) :
  let w' := snd (handlers.processUnprocessedEvents w) in
  let batch := map ID (fetched w) in
  batch = firstn 100 (pendingIDs (db w)) /\
  map ID (database.events (db w')) = map ID (database.events (db w)) /\
  pendingIDs (db w') = filter (fun i => negb (existsb (Z.eqb i) batch)) (pendingIDs (db w)) /\
  (List.NoDup (map ID (database.events (db w))) ->
   pendingIDs (db w') = skipn 100 (pendingIDs (db w))) /\
  ((length (pendingIDs (db w)) <= 100)%nat -> pendingIDs (db w') = []).
Proof.
  cbv zeta.
  assert (Hbatch : map ID (fetched w) = firstn 100 (pendingIDs (db w))).
  { unfold fetched. rewrite (DrainFacts.fetch_healthy_rows (db w) Hdb). simpl.
    unfold pendingIDs. now rewrite firstn_map. }
  assert (Hpend : pendingIDs (db (snd (handlers.processUnprocessedEvents w)))
                  = filter (fun i => Is_true (negb (existsb (Z.eqb i) (map ID (fetched w)))))
                      (pendingIDs (db w))).
  { unfold pendingIDs. rewrite (DrainFacts.tick_rows w Hdb). apply DrainFacts.pending_after. }
  assert (Hnd : forall l : list Event, List.NoDup (map ID l) ->
            List.NoDup (map ID (filter (fun ev => Is_true (negb (Processed ev))) l))).
  { induction l as [|row l IH]; intros Hl; [constructor|].
    rewrite DrainFacts.filter_cons_bool. inversion Hl as [|? ? Hnot Hl']. subst.
    destruct (negb (Processed row)); [|now apply IH].
    cbn [map]. constructor; [|now apply IH].
    intros Hin. apply Hnot. apply in_map_iff in Hin as (x & Ex & Hx).
    apply in_map_iff. exists x. split; [exact Ex|].
    apply list_elem_of_In. apply list_elem_of_In in Hx.
    now apply list_elem_of_filter in Hx as [_ Hx]. }
  split; [exact Hbatch|]. split; [|split; [exact Hpend|split]].
  - rewrite (DrainFacts.tick_rows w Hdb), map_map. apply map_ext.
    intros row. now destruct (existsb _ _).
  - intros Hu. rewrite Hpend, Hbatch. apply DrainFacts.strike_firstn. now apply Hnd.
  - intros Hle. rewrite Hpend, Hbatch, firstn_all2 by exact Hle.
    apply DrainFacts.filter_none. intros i Hi. now apply negb_false_iff, DrainFacts.inBatch_iff.
Qed.

(** X24 at work: three rows, the second already flagged. *)
Lemma X24_witness :
  let done := database.setProcessed (Fixtures.event 2 "pricing" 7) in
  let d := database.mk [Fixtures.event 1 "properties" 42; done;
                        Fixtures.event 3 "amenities" 2] [] in
  let w := Fixtures.world Fixtures.warm d in
  let w' := snd (@handlers.processUnprocessedEvents
                   Fixtures.jsonAvailability Fixtures.jsonPricing w) in
  database.healthy (db w) /\
  List.NoDup (map ID (database.events (db w))) /\
  (length (pendingIDs (db w)) <= 100)%nat /\
  map ID (fetched w) = [1; 3] /\
  map ID (database.events (db w')) = [1; 2; 3] /\
  pendingIDs (db w') = [].
Proof.
  cbv zeta.
  set (d := database.mk [Fixtures.event 1 "properties" 42;
                         database.setProcessed (Fixtures.event 2 "pricing" 7);
                         Fixtures.event 3 "amenities" 2] []).
  assert (Hdb : database.healthy (db (Fixtures.world Fixtures.warm d))) by constructor.
  assert (Hnd : List.NoDup (map ID (database.events (db (Fixtures.world Fixtures.warm d))))).
  { simpl. repeat constructor; simpl; intuition discriminate. }
  assert (Hle : (length (pendingIDs (db (Fixtures.world Fixtures.warm d))) <= 100)%nat)
    by (vm_compute; lia).
  destruct (@X24_a_tick_drains_the_first_hundred_pending_rows
              Fixtures.jsonAvailability Fixtures.jsonPricing
              (Fixtures.world Fixtures.warm d) Hdb) as (H1 & H2 & _ & _ & H5).
  split; [exact Hdb|]. split; [exact Hnd|]. split; [exact Hle|].
  split; [reflexivity|]. split; [rewrite H2; reflexivity | exact (H5 Hle)].
Defined.

(** * Further properties: reads that fail, and the health endpoint *)

Module ReadFacts.
Import Redis.

(** [DEL] changes no value. *)
Lemma Del_sub (ks : list string) (r : t) (k : string) (e : entry) :
  live (snd (Del ks r)) k = Some e -> live r k = Some e.
Proof.
  unfold Del, bind. pose proof (RedisFacts.attempt_data r) as [Hk Hc].
  destruct (attempt r) as [[f|] r1]; simpl in *.
  - now rewrite (RedisFacts.live_ext r r1 k Hk Hc).
  - unfold live. simpl. rewrite RedisFacts.lookup_remove, Hk, Hc.
    now destruct (bool_decide _).
Qed.

Lemma GetSearchResultsCache_sub {J : JSON SearchResultsCache}
    (now : Time.t) (key : string) (r : t) (k : string) (e : entry) :
  live (snd (cache.GetSearchResultsCache now key r)) k = Some e -> live r k = Some e.
Proof.
  unfold cache.GetSearchResultsCache, bind.
  pose proof (RedisFacts.Get_keys key r) as [Hk Hc].
  destruct (Get key r) as [[val err] r1]. simpl in *.
  assert (E : live r1 k = live r k) by now apply RedisFacts.live_ext.
  destruct err as [x|].
  - destruct (isRedisNil x); simpl; now rewrite E.
  - destruct (Unmarshal val) as [results|x]; simpl; [|now rewrite E].
    destruct (Time.Before _ _); simpl; [|now rewrite E].
    pose proof (Del_sub [key] r1 k e) as Hd.
    destruct (Del [key] r1) as [x r2]. simpl in *. intros H. rewrite <- E. now apply Hd.
Qed.

Lemma GetPropertyCache_same {J : JSON Property} (i : Z) (r : t) (k : string) :
  live (snd (cache.GetPropertyCache i r)) k = live r k.
Proof.
  unfold cache.GetPropertyCache, bind.
  pose proof (RedisFacts.Get_keys (cache.propertyKey i) r) as [Hk Hc].
  destruct (Get (cache.propertyKey i) r) as [[val err] r1]. simpl in *.
  assert (E : live r1 k = live r k) by now apply RedisFacts.live_ext.
  destruct err as [x|].
  - now destruct (isRedisNil x).
  - now destruct (Unmarshal val).
Qed.

End ReadFacts.

(** X25.  A read that does not answer 200 stores nothing.  Whatever the
    state of the connection, a search that is refused or fails leaves in
    the cache only what was there, with the values it had, and a property
    request that is refused, finds nothing or fails leaves every key
    reading as before; a request that cannot be bound or parsed leaves
    the whole world as it was. *)
Theorem X25_a_read_that_fails_stores_nothing
    {JP : JSON Property} {JR : JSON SearchResultsCache}
    (repoSearch : SearchFilter -> res (list Property * Z))
    (convert : list Property -> SearchFilter -> list SearchResult)
    (repoGet : Z -> res Property)
    (clock : Clock) (bound : res SearchFilter) (idParam : string) (w : World) :
  let search := handlers.SearchProperties repoSearch convert clock bound w in
  let get := handlers.GetProperty repoGet idParam w in
  (status (fst search) <> StatusOK ->
   forall k e, Redis.live (redis (snd search)) k = Some e -> Redis.live (redis w) k = Some e) /\
  (status (fst get) <> StatusOK ->
   forall k, Redis.live (redis (snd get)) k = Redis.live (redis w) k) /\
  (status (fst search) = StatusBadRequest -> snd search = w) /\
  (status (fst get) = StatusBadRequest -> snd get = w).
Proof.
  cbv zeta. split; [|split; [|split]].
  - unfold handlers.SearchProperties. destruct bound as [f|x]; [|auto].
    unfold bind, logLine, onRedis. simpl.
    pose proof (ReadFacts.GetSearchResultsCache_sub (atCheck clock)
                  (generateSearchCacheKey (validatePagination f)) (redis w)) as Hsub.
    destruct (cache.GetSearchResultsCache _ _ _) as [[cached err] r1]. simpl in Hsub.
    destruct err as [x|]; simpl; (destruct cached as [c|]; simpl; [congruence|]).
    all: destruct (repoSearch _) as [[properties total]|x']; simpl; [|intros _; exact Hsub].
    all: destruct (cache.SetSearchResultsCache _ _ _ _ _) as [[x''|] r2]; simpl; congruence.
  - unfold handlers.GetProperty. destruct (ParseUint32 idParam) as [i|x]; [|auto].
    unfold bind, logLine, onRedis. simpl.
    pose proof (ReadFacts.GetPropertyCache_same i (redis w)) as Hsame.
    destruct (cache.GetPropertyCache i (redis w)) as [[cached err] r1]. simpl in Hsame.
    destruct err as [x|]; simpl; (destruct cached as [c|]; simpl; [congruence|]).
    all: destruct (repoGet i) as [property|x']; simpl.
    all: try (destruct (isErrRecordNotFound x'); simpl; intros _; exact Hsame).
    all: destruct (cache.SetPropertyCache _ _ _ _) as [[x''|] r2]; simpl; congruence.
  - unfold handlers.SearchProperties. destruct bound as [f|x]; [|auto].
    unfold bind, logLine, onRedis. simpl.
    destruct (cache.GetSearchResultsCache _ _ _) as [[cached err] r1].
    destruct err as [x|]; simpl; (destruct cached as [c|]; simpl; [discriminate|]).
    all: destruct (repoSearch _) as [[properties total]|x']; simpl; [|discriminate].
    all: destruct (cache.SetSearchResultsCache _ _ _ _ _) as [[x''|] r2]; simpl; discriminate.
  - unfold handlers.GetProperty. destruct (ParseUint32 idParam) as [i|x]; [|auto].
    unfold bind, logLine, onRedis. simpl.
    destruct (cache.GetPropertyCache i (redis w)) as [[cached err] r1].
    destruct err as [x|]; simpl; (destruct cached as [c|]; simpl; [discriminate|]).
    all: destruct (repoGet i) as [property|x']; simpl.
    all: try (destruct (isErrRecordNotFound x'); simpl; discriminate).
    all: destruct (cache.SetPropertyCache _ _ _ _) as [[x''|] r2]; simpl; discriminate.
Qed.

(** X25 at work: the warm cache with the Data Store down, and a request
    for a property [x]. *)
Lemma X25_witness :
  let down := fun _ : SearchFilter => @Err (list Property * Z) (Error "connection reset by peer") in
  let w := Fixtures.world Fixtures.warm Fixtures.pending in
  let search := @handlers.SearchProperties Fixtures.jsonResults down Fixtures.noConvert
                  Fixtures.atMorning (Ok Fixtures.goa) w in
  let get := @handlers.GetProperty Fixtures.jsonProperty Fixtures.storeDown "7" w in
  let bad := @handlers.GetProperty Fixtures.jsonProperty Fixtures.storeDown "x" w in
  status (fst search) = StatusInternalServerError /\
  (forall k e, Redis.live (redis (snd search)) k = Some e -> Redis.live (redis w) k = Some e) /\
  status (fst get) = StatusInternalServerError /\
  (forall k, Redis.live (redis (snd get)) k = Redis.live (redis w) k) /\
  status (fst bad) = StatusBadRequest /\
  snd bad = w.
Proof.
  cbv zeta.
  set (down := fun _ : SearchFilter => @Err (list Property * Z) (Error "connection reset by peer")).
  set (w := Fixtures.world Fixtures.warm Fixtures.pending).
  assert (S1 : status (fst (@handlers.SearchProperties Fixtures.jsonResults down
                              Fixtures.noConvert Fixtures.atMorning (Ok Fixtures.goa) w))
               = StatusInternalServerError) by (vm_compute; reflexivity).
  assert (G1 : status (fst (@handlers.GetProperty Fixtures.jsonProperty Fixtures.storeDown "7" w))
               = StatusInternalServerError) by (vm_compute; reflexivity).
  assert (B1 : status (fst (@handlers.GetProperty Fixtures.jsonProperty Fixtures.storeDown "x" w))
               = StatusBadRequest) by (vm_compute; reflexivity).
  destruct (@X25_a_read_that_fails_stores_nothing Fixtures.jsonProperty Fixtures.jsonResults
              down Fixtures.noConvert Fixtures.storeDown Fixtures.atMorning (Ok Fixtures.goa)
              "7" w) as (H1 & H2 & _ & _).
  destruct (@X25_a_read_that_fails_stores_nothing Fixtures.jsonProperty Fixtures.jsonResults
              down Fixtures.noConvert Fixtures.storeDown Fixtures.atMorning (Ok Fixtures.goa)
              "x" w) as (_ & _ & _ & H4).
  split; [exact S1|]. split; [apply H1; rewrite S1; discriminate|].
  split; [exact G1|]. split; [apply H2; rewrite G1; discriminate|].
  split; [exact B1 | exact (H4 B1)].
Defined.

(** X26.  [HealthCheck] answers 200 with the status [healthy] whatever it
    finds: the outcome of the two probes shows only in the fields
    [database] and [redis], each [up] exactly when its probe succeeded.
    The probes change no key, no deadline and no row. *)
Theorem X26_HealthCheck_always_answers_200_healthy (now : Time.t) (w : World) :
  let out := handlers_ext.HealthCheck now w in
  fst (fst out) = StatusOK /\
  health_status (snd (fst out)) = "healthy" /\
  health_timestamp (snd (fst out)) = now /\
  health_database (snd (fst out))
  = match fst (database.attempt (db w)) with Some _ => "down" | None => "up" end /\
  health_redis (snd (fst out))
  = match fst (Redis.attempt (redis w)) with Some _ => "down" | None => "up" end /\
  Redis.keys (redis (snd out)) = Redis.keys (redis w) /\
  Redis.clock (redis (snd out)) = Redis.clock (redis w) /\
  database.events (db (snd out)) = database.events (db w) /\
  logs (snd out) = logs w.
Proof.
  cbv zeta. unfold handlers_ext.HealthCheck, bind, onDB, onRedis,
    cache_ext.HealthCheck, RedisOps.Ping.
  pose proof (DatabaseFacts.attempt_events (db w)) as He.
  pose proof (RedisFacts.attempt_data (redis w)) as [Hk Hc].
  destruct (database.attempt (db w)) as [e d1]. simpl in *.
  destruct (Redis.attempt (redis w)) as [e' r1]. simpl in *.
  destruct e, e'; auto 10.
Qed.

(** * Further properties: from properties to search results *)

(** X27.  [convertPropertiesToSearchResults] lists, in the order given,
    exactly the properties whose pricing look-up succeeds, and logs one
    line for each of the others; it touches neither the cache nor the
    table.  Every result is marked available; it carries a distance
    exactly when the filter has both coordinates; and a property whose
    look-up succeeds without a single row is listed with a total and a
    nightly price of zero. *)
Theorem X27_results_are_the_priced_properties_in_order
    (repoGetPricingForDateRange : Z -> string -> string -> res (list Pricing))
    (fadd fdiv : spec_float -> spec_float -> spec_float)
    (floatOfInt : Z -> spec_float)
    (calculateDistance : spec_float -> spec_float -> spec_float -> spec_float -> spec_float)
    (properties : list Property) (filter : SearchFilter) (w : World) :
  let out := handlers_ext.convertPropertiesToSearchResults repoGetPricingForDateRange
               fadd fdiv floatOfInt calculateDistance properties filter w in
  map result_ID (fst out)
  = map property_ID (List.filter (priced repoGetPricingForDateRange filter) properties) /\
  (exists lines, logs (snd out) = (logs w ++ lines)%list /\
                 (length (fst out) + length lines = length properties)%nat) /\
  redis (snd out) = redis w /\ db (snd out) = db w /\
  (forall r, In r (fst out) ->
     result_Available r = true /\
     (result_Distance r <> None <->
      deref (Latitude filter) <> None /\ deref (Longitude filter) <> None)) /\
  (forall p, In p properties ->
     repoGetPricingForDateRange (property_ID p)
       (formatDate (CheckinDate filter)) (formatDate (CheckoutDate filter)) = Ok [] ->
     exists r, In r (fst out) /\ result_ID r = property_ID p /\
               result_TotalPrice r = S754_zero false /\
               result_PricePerNight r = S754_zero false).
Proof.
  cbv zeta. revert w. induction properties as [|p properties IH]; intros w.
  - simpl. split; [reflexivity|]. split; [exists []; now rewrite app_nil_r|].
    repeat split; easy.
  - cbn [handlers_ext.convertPropertiesToSearchResults List.filter]. unfold priced at 1.
    destruct (repoGetPricingForDateRange _ _ _) as [pricing|e] eqn:Ep.
    + unfold bind. specialize (IH w).
      destruct (handlers_ext.convertPropertiesToSearchResults _ _ _ _ _ properties filter w)
        as [results w1].
      simpl in *. destruct IH as (I1 & (lines & L1 & L2) & I3 & I4 & I5 & I6).
      split; [now rewrite I1|]. split; [exists lines; split; [exact L1 | lia]|].
      split; [exact I3|]. split; [exact I4|].
      split.
      * intros r [<-|Hr]; [|now apply I5]. simpl. split; [reflexivity|].
        destruct (deref (Latitude filter)), (deref (Longitude filter)); simpl;
          split; try easy; intros [? ?]; easy.
      * intros q [<-|Hq] Hq'.
        -- rewrite Ep in Hq'. injection Hq' as ->. eexists. split; [now left|]. simpl. auto.
        -- destruct (I6 q Hq Hq') as (r & Hr & Hr'). exists r. split; [now right | exact Hr'].
    + unfold bind, logLine.
      set (w0 := {| redis := redis w; db := db w; logs := _ |}).
      specialize (IH w0).
      destruct (handlers_ext.convertPropertiesToSearchResults _ _ _ _ _ properties filter w0)
        as [results w1].
      simpl in *. destruct IH as (I1 & (lines & L1 & L2) & I3 & I4 & I5 & I6).
      split; [exact I1|].
      split; [eexists (_ :: lines); split; [rewrite L1, <- app_assoc; reflexivity | simpl; lia]|].
      split; [exact I3|]. split; [exact I4|]. split; [exact I5|].
      intros q [<-|Hq] Hq'; [congruence|]. now apply I6.
Qed.

(** X27 at work: the pricing of property 0 cannot be read; property 42
    has no pricing row for the dates. *)
Lemma X27_witness :
  let out := handlers_ext.convertPropertiesToSearchResults Samples.pricingOf42
               Samples.fadd Samples.fdiv Samples.floatOfInt Samples.noDistance
               [Fixtures.zeroProperty; Fixtures.villa] Fixtures.goa
               (Fixtures.world Fixtures.warm Fixtures.pending) in
  In Fixtures.villa [Fixtures.zeroProperty; Fixtures.villa] /\
  Samples.pricingOf42 42 (formatDate Time.zero) (formatDate Time.zero) = Ok [] /\
  map result_ID (fst out) = [42] /\
  logs (snd out) = ["Failed to get pricing for property 0: connection reset by peer"] /\
  (forall r, In r (fst out) -> result_Available r = true /\ result_Distance r = None) /\
  (exists r, In r (fst out) /\ result_ID r = 42 /\
             result_TotalPrice r = S754_zero false /\
             result_PricePerNight r = S754_zero false).
Proof.
  cbv zeta.
  assert (Hin : In Fixtures.villa [Fixtures.zeroProperty; Fixtures.villa])
    by (right; left; reflexivity).
  assert (Hp : Samples.pricingOf42 (property_ID Fixtures.villa)
                 (formatDate (CheckinDate Fixtures.goa)) (formatDate (CheckoutDate Fixtures.goa))
               = Ok []) by reflexivity.
  destruct (X27_results_are_the_priced_properties_in_order Samples.pricingOf42
              Samples.fadd Samples.fdiv Samples.floatOfInt Samples.noDistance
              [Fixtures.zeroProperty; Fixtures.villa] Fixtures.goa
              (Fixtures.world Fixtures.warm Fixtures.pending))
    as (H1 & _ & _ & _ & H5 & H6).
  split; [exact Hin|]. split; [exact Hp|]. split; [exact H1|].
  split; [reflexivity|]. split; [|exact (H6 Fixtures.villa Hin Hp)].
  intros r Hr. destruct (H5 r Hr) as [Ha Hd]. split; [exact Ha|].
  destruct (result_Distance r); [|reflexivity].
  destruct Hd as [Hd _]. destruct (Hd ltac:(discriminate)) as [Hlat _]. now destruct Hlat.
Defined.

(** * Further properties: the id of a property request *)

Module ParseFacts.
Import DecimalPos.Unsigned.

(** Reading the digits of [u] after those of [d'], the latter held least
    significant digit first. *)
Lemma parseDigits_revapp (u d' : Decimal.uint) :
  parseDigits (Z.of_N (of_lu d')) (DecimalString.NilEmpty.string_of_uint u)
  = Some (Z.of_N (of_lu (Decimal.revapp u d'))).
Proof.
  revert d'. induction u as [|u IH|u IH|u IH|u IH|u IH|u IH|u IH|u IH|u IH|u IH];
    intros d'; [reflexivity|..].
  all: cbn [DecimalString.NilEmpty.string_of_uint parseDigits Decimal.revapp].
  all: match goal with
       | |- context [digitValue ?c] =>
           change (digitValue c) with (Some (Z.of_N (N_of_ascii c) - 48))
       end.
  all: cbn [N_of_ascii N_of_digits].
  all: rewrite <- IH; f_equal; cbn [of_lu]; lia.
Qed.

Lemma parseDigits_uint (u : Decimal.uint) :
  parseDigits 0 (DecimalString.NilEmpty.string_of_uint u) = Some (Z.of_N (Pos.of_uint u)).
Proof.
  rewrite of_uint_alt. exact (parseDigits_revapp u Decimal.Nil).
Qed.

Lemma parseDigits_dec (n : Z) : 0 <= n -> parseDigits 0 (Text.dec n) = Some n.
Proof.
  intros Hn. destruct n as [|p|p]; [reflexivity| |lia].
  unfold Text.dec. cbn [Z.to_int DecimalString.NilZero.string_of_int].
  assert (E : forall d, d <> Decimal.Nil ->
            DecimalString.NilZero.string_of_uint d = DecimalString.NilEmpty.string_of_uint d)
    by (intros []; easy).
  now rewrite (E _ (to_uint_nonnil p)), parseDigits_uint, of_to.
Qed.

(** What [parseDigits] accepts is digits, and what it returns is no less
    than what it started from. *)
Lemma parseDigits_sound (s : string) (acc m : Z) :
  0 <= acc -> parseDigits acc s = Some m ->
  acc <= m /\ forall c, In c (list_ascii_of_string s) -> digitValue c <> None.
Proof.
  revert acc. induction s as [|c s IH]; intros acc Hacc H; simpl in H.
  - injection H as <-. split; [lia | easy].
  - destruct (digitValue c) as [d|] eqn:Ed; [|discriminate].
    assert (Hd : 0 <= d).
    { unfold digitValue in Ed. destruct (_ && _) eqn:Eb; [|discriminate].
      injection Ed as <-. apply andb_prop in Eb as [Eb _]. apply Z.leb_le in Eb. lia. }
    destruct (IH (10 * acc + d) ltac:(lia) H) as [Hm Hall].
    split; [lia|]. intros c' [<-|Hc']; [congruence | now apply Hall].
Qed.

End ParseFacts.

(** X28.  The id of a property request is read as [strconv.ParseUint]
    reads it: every number from 0 to 2^32 - 1 written in decimal is read
    back as itself, and a number from 2^32 on is out of range; what is
    accepted consists of decimal digits only and lies in that range, so a
    sign is a syntax error; and leading zeros are read over, so a request
    for [042] is the request for [42], with the same answer and the same
    effect. *)
Theorem X28_the_property_id_is_an_unsigned_32_bit_decimal
    {JP : JSON Property} (n : Z) (s : string)
    (Hn : 0 <= n)
    (Hs : s <> "") :
  (n < 2 ^ 32 -> ParseUint32 (Text.dec n) = Ok n) /\
  (2 ^ 32 <= n -> ParseUint32 (Text.dec n) = Err (Error "value out of range")) /\
  (forall m, ParseUint32 s = Ok m ->
     0 <= m < 2 ^ 32 /\ forall c, In c (list_ascii_of_string s) -> digitValue c <> None) /\
  ParseUint32 ("-" +:+ s) = Err (Error "invalid syntax") /\
  ParseUint32 ("+" +:+ s) = Err (Error "invalid syntax") /\
  ParseUint32 ("0" +:+ s) = ParseUint32 s /\
  (forall repo w, handlers.GetProperty repo ("0" +:+ s) w = handlers.GetProperty repo s w).
Proof.
  assert (Hdec : ParseUint32 (Text.dec n)
                   = if n <? 2 ^ 32 then Ok n else Err (Error "value out of range")).
  { unfold ParseUint32. pose proof (TextFacts.dec_nonempty n) as Hne.
    rewrite (ParseFacts.parseDigits_dec n Hn). now destruct (Text.dec n). }
  assert (Hzero : ParseUint32 ("0" +:+ s) = ParseUint32 s).
  { destruct s as [|c s]; [now destruct Hs|]. reflexivity. }
  split; [|split; [|split; [|split; [|split; [|split]]]]].
  - intros Hlt. rewrite Hdec. apply Z.ltb_lt in Hlt. now rewrite Hlt.
  - intros Hge. rewrite Hdec. apply Z.ltb_ge in Hge. now rewrite Hge.
  - intros m Hm. unfold ParseUint32 in Hm. destruct s as [|c s]; [discriminate|].
    destruct (parseDigits 0 (String c s)) as [k|] eqn:Ek; [|discriminate].
    destruct (k <? 2 ^ 32) eqn:Elt; [|discriminate]. injection Hm as <-.
    apply Z.ltb_lt in Elt.
    destruct (ParseFacts.parseDigits_sound (String c s) 0 k ltac:(lia) Ek) as [Hk Hall].
    split; [lia | exact Hall].
  - reflexivity.
  - reflexivity.
  - exact Hzero.
  - intros repo w. unfold handlers.GetProperty. now rewrite Hzero.
Qed.

(** X28 at work: property 42, the first id out of range, and [042]. *)
Lemma X28_witness :
  ParseUint32 (Text.dec 42) = Ok 42 /\
  ParseUint32 (Text.dec 4294967296) = Err (Error "value out of range") /\
  ParseUint32 "-42" = Err (Error "invalid syntax") /\
  ParseUint32 "042" = ParseUint32 "42" /\
  @handlers.GetProperty Fixtures.jsonProperty Fixtures.findVilla "042"
    (Fixtures.world Fixtures.warm Fixtures.pending)
  = @handlers.GetProperty Fixtures.jsonProperty Fixtures.findVilla "42"
      (Fixtures.world Fixtures.warm Fixtures.pending).
Proof.
  destruct (@X28_the_property_id_is_an_unsigned_32_bit_decimal Fixtures.jsonProperty
              42 "42" ltac:(discriminate) ltac:(discriminate))
    as (H1 & _ & _ & H4 & _ & H6 & H7).
  destruct (@X28_the_property_id_is_an_unsigned_32_bit_decimal Fixtures.jsonProperty
              4294967296 "42" ltac:(discriminate) ltac:(discriminate))
    as (_ & H2 & _).
  split; [apply H1; reflexivity|]. split; [apply H2; discriminate|].
  split; [exact H4|]. split; [exact H6|]. exact (H7 Fixtures.findVilla _).
Defined.

(** * Further properties: the statement the repository builds *)

Module QueryFacts.

Ltac pet_fields :=
  unfold query.conditions;
  cbn [withPetFriendly Location City NumberOfGuests MinPrice MaxPrice MinRating AmenityIDs
       ConditionIDs PetFriendly SmokingFriendly CheckinDate CheckoutDate Latitude Longitude
       RadiusKm].

(** The statement reads of the pet-friendly pointer whether it points to
    [true]. *)
Lemma conditions_isTrue (f : SearchFilter) (q q' : Ptr bool) :
  query.isTrue q = query.isTrue q' ->
  query.conditions (withPetFriendly f q) = query.conditions (withPetFriendly f q').
Proof. intros E. pet_fields. now rewrite E. Qed.

Lemma conditions_pets (f : SearchFilter) (q q' : Ptr bool) :
  query.isTrue q = true -> query.isTrue q' = false ->
  (length (query.conditions (withPetFriendly f q))
   = 3 + length (query.conditions (withPetFriendly f q')))%nat.
Proof.
  intros E E'. pet_fields. rewrite E, E'. rewrite !length_app.
  cbn [query.when length]. lia.
Qed.

End QueryFacts.

(** X29.  The statement reads of [pet_friendly] what it says and nothing
    else: where the boolean lives makes no difference, [false] builds the
    statement of a request without the field, and [true] adds three
    clauses.  The cache key reads the opposite, the address and not the
    value, so a request for [true] and one for [false] decoded at the same
    address share a key while the Data Store would be asked two different
    statements; the second is answered from the entry of the first. *)
Theorem X29_the_statement_reads_the_flag_and_the_key_its_address
    {JR : JSON SearchResultsCache}
    (repo : SearchFilter -> res (list Property * Z))
    (conv : list Property -> SearchFilter -> list SearchResult)
    (clock : Clock) (f : SearchFilter) (a a' : N) (v : bool) (w : World)
    (Hhit : servedFromCache
              (fst (handlers.SearchProperties repo conv clock
                      (Ok (withPetFriendly f (Some (a, true)))) w)) = true) :
  query.conditions (withPetFriendly f (Some (a, v)))
  = query.conditions (withPetFriendly f (Some (a', v))) /\
  query.conditions (withPetFriendly f (Some (a, false)))
  = query.conditions (withPetFriendly f None) /\
  (length (query.conditions (withPetFriendly f (Some (a, true))))
   = 3 + length (query.conditions (withPetFriendly f (Some (a, false)))))%nat /\
  handlers.SearchProperties repo conv clock (Ok (withPetFriendly f (Some (a, false)))) w
  = handlers.SearchProperties repo conv clock (Ok (withPetFriendly f (Some (a, true)))) w.
Proof.
  split; [now apply QueryFacts.conditions_isTrue|].
  split; [now apply QueryFacts.conditions_isTrue|].
  split; [now apply QueryFacts.conditions_pets|].
  apply HitFacts.hit_shared; [|exact Hhit].
  unfold generateSearchCacheKey, hashStr. reflexivity.
Qed.

(** X29 at work: pet-friendly places in Goa, cached, and the request for
    places that are not, decoded at the same address. *)
Lemma X29_witness :
  let yes := withPetFriendly Fixtures.goa (Some (0xc00001c0a8%N, true)) in
  let no := withPetFriendly Fixtures.goa (Some (0xc00001c0a8%N, false)) in
  let w := Samples.searched yes in
  servedFromCache (fst (@handlers.SearchProperties Fixtures.jsonResults Fixtures.noSearch
                          Fixtures.noConvert Fixtures.atMorning (Ok yes) w)) = true /\
  query.conditions no <> query.conditions yes /\
  @handlers.SearchProperties Fixtures.jsonResults Fixtures.noSearch Fixtures.noConvert
    Fixtures.atMorning (Ok no) w
  = @handlers.SearchProperties Fixtures.jsonResults Fixtures.noSearch Fixtures.noConvert
      Fixtures.atMorning (Ok yes) w.
Proof.
  cbv zeta.
  set (yes := withPetFriendly Fixtures.goa (Some (0xc00001c0a8%N, true))).
  assert (Hhit : servedFromCache
                   (fst (@handlers.SearchProperties Fixtures.jsonResults Fixtures.noSearch
                           Fixtures.noConvert Fixtures.atMorning (Ok yes)
                           (Samples.searched yes))) = true)
    by (vm_compute; reflexivity).
  destruct (@X29_the_statement_reads_the_flag_and_the_key_its_address Fixtures.jsonResults
              Fixtures.noSearch Fixtures.noConvert Fixtures.atMorning Fixtures.goa
              0xc00001c0a8%N 0%N true (Samples.searched yes) Hhit) as (_ & _ & H3 & H4).
  split; [exact Hhit|]. split; [|exact H4].
  intros E. fold yes in H3. rewrite <- E in H3. lia.
Defined.

(** X30.  After the handler's check the repository's own defaults never
    apply: the statement for a validated filter asks for the filter's
    limit, between 1 and 100, and skips the rows of the pages before the
    filter's page, and it sorts by rating when the request names no
    column.  On its own the repository caps nothing: a limit above 100
    reaches the statement as it is. *)
Theorem X30_the_statement_pages_as_the_validated_filter_says
    (f : SearchFilter)
    (Hpage : Page f < 2 ^ 56) :
  let vf := validatePagination f in
  let s := query.SearchProperties vf in
  query.limit s = Limit vf /\ 1 <= query.limit s <= 100 /\
  query.offset s = (Page vf - 1) * Limit vf /\ 0 <= query.offset s /\
  query.clauses s = query.conditions vf /\
  (SortBy f = "" -> query.order s = "rating DESC") /\
  (100 < Limit f -> query.limit (query.SearchProperties f) = Limit f).
Proof.
  cbv zeta. unfold query.SearchProperties.
  assert (HP : 1 <= Page (validatePagination f) < 2 ^ 56).
  { simpl. destruct (Page f <? 1) eqn:E; [lia|]. apply Z.ltb_ge in E. lia. }
  assert (HL : 1 <= Limit (validatePagination f) <= 100).
  { simpl. destruct (_ || _) eqn:E; [lia|]. apply orb_false_elim in E as [E1 E2].
    apply Z.ltb_ge in E1, E2. lia. }
  set (vf := validatePagination f) in *.
  assert (E1 : (Page vf <? 1) = false) by (apply Z.ltb_ge; lia).
  assert (E2 : (Limit vf <? 1) = false) by (apply Z.ltb_ge; lia).
  rewrite E1, E2. cbn [query.limit query.offset query.clauses query.order].
  assert (Hw : query.wrap64 ((Page vf - 1) * Limit vf) = (Page vf - 1) * Limit vf).
  { unfold query.wrap64.
    assert (0 <= (Page vf - 1) * Limit vf < 2 ^ 63) by nia.
    rewrite Z.mod_small; lia. }
  rewrite Hw. split; [reflexivity|]. split; [exact HL|]. split; [reflexivity|].
  split; [nia|]. split; [reflexivity|]. split.
  - intros Es. unfold vf. cbn [validatePagination SortBy]. now rewrite Es.
  - intros Hl. assert (E3 : (Limit f <? 1) = false) by (apply Z.ltb_ge; lia).
    now rewrite E3.
Qed.

(** X30 at work: page 3 of 500 rows a page, asked of the handler and of
    the repository. *)
Lemma X30_witness :
  let f := withPagination Fixtures.goa 3 500 in
  Page f < 2 ^ 56 /\
  query.limit (query.SearchProperties (validatePagination f)) = 20 /\
  query.offset (query.SearchProperties (validatePagination f)) = 40 /\
  query.order (query.SearchProperties (validatePagination f)) = "rating DESC" /\
  query.limit (query.SearchProperties f) = 500.
Proof.
  cbv zeta.
  assert (Hp : Page (withPagination Fixtures.goa 3 500) < 2 ^ 56) by reflexivity.
  destruct (X30_the_statement_pages_as_the_validated_filter_says
              (withPagination Fixtures.goa 3 500) Hp) as (H1 & _ & H3 & _ & _ & H6 & H7).
  split; [exact Hp|]. split; [exact H1|]. split; [exact H3|].
  split; [exact (H6 eq_refl) | apply H7; reflexivity].
Defined.
